(** * skeleton-testkit: dependency orchestration, port bookkeeping and
      health monitoring, embedded from the Go sources.

    - [container]      : internal/domain/container (Container interface,
                         ContainerError, configuration records)
    - [docker]         : internal/infrastructure/docker (DockerContainer,
                         PortManager, ContainerLifecycleManager)
    - [testcontainers] : internal/infrastructure/testcontainers
                         (TestcontainerAppContainer)
    - [health]         : pkg/health (HealthMonitor)

    Go values of type [error] are [option error] ([None] is [nil]); Go [int]
    port numbers and [time.Duration] nanoseconds are [Z]; Go maps are [gmap].
    Everything outside the repository (the container runtime, the clock, the
    HTTP probes behind a health check) is reached through an explicit world
    state [W] and a record of operations on it. *)

From stdpp Require Import gmap strings list fin_maps pretty.
From Stdlib Require Import ZArith.

Local Open Scope string_scope.
Local Open Scope list_scope.

(** [strings.Contains(s, substr)], as used by the repository's tests. *)
Definition Contains (s substr : string) : bool :=
  match String.index 0 substr s with
  | Some _ => true
  | None => false
  end.

(* ===================================================================== *)
(** ** Package container (domain) *)
(* ===================================================================== *)
Module container.

(** Go errors that occur in the modelled code: the text-only errors built
    by [fmt.Errorf] without [%w] / [errors.New], and [*ContainerError]. *)
#[warnings="-register-all"]
Inductive error : Type :=
| errorString (s : string)
| ContainerError (Operation Container Message : string) (Cause : option error).

(** [func (e *ContainerError) Error() string]; for [errorString] the text. *)
Fixpoint Error (e : error) : string :=
  match e with
  | errorString s => s
  | ContainerError op c msg cause =>
      match cause with
      | Some c' =>
          "container " +:+ c +:+ " " +:+ op +:+ " failed: " +:+ msg
            +:+ ": " +:+ Error c'
      | None =>
          "container " +:+ c +:+ " " +:+ op +:+ " failed: " +:+ msg
      end
  end.

(** [func (e *ContainerError) Unwrap() error]. *)
Definition Unwrap (e : error) : option error :=
  match e with
  | errorString _ => None
  | ContainerError _ _ _ cause => cause
  end.

Record PortMapping := { Internal : Z; External : Z }.

Record SkeletonStorageConfig := { Type_ : string; URL : string }.

(** [Config map[string]interface{}]: the values are of an arbitrary type. *)
Record SkeletonPluginConfig (Any : Type) := {
  PluginName : string;
  PluginVersion : string;
  PluginConfig : gmap string Any;
}.

Record SkeletonConfig (Any : Type) := {
  ServiceID : string;
  Plugins : list (SkeletonPluginConfig Any);
  Storage : SkeletonStorageConfig;
}.
Arguments ServiceID {Any} _.
Arguments Plugins {Any} _.
Arguments Storage {Any} _.

(** The [Container] interface, restricted to the methods the orchestrator
    calls on a dependency.  A dependency is a Go pointer: its mutable state
    lives in the world [W]. *)
Record Container (W : Type) := {
  ID : string;
  Start : W -> option error * W;
  Stop : W -> option error * W;
  IsRunning : W -> bool;
}.
Arguments ID {W} _.
Arguments Start {W} _ _.
Arguments Stop {W} _ _.
Arguments IsRunning {W} _ _.

End container.

Import container.

(* ===================================================================== *)
(** ** Package docker *)
(* ===================================================================== *)
Module docker.

Record ContainerConfig := {
  ID : string;
  Name : string;
  Image : string;
  Environment : gmap string string;
  Ports : list PortMapping;
}.

(** [testcontainers.ContainerRequest], with the fields the code fills in;
    [WaitingFor] is [wait.ForListeningPort(port).WithStartupTimeout(d)]. *)
Record ContainerRequest := {
  ReqImage : string;
  ReqName : string;
  ReqEnv : gmap string string;
  ReqExposedPorts : list string;
  ReqWaitingForPort : string;
  ReqStartupTimeout : Z;
  ReqStarted : bool;
}.

(** The external collaborators: the methods of [testcontainers.Container]
    on a handle, [testcontainers.GenericContainer] and [json.Marshal]. *)
Record Runtime (W Handle Any : Type) := {
  rt_Start : Handle -> W -> option error * W;
  rt_Stop : Handle -> W -> option error * W;
  (** [State(ctx)] gives [(state, err)]; only [state.Running] is read. *)
  rt_State : Handle -> W -> error + bool;
  rt_GenericContainer : ContainerRequest -> W -> (error + Handle) * W;
  json_Marshal : SkeletonConfig Any -> error + string;
}.
Arguments rt_Start {W Handle Any} _ _ _.
Arguments rt_Stop {W Handle Any} _ _ _.
Arguments rt_State {W Handle Any} _ _ _.
Arguments rt_GenericContainer {W Handle Any} _ _ _.
Arguments json_Marshal {W Handle Any} _ _.

Record DockerContainer (Handle : Type) := {
  container : option Handle;
  config : ContainerConfig;
}.
Arguments container {Handle} _.
Arguments config {Handle} _.

Section DockerContainer.
Context {W Handle Any : Type} (rt : Runtime W Handle Any).

Definition NewDockerContainer (cfg : ContainerConfig) : DockerContainer Handle :=
  {| container := None; config := cfg |}.

Definition SetContainer (d : DockerContainer Handle) (c : Handle)
  : DockerContainer Handle :=
  {| container := Some c; config := config d |}.

Definition DockerContainer_ID (d : DockerContainer Handle) : string :=
  ID (config d).

Definition Start (d : DockerContainer Handle) (w : W) : option error * W :=
  match container d with
  | None =>
      (Some (ContainerError "start" (DockerContainer_ID d)
               "container not initialized" None), w)
  | Some c =>
      match rt_Start rt c w with
      | (Some err, w') =>
          (Some (ContainerError "start" (DockerContainer_ID d)
                   "failed to start container" (Some err)), w')
      | (None, w') => (None, w')
      end
  end.

Definition Stop (d : DockerContainer Handle) (w : W) : option error * W :=
  match container d with
  | None =>
      (Some (ContainerError "stop" (DockerContainer_ID d)
               "container not initialized" None), w)
  | Some c =>
      match rt_Stop rt c w with
      | (Some err, w') =>
          (Some (ContainerError "stop" (DockerContainer_ID d)
                   "failed to stop container" (Some err)), w')
      | (None, w') => (None, w')
      end
  end.

Definition IsRunning (d : DockerContainer Handle) (w : W) : bool :=
  match container d with
  | None => false
  | Some c =>
      match rt_State rt c w with
      | inl _ => false
      | inr running => running
      end
  end.

End DockerContainer.

(** *** PortManager *)

Record PortManager := { allocatedPorts : gmap string (list Z) }.

Definition NewPortManager : PortManager := {| allocatedPorts := ∅ |}.

Definition AllocatePort (p : PortManager) (containerID : string) (port : Z)
  : PortManager :=
  let m :=
    match allocatedPorts p !! containerID with
    | Some _ => allocatedPorts p
    | None => <[containerID := []]> (allocatedPorts p)
    end in
  {| allocatedPorts :=
       <[containerID := default [] (m !! containerID) ++ [port]]> m |}.

(** Index of the first element equal to [port]: where the [range] loop of
    [DeallocatePort] reaches its [break]. *)
Fixpoint firstIndex (port : Z) (ports : list Z) : option nat :=
  match ports with
  | [] => None
  | allocatedPort :: rest =>
      if Z.eqb allocatedPort port then Some 0%nat
      else S <$> firstIndex port rest
  end.

Definition DeallocatePort (p : PortManager) (containerID : string) (port : Z)
  : PortManager :=
  match allocatedPorts p !! containerID with
  | None => p
  | Some ports =>
      match firstIndex port ports with
      | Some i =>
          {| allocatedPorts :=
               <[containerID := take i ports ++ drop (S i) ports]>
                 (allocatedPorts p) |}
      | None => p
      end
  end.

Definition GetAllocatedPorts (p : PortManager) (containerID : string) : list Z :=
  match allocatedPorts p !! containerID with
  | None => []
  | Some ports => ports
  end.

Definition DeallocateAllPorts (p : PortManager) (containerID : string)
  : PortManager :=
  {| allocatedPorts := delete containerID (allocatedPorts p) |}.

(** The nested [range] loops return [true] at the first hit; the verdict
    does not depend on the order in which the map is walked. *)
Definition IsPortAllocated (p : PortManager) (port : Z) : bool :=
  existsb
    (fun entry : string * list Z =>
       existsb (fun allocatedPort => Z.eqb allocatedPort port) entry.2)
    (map_to_list (allocatedPorts p)).

(** The operations that change a port manager, and their replay from a
    fresh one. *)
Inductive PortOp :=
| OpAllocate (containerID : string) (port : Z)
| OpDeallocate (containerID : string) (port : Z)
| OpDeallocateAll (containerID : string).

Definition applyOp (p : PortManager) (o : PortOp) : PortManager :=
  match o with
  | OpAllocate id port => AllocatePort p id port
  | OpDeallocate id port => DeallocatePort p id port
  | OpDeallocateAll id => DeallocateAllPorts p id
  end.

Definition replay (ops : list PortOp) : PortManager :=
  foldl applyOp NewPortManager ops.

(** The same replay for a caller that asks [IsPortAllocated] before every
    [AllocatePort] and allocates only a port reported free; [None] when
    some allocation in [ops] is not of that kind. *)
Fixpoint replayCheckedFrom (p : PortManager) (ops : list PortOp)
  : option PortManager :=
  match ops with
  | [] => Some p
  | OpAllocate id port :: rest =>
      if IsPortAllocated p port then None
      else replayCheckedFrom (AllocatePort p id port) rest
  | o :: rest => replayCheckedFrom (applyOp p o) rest
  end.

Definition replayChecked (ops : list PortOp) : option PortManager :=
  replayCheckedFrom NewPortManager ops.

(** No port number is in the records of two different containers. *)
Definition exclusive (p : PortManager) : Prop :=
  forall (id1 id2 : string) (port : Z),
    id1 <> id2 ->
    port ∈ GetAllocatedPorts p id1 -> port ∉ GetAllocatedPorts p id2.

(** *** ContainerLifecycleManager *)

Record ContainerLifecycleManager (Handle : Type) := {
  containers : gmap string (DockerContainer Handle);
  portManager : PortManager;
}.
Arguments containers {Handle} _.
Arguments portManager {Handle} _.

Section LifecycleManager.
Context {W Handle Any : Type} (rt : Runtime W Handle Any).

Definition RegisterContainer (c : ContainerLifecycleManager Handle)
    (d : DockerContainer Handle) : ContainerLifecycleManager Handle :=
  {| containers := <[DockerContainer_ID d := d]> (containers c);
     portManager := portManager c |}.

Definition UnregisterContainer (c : ContainerLifecycleManager Handle)
    (containerID : string) : ContainerLifecycleManager Handle :=
  {| containers := delete containerID (containers c);
     portManager := DeallocateAllPorts (portManager c) containerID |}.

(** The body of [StopAll]'s [range] loop over the containers still to be
    visited; [lastErr] is the local variable of that name. *)
Fixpoint StopAll_loop (order : list (DockerContainer Handle))
    (lastErr : option error) (w : W) : option error * W :=
  match order with
  | [] => (lastErr, w)
  | dockerContainer :: rest =>
      if IsRunning rt dockerContainer w then
        match Stop rt dockerContainer w with
        | (Some err, w') =>
            StopAll_loop rest
              (Some (ContainerError "stop_all"
                       (DockerContainer_ID dockerContainer)
                       "failed to stop container during stop all"
                       (Some err))) w'
        | (None, w') => StopAll_loop rest lastErr w'
        end
      else StopAll_loop rest lastErr w
  end.

(** [StopAll] walks the map in an order Go does not fix: [order] is the
    order of one run, a permutation of the registered containers. *)
Definition StopAll_in (order : list (DockerContainer Handle)) (w : W)
  : option error * W :=
  StopAll_loop order None w.

Definition StopAll (c : ContainerLifecycleManager Handle) (w : W)
  : option error * W :=
  StopAll_in (map_to_list (containers c)).*2 w.

End LifecycleManager.

End docker.

(* ===================================================================== *)
(** ** Package testcontainers: the application container and its
       dependencies *)
(* ===================================================================== *)
Module testcontainers.

(** What the orchestrator does to its collaborators, as seen at its call
    sites, with the value each call returned: the methods of a dependency
    (named by [dep.ID()]), and [createContainer] and the embedded
    [DockerContainer]'s [Start]/[Stop] of the primary. *)
Inductive Call :=
| CallIsRunning (dep : string) (ret : bool)
| CallStart (dep : string) (ret : option error)
| CallStop (dep : string) (ret : option error)
| CallCreate (primary : string) (ret : option error)
| CallPrimaryStart (primary : string) (ret : option error)
| CallPrimaryStop (primary : string) (ret : option error).

(** Code that changes the world and makes observable calls. *)
Definition M (W A : Type) : Type := W -> A * W * list Call.

Definition ret {W A} (a : A) : M W A := fun w => (a, w, []).

Definition bind {W A B} (m : M W A) (k : A -> M W B) : M W B :=
  fun w =>
    let '(a, w1, t1) := m w in
    let '(b, w2, t2) := k a w1 in
    (b, w2, t1 ++ t2).

(** A call that may change the world, and a query that does not. *)
Definition call {W A} (ev : A -> Call) (op : W -> A * W) : M W A :=
  fun w => let '(a, w') := op w in (a, w', [ev a]).

Definition query {W A} (ev : A -> Call) (q : W -> A) : M W A :=
  fun w => (q w, w, [ev (q w)]).

#[local] Notation "x <- m ;; k" := (bind m (fun x => k))
  (at level 100, m at next level, right associativity).

Record TestcontainerAppContainer (W Handle Any : Type) := {
  DockerContainer_ : docker.DockerContainer Handle;
  skeletonConfig : option (SkeletonConfig Any);
  dependencies : list (Container W);
}.
Arguments DockerContainer_ {W Handle Any} _.
Arguments skeletonConfig {W Handle Any} _.
Arguments dependencies {W Handle Any} _.

Section AppContainer.
Context {W Handle Any : Type} (rt : docker.Runtime W Handle Any).

#[local] Abbreviation App := (TestcontainerAppContainer W Handle Any).

Definition NewTestcontainerAppContainer (cfg : docker.ContainerConfig)
    (sk : option (SkeletonConfig Any)) : App :=
  {| DockerContainer_ := docker.NewDockerContainer cfg;
     skeletonConfig := sk;
     dependencies := [] |}.

Definition AddDependency (t : App) (dep : Container W) : App :=
  {| DockerContainer_ := DockerContainer_ t;
     skeletonConfig := skeletonConfig t;
     dependencies := dependencies t ++ [dep] |}.

Definition ID (t : App) : string :=
  docker.DockerContainer_ID (DockerContainer_ t).

(** The environment handed to the runtime: the configured one plus the
    skeleton variables. *)
Definition skeletonEnv (sk : SkeletonConfig Any) (json : string)
    (env : gmap string string) : gmap string string :=
  let env := <["SKELETON_CONFIG" := json]> env in
  let env :=
    if decide (ServiceID sk = "") then env
    else <["SKELETON_SERVICE_ID" := ServiceID sk]> env in
  let env :=
    if decide (Type_ (Storage sk) = "") then env
    else <["SKELETON_STORAGE_TYPE" := Type_ (Storage sk)]> env in
  if decide (URL (Storage sk) = "") then env
  else <["SKELETON_STORAGE_URL" := URL (Storage sk)]> env.

Definition exposedPorts (ports : list PortMapping) : list string :=
  (fun port => pretty (Internal port) +:+ "/tcp") <$> ports.

Definition containerRequest (cfg : docker.ContainerConfig)
    (env : gmap string string) : docker.ContainerRequest :=
  {| docker.ReqImage := docker.Image cfg;
     docker.ReqName := docker.Name cfg;
     docker.ReqEnv := env;
     docker.ReqExposedPorts := exposedPorts (docker.Ports cfg);
     docker.ReqWaitingForPort := "8080/tcp";
     docker.ReqStartupTimeout := 30 * 1000000000;
     docker.ReqStarted := false |}.

Definition createContainer (t : App) (w : W) : (option error * App) * W :=
  let cfg := docker.config (DockerContainer_ t) in
  let env :=
    match skeletonConfig t with
    | None => inr (docker.Environment cfg)
    | Some sk =>
        match docker.json_Marshal rt sk with
        | inl err => inl err
        | inr json => inr (skeletonEnv sk json (docker.Environment cfg))
        end
    end in
  match env with
  | inl err =>
      ((Some (ContainerError "serialize_skeleton_config" (ID t)
                "failed to serialize skeleton configuration" (Some err)),
        t), w)
  | inr env =>
      match docker.rt_GenericContainer rt (containerRequest cfg env) w with
      | (inl err, w') =>
          ((Some (ContainerError "create" (ID t)
                    "failed to create testcontainer" (Some err)), t), w')
      | (inr c, w') =>
          ((None,
            {| DockerContainer_ := docker.SetContainer (DockerContainer_ t) c;
               skeletonConfig := skeletonConfig t;
               dependencies := dependencies t |}), w')
      end
  end.

(** The [range] loop of [Start] over the dependencies still to visit;
    [Some err] is its [return] out of the loop. *)
Fixpoint startDependencies (t : App) (deps : list (Container W))
  : M W (option error) :=
  match deps with
  | [] => ret None
  | dep :: rest =>
      running <- query (CallIsRunning (container.ID dep))
                   (container.IsRunning dep) ;;
      if running then startDependencies t rest
      else
        err <- call (CallStart (container.ID dep)) (container.Start dep) ;;
        match err with
        | Some err =>
            ret (Some (ContainerError "start_dependency" (ID t)
                         ("failed to start dependency " +:+ container.ID dep)
                         (Some err)))
        | None => startDependencies t rest
        end
  end.

Definition Start (t : App) : M W (option error * App) :=
  err <- startDependencies t (dependencies t) ;;
  match err with
  | Some err => ret (Some err, t)
  | None =>
      created <- call (fun r : option error * App => CallCreate (ID t) r.1)
                   (createContainer t) ;;
      match created with
      | (Some err, t') => ret (Some err, t')
      | (None, t') =>
          err <- call (CallPrimaryStart (ID t'))
                   (docker.Start rt (DockerContainer_ t')) ;;
          ret (err, t')
      end
  end.

(** The loop [for i := len(deps) - 1; i >= 0; i--] of [Stop]: [n] is
    [i + 1], the number of dependencies still to visit. *)
Fixpoint stopDependencies (deps : list (Container W)) (n : nat) : M W unit :=
  match n with
  | O => ret tt
  | S i =>
      match deps !! i with
      | None => ret tt (* out of range: not reached for n <= len(deps) *)
      | Some dep =>
          running <- query (CallIsRunning (container.ID dep))
                       (container.IsRunning dep) ;;
          if running then
            _ <- call (CallStop (container.ID dep)) (container.Stop dep) ;;
            stopDependencies deps i
          else stopDependencies deps i
      end
  end.

Definition Stop (t : App) : M W (option error) :=
  err <- call (CallPrimaryStop (ID t))
           (docker.Stop rt (DockerContainer_ t)) ;;
  match err with
  | Some err => ret (Some err)
  | None =>
      _ <- stopDependencies (dependencies t) (length (dependencies t)) ;;
      ret None
  end.

End AppContainer.

End testcontainers.

(* ===================================================================== *)
(** ** Package health: the health monitor *)
(* ===================================================================== *)
Module health.

(** [type Status string] and its three constants. *)
Definition StatusHealthy : string := "healthy".
Definition StatusUnhealthy : string := "unhealthy".
Definition StatusUnknown : string := "unknown".

(** Instants and durations in nanoseconds.  [time.Time.Sub] saturates at
    the least and greatest [time.Duration]. *)
Definition minDuration : Z := - 2 ^ 63.
Definition maxDuration : Z := 2 ^ 63 - 1.
Definition Sub (t u : Z) : Z := Z.max minDuration (Z.min maxDuration (t - u)).
Definition Second : Z := 1000000000.

(** A [context.Context], as far as the monitor shapes it: its deadline. *)
Record Context := { deadline : option Z }.

Definition Background : Context := {| deadline := None |}.

Definition WithTimeout (parent : Context) (now timeout : Z) : Context :=
  {| deadline :=
       match deadline parent with
       | Some d => Some (Z.min d (now + timeout)%Z)
       | None => Some (now + timeout)%Z
       end |}.

Record CheckResult := {
  Status : string;
  Duration : Z;
  Error : string;
  Timestamp : Z;
}.

(** The field [Timestamp] of [HealthStatus] is [SnapshotTimestamp]. *)
Record HealthStatus := {
  Overall : string;
  Checks : gmap string CheckResult;
  SnapshotTimestamp : Z;
}.

Record HealthTarget (W : Type) := {
  HealthEndpoint : W -> string;
  ConnectionString : W -> string;
}.

Record HealthCheck (W : Type) := {
  Name : string;
  Check : Context -> HealthTarget W -> W -> option error * W;
  Interval : Z;
  Timeout : Z;
}.
Arguments Name {W} _.
Arguments Check {W} _ _ _ _.
Arguments Interval {W} _.
Arguments Timeout {W} _.

(** [mutex] is not a field here: the functions below are the bodies run
    while it is held; [stopCh] is recorded by whether it has been closed. *)
Record HealthMonitor (W : Type) := {
  target : HealthTarget W;
  checks : list (HealthCheck W);
  interval : Z;
  status : HealthStatus;
  stopCh_closed : bool;
  running : bool;
}.
Arguments target {W} _.
Arguments checks {W} _.
Arguments interval {W} _.
Arguments status {W} _.
Arguments stopCh_closed {W} _.
Arguments running {W} _.

Section Monitor.
Context {W : Type}.
(** [time.Now()] in a world, and the world in which a [select] that
    blocked on the ticker wakes up. *)
Context (now : W -> Z) (afterTick : W -> W).

Definition NewHealthMonitor (tgt : HealthTarget W) (w : W) : HealthMonitor W :=
  {| target := tgt;
     checks := [];
     interval := 30 * Second;
     status := {| Overall := StatusUnknown;
                  Checks := ∅;
                  SnapshotTimestamp := now w |};
     stopCh_closed := false;
     running := false |}.

Definition AddCheck (h : HealthMonitor W) (check : HealthCheck W)
  : HealthMonitor W :=
  {| target := target h;
     checks := checks h ++ [check];
     interval := interval h;
     status := status h;
     stopCh_closed := stopCh_closed h;
     running := running h |}.

Definition executeCheck (h : HealthMonitor W) (ctx : Context)
    (check : HealthCheck W) (w : W) : CheckResult * W :=
  let start := now w in
  let checkCtx := WithTimeout ctx (now w) (Timeout check) in
  let '(err, w') := Check check checkCtx (target h) w in
  let duration := Sub (now w') start in
  match err with
  | Some err =>
      ({| Status := StatusUnhealthy; Duration := duration;
          Error := container.Error err; Timestamp := now w' |}, w')
  | None =>
      ({| Status := StatusHealthy; Duration := duration;
          Error := ""; Timestamp := now w' |}, w')
  end.

(** The [range] loop of [runHealthChecks] over the checks still to run,
    with its locals [results] and [overallHealthy]. *)
Fixpoint runHealthChecks_loop (h : HealthMonitor W) (ctx : Context)
    (todo : list (HealthCheck W)) (results : gmap string CheckResult)
    (overallHealthy : bool) (w : W)
  : gmap string CheckResult * bool * W :=
  match todo with
  | [] => (results, overallHealthy, w)
  | check :: rest =>
      let '(result, w') := executeCheck h ctx check w in
      let results := <[Name check := result]> results in
      let overallHealthy :=
        if decide (Status result ≠ StatusHealthy) then false
        else overallHealthy in
      runHealthChecks_loop h ctx rest results overallHealthy w'
  end.

Definition setStatus (h : HealthMonitor W) (s : HealthStatus) : HealthMonitor W :=
  {| target := target h;
     checks := checks h;
     interval := interval h;
     status := s;
     stopCh_closed := stopCh_closed h;
     running := running h |}.

Definition runHealthChecks (h : HealthMonitor W) (ctx : Context) (w : W)
  : HealthMonitor W * W :=
  let '(results, overallHealthy, w') :=
    runHealthChecks_loop h ctx (checks h) ∅ true w in
  let overall := if overallHealthy then StatusHealthy else StatusUnhealthy in
  (setStatus h {| Overall := overall;
                  Checks := results;
                  SnapshotTimestamp := now w' |}, w').

(** [func (h *HealthMonitor) Status() HealthStatus]. *)
Definition GetStatus (h : HealthMonitor W) : HealthStatus := status h.

(** [WaitForHealthy]: [ticks] is the number of times the [select] takes
    the one-second ticker before it takes [timeoutCtx.Done()]; the
    timeout itself (finite, so [Done] is taken in the end) decides that
    number together with the scheduler. *)
Fixpoint WaitForHealthy (h : HealthMonitor W) (ctx : Context)
    (ticks : nat) (w : W) : option error * HealthMonitor W * W :=
  match ticks with
  | O => (Some (errorString "timeout waiting for healthy status"), h, w)
  | S ticks' =>
      let '(h', w') := runHealthChecks h ctx (afterTick w) in
      if decide (Overall (GetStatus h') = StatusHealthy) then (None, h', w')
      else WaitForHealthy h' ctx ticks' w'
  end.

End Monitor.

End health.

(* ===================================================================== *)
(** ** Reading a run of the orchestrator *)
(* ===================================================================== *)
Module runs.
Import testcontainers.

(** What one pass of a loop did with one dependency: it passed over it
    after asking [IsRunning], or it called the method, which returned
    [ret]. *)
Inductive Visit :=
| Skipped
| Called (ret : option error).

Definition failed (v : Visit) : bool :=
  match v with
  | Called (Some _) => true
  | _ => false
  end.

(** The calls of one pass of [Start]'s loop: a running dependency is
    skipped. *)
Definition startBlock (dep : string) (v : Visit) : list Call :=
  match v with
  | Skipped => [CallIsRunning dep true]
  | Called ret => [CallIsRunning dep false; CallStart dep ret]
  end.

(** The calls of one pass of [Stop]'s loop: a dependency that is not
    running is skipped. *)
Definition stopBlock (dep : string) (v : Visit) : list Call :=
  match v with
  | Skipped => [CallIsRunning dep false]
  | Called ret => [CallIsRunning dep true; CallStop dep ret]
  end.

Definition startCalls (deps : list string) (visits : list Visit) : list Call :=
  concat (zip_with startBlock deps visits).

Definition stopCalls (deps : list string) (visits : list Visit) : list Call :=
  concat (zip_with stopBlock deps visits).

(** The error [Start] returns for a dependency whose [Start] gave [err]. *)
Definition startDependencyError {W Handle Any : Type}
    (t : TestcontainerAppContainer W Handle Any)
    (dep : Container W) (err : error) : error :=
  ContainerError "start_dependency" (ID t)
    ("failed to start dependency " +:+ container.ID dep) (Some err).

(** The containers on which a run called [Stop], in the order of the
    calls. *)
Definition stopped (calls : list Call) : list string :=
  omap (fun c => match c with
                 | CallStop dep _ => Some dep
                 | CallPrimaryStop primary _ => Some primary
                 | _ => None
                 end) calls.

End runs.

(* ===================================================================== *)
(** ** A scripted runtime, for running the code on concrete inputs *)
(* ===================================================================== *)
Module fixtures.

(** Containers are known by name; [up] lists the running ones, and
    [startFails] / [stopFails] those whose start / stop the runtime
    refuses. *)
Record World := {
  up : list string;
  startFails : list string;
  stopFails : list string;
  clock : Z;
}.

Definition member (name : string) (names : list string) : bool :=
  existsb (String.eqb name) names.

Definition start (name : string) (w : World) : option error * World :=
  if member name (startFails w) then (Some (errorString "image not found"), w)
  else (None, {| up := name :: up w; startFails := startFails w;
                 stopFails := stopFails w; clock := clock w |}).

Definition stop (name : string) (w : World) : option error * World :=
  if member name (stopFails w) then (Some (errorString "transport error"), w)
  else (None, {| up := filter (fun n => n <> name) (up w);
                 startFails := startFails w;
                 stopFails := stopFails w; clock := clock w |}).

Definition dependency (name : string) : Container World :=
  {| container.ID := name;
     container.Start := start name;
     container.Stop := stop name;
     container.IsRunning := fun w => member name (up w) |}.

(** The handle of a created container is its requested name. *)
Definition runtime : docker.Runtime World string unit :=
  {| docker.rt_Start := start;
     docker.rt_Stop := stop;
     docker.rt_State := fun name w => inr (member name (up w));
     docker.rt_GenericContainer := fun req w => (inr (docker.ReqName req), w);
     docker.json_Marshal := fun _ => inr "{}" |}.

(** The configuration [testkit.NewSkeletonApp(image)] builds, with one of
    the identifiers [generateContainerID] can return. *)
Definition appConfig : docker.ContainerConfig :=
  {| docker.ID := "container-abcd1234";
     docker.Name := "skeleton-app";
     docker.Image := "skeleton-app:latest";
     docker.Environment := ∅;
     docker.Ports := [] |}.

Definition newApp : testcontainers.TestcontainerAppContainer World string unit :=
  testcontainers.NewTestcontainerAppContainer appConfig None.

Definition withDependencies (names : list string)
  : testcontainers.TestcontainerAppContainer World string unit :=
  foldl testcontainers.AddDependency newApp (dependency <$> names).

(** The same application after [createContainer] has set its handle. *)
Definition created (names : list string)
  : testcontainers.TestcontainerAppContainer World string unit :=
  {| testcontainers.DockerContainer_ :=
       docker.SetContainer
         (testcontainers.DockerContainer_ (withDependencies names))
         "skeleton-app";
     testcontainers.skeletonConfig := None;
     testcontainers.dependencies :=
       testcontainers.dependencies (withDependencies names) |}.

Definition world (running startFailing stopFailing : list string) : World :=
  {| up := running; startFails := startFailing; stopFails := stopFailing;
     clock := 0 |}.

(** A registered [DockerContainer] whose handle is [name]. *)
Definition dockerContainer (name : string) : docker.DockerContainer string :=
  docker.SetContainer
    (docker.NewDockerContainer
       {| docker.ID := name; docker.Name := name; docker.Image := name;
          docker.Environment := ∅; docker.Ports := [] |})
    name.

(** A monitored target and two checks: [db] fails with "connection
    refused" while the container [db] is down; [ping] always succeeds.
    A check takes a millisecond; a second passes between two ticks. *)
Definition healthTarget : health.HealthTarget World :=
  {| health.HealthEndpoint := fun _ => "/health";
     health.ConnectionString := fun _ => "http://localhost:8080" |}.

Definition advance (d : Z) (w : World) : World :=
  {| up := up w; startFails := startFails w; stopFails := stopFails w;
     clock := clock w + d |}.

Definition dbCheck : health.HealthCheck World :=
  {| health.Name := "db";
     health.Check := fun _ _ w =>
       if member "db" (up w) then (None, advance 1000000 w)
       else (Some (errorString "connection refused"), advance 1000000 w);
     health.Interval := 5 * health.Second;
     health.Timeout := 2 * health.Second |}.

Definition pingCheck : health.HealthCheck World :=
  {| health.Name := "ping";
     health.Check := fun _ _ w => (None, advance 1000000 w);
     health.Interval := 5 * health.Second;
     health.Timeout := 2 * health.Second |}.

Definition afterTick : World -> World := advance health.Second.

Definition newMonitor (w : World) : health.HealthMonitor World :=
  health.NewHealthMonitor clock healthTarget w.

End fixtures.

(* ===================================================================== *)
(** ** The health monitor step by step *)
(* ===================================================================== *)
Module monitor_steps.
Import health.

(** How [foldl] of the assignments [results[name] = result] fills a map,
    and the verdict [runHealthChecks] draws from the results of a pass. *)
Definition record (results : gmap string CheckResult)
    (executions : list (string * CheckResult)) : gmap string CheckResult :=
  foldl (fun m e => <[e.1 := e.2]> m) results executions.

Definition healthy (e : string * CheckResult) : bool :=
  bool_decide (Status e.2 = StatusHealthy).

Definition verdict (executions : list (string * CheckResult)) : string :=
  if forallb healthy executions then StatusHealthy else StatusUnhealthy.

(** The snapshot made of the executions of one pass. *)
Definition snapshotOf (executions : list (string * CheckResult))
    (timestamp : Z) : HealthStatus :=
  {| Overall := verdict executions;
     Checks := record ∅ executions;
     SnapshotTimestamp := timestamp |}.

Section Steps.
Context {W : Type} (now : W -> Z).

(** The executions of the checks [todo] one after the other, each with
    its name and result, and the world they leave. *)
Fixpoint executions (h : HealthMonitor W) (ctx : Context)
    (todo : list (HealthCheck W)) (w : W)
  : list (string * CheckResult) * W :=
  match todo with
  | [] => ([], w)
  | check :: rest =>
      let '(result, w') := executeCheck now h ctx check w in
      let '(more, w'') := executions h ctx rest w' in
      ((Name check, result) :: more, w'')
  end.

(** The locals of a [runHealthChecks] in progress, which holds
    [h.mutex]: its context, the checks its loop has still to run,
    [results] and [overallHealthy]. *)
Record Pass := {
  passCtx : Context;
  todo : list (HealthCheck W);
  results : gmap string CheckResult;
  overallHealthy : bool;
}.

(** What the passes did, each pass known by its number: it began with
    the checks then registered, executed a check, wrote [h.status]. *)
Inductive Event :=
| EvBegin (pass : nat) (registered : list (HealthCheck W))
| EvExec (pass : nat) (name : string) (result : CheckResult)
| EvWrite (pass : nat) (snapshot : HealthStatus).

(** A monitor among its users: [holder] is the pass holding the mutex,
    if any; [begun] counts the passes begun and [history] lists what
    they did (neither is in the Go program: they name the passes). *)
Record State := {
  monitor : HealthMonitor W;
  holder : option Pass;
  world : W;
  begun : nat;
  history : list Event;
}.

Definition setRunning (h : HealthMonitor W) (b closed : bool) : HealthMonitor W :=
  {| target := target h;
     checks := checks h;
     interval := interval h;
     status := status h;
     stopCh_closed := closed;
     running := b |}.

(** The states after the steps below. *)
Definition afterAddCheck (s : State) (check : HealthCheck W) : State :=
  {| monitor := AddCheck (monitor s) check; holder := None;
     world := world s; begun := begun s; history := history s |}.

Definition afterStart (s : State) : State :=
  {| monitor := setRunning (monitor s) true (stopCh_closed (monitor s));
     holder := None;
     world := world s; begun := begun s; history := history s |}.

Definition afterStop (s : State) : State :=
  {| monitor := setRunning (monitor s) false true; holder := None;
     world := world s; begun := begun s; history := history s |}.

(** [runHealthChecks] has taken the mutex and made its locals. *)
Definition afterBegin (s : State) (ctx : Context) : State :=
  {| monitor := monitor s;
     holder := Some {| passCtx := ctx; todo := checks (monitor s);
                       results := ∅; overallHealthy := true |};
     world := world s;
     begun := S (begun s);
     history := history s ++ [EvBegin (S (begun s)) (checks (monitor s))] |}.

(** One turn of the loop of [runHealthChecks]. *)
Definition afterCheck (s : State) (p : Pass) (check : HealthCheck W)
    (rest : list (HealthCheck W)) : State :=
  let '(result, w') :=
    executeCheck now (monitor s) (passCtx p) check (world s) in
  {| monitor := monitor s;
     holder :=
       Some {| passCtx := passCtx p; todo := rest;
               results := <[Name check := result]> (results p);
               overallHealthy :=
                 if decide (Status result ≠ StatusHealthy) then false
                 else overallHealthy p |};
     world := w';
     begun := begun s;
     history := history s ++ [EvExec (begun s) (Name check) result] |}.

(** The assignment to [h.status], after which the mutex is released. *)
Definition afterWrite (s : State) (p : Pass) : State :=
  let snapshot :=
    {| Overall := if overallHealthy p then StatusHealthy
                  else StatusUnhealthy;
       Checks := results p;
       SnapshotTimestamp := now (world s) |} in
  {| monitor := setStatus (monitor s) snapshot;
     holder := None;
     world := world s;
     begun := begun s;
     history := history s ++ [EvWrite (begun s) snapshot] |}.

(** One step of some goroutine.  Readers call [Status()] and only read the
    snapshot they get.  [AddCheck], [Start], [Stop] and the
    beginning of [runHealthChecks] take the mutex, so they wait for a
    pass in progress; a pass runs one check per step and assigns
    [h.status] in its last step, where it releases the mutex; in between
    the world may change in any way. *)
Inductive step : State -> State -> Prop :=
| step_AddCheck s check :
    holder s = None -> step s (afterAddCheck s check)
| step_Start s :
    holder s = None -> running (monitor s) = false -> step s (afterStart s)
| step_Stop s :
    holder s = None -> running (monitor s) = true -> step s (afterStop s)
| step_begin s ctx :
    holder s = None -> step s (afterBegin s ctx)
| step_check s p check rest :
    holder s = Some p -> todo p = check :: rest ->
    step s (afterCheck s p check rest)
| step_write s p :
    holder s = Some p -> todo p = [] -> step s (afterWrite s p)
| step_world s w' :
    step s {| monitor := monitor s; holder := holder s; world := w';
              begun := begun s; history := history s |}.

Definition initial (tgt : HealthTarget W) (w : W) : State :=
  {| monitor := NewHealthMonitor now tgt w; holder := None; world := w;
     begun := 0; history := [] |}.

Definition reachable (tgt : HealthTarget W) (w : W) (s : State) : Prop :=
  rtc step (initial tgt w) s.

(** The executions of pass [k], in the order they were made. *)
Definition executionsOf (k : nat) (hist : list Event)
  : list (string * CheckResult) :=
  omap (fun ev => match ev with
                  | EvExec k' name result =>
                      if decide (k' = k) then Some (name, result) else None
                  | _ => None
                  end) hist.

Definition passNumber (ev : Event) : nat :=
  match ev with
  | EvBegin k _ | EvExec k _ _ | EvWrite k _ => k
  end.

(** The status of [s] is the snapshot of pass [k]: that pass began with
    the checks [registered], its executions are one per registered
    check, in order, and the status is made of exactly them. *)
Definition snapshotOfPass (s : State) (k : nat)
    (registered : list (HealthCheck W)) (timestamp : Z) : Prop :=
  EvBegin k registered ∈ history s /\
  (executionsOf k (history s)).*1 = Name <$> registered /\
  GetStatus (monitor s) = snapshotOf (executionsOf k (history s)) timestamp.

(** What holds of every state the monitor can be in. *)
Definition invariant (tgt : HealthTarget W) (w0 : W) (s : State) : Prop :=
  Forall (fun ev => (passNumber ev <= begun s)%nat) (history s) /\
  match holder s with
  | None => True
  | Some p =>
      EvBegin (begun s) (checks (monitor s)) ∈ history s /\
      (executionsOf (begun s) (history s)).*1 ++ (Name <$> todo p) =
        Name <$> checks (monitor s) /\
      results p = record ∅ (executionsOf (begun s) (history s)) /\
      overallHealthy p = forallb healthy (executionsOf (begun s) (history s))
  end /\
  (GetStatus (monitor s) = GetStatus (NewHealthMonitor now tgt w0) \/
   exists k registered timestamp,
     ((k < begun s)%nat \/ (k = begun s /\ holder s = None)) /\
     snapshotOfPass s k registered timestamp).

End Steps.

End monitor_steps.

(* ===================================================================== *)
(** ** Concrete runs of the monitor *)
(* ===================================================================== *)
Module monitor_runs.
Import health monitor_steps fixtures.

(** A new monitor with [db] down; [dbCheck] is added; a pass begins, runs
    the check and writes the status. *)
Definition w0 : World := world [] [] [].
Definition s0 : State := initial clock healthTarget w0.
Definition s1 : State := afterAddCheck s0 dbCheck.
Definition s2 : State := afterBegin s1 Background.
Definition p2 : Pass (W := World) :=
  {| passCtx := Background; todo := [dbCheck]; results := ∅;
     overallHealthy := true |}.
Definition s3 : State := afterCheck clock s2 p2 dbCheck [].
Definition p3 : Pass (W := World) := default p2 (holder s3).
Definition s4 : State := afterWrite clock s3 p3.

(** The monitor with [dbCheck] and [pingCheck], as [AddCheck] builds it. *)
Definition monitored : HealthMonitor World :=
  AddCheck (AddCheck (newMonitor w0) dbCheck) pingCheck.

(** An error carries a diagnostic when its text, which includes the
    texts of the errors it wraps, contains it. *)
Definition carries (err : error) (diagnostic : string) : bool :=
  Contains (container.Error err) diagnostic.

End monitor_runs.

(* ===================================================================== *)
(** ** Package docker: the rest of the lifecycle manager *)
(* ===================================================================== *)
Module docker_network.
Import docker.

(** [GetPortMapping]: ["internal"] when no external port is fixed,
    ["external:internal"] otherwise. *)
Definition GetPortMapping (internal external : Z) : string :=
  if Z.eqb external 0 then pretty internal
  else pretty external +:+ ":" +:+ pretty internal.

Definition NewContainerLifecycleManager {Handle : Type}
  : ContainerLifecycleManager Handle :=
  {| containers := ∅; portManager := NewPortManager |}.

(** [GetContainer] returns [(container, nil)] or [(nil, err)]. *)
Definition GetContainer {Handle : Type} (c : ContainerLifecycleManager Handle)
    (containerID : string) : error + DockerContainer Handle :=
  match containers c !! containerID with
  | Some dockerContainer => inr dockerContainer
  | None =>
      inl (ContainerError "get_container" containerID "container not found" None)
  end.

Definition ListContainers {Handle : Type} (c : ContainerLifecycleManager Handle)
  : gmap string (DockerContainer Handle) :=
  containers c.

(** The errors [StopAll] and [StartAll] make of a container's failure. *)
Definition stopAllError {Handle : Type} (d : DockerContainer Handle)
    (err : error) : error :=
  ContainerError "stop_all" (DockerContainer_ID d)
    "failed to stop container during stop all" (Some err).

Definition startAllError {Handle : Type} (d : DockerContainer Handle)
    (err : error) : error :=
  ContainerError "start_all" (DockerContainer_ID d)
    "failed to start container during start all" (Some err).

Section StartAll.
Context {W Handle Any : Type} (rt : Runtime W Handle Any).

(** The [range] loop of [StartAll] over the containers still to visit. *)
Fixpoint StartAll_loop (order : list (DockerContainer Handle)) (w : W)
  : option error * W :=
  match order with
  | [] => (None, w)
  | dockerContainer :: rest =>
      if IsRunning rt dockerContainer w then StartAll_loop rest w
      else
        match Start rt dockerContainer w with
        | (Some err, w') =>
            (Some (ContainerError "start_all"
                     (DockerContainer_ID dockerContainer)
                     "failed to start container during start all"
                     (Some err)), w')
        | (None, w') => StartAll_loop rest w'
        end
  end.

(** As for [StopAll], [order] is the order in which one run walks the map. *)
Definition StartAll_in (order : list (DockerContainer Handle)) (w : W)
  : option error * W :=
  StartAll_loop order w.

Definition StartAll (c : ContainerLifecycleManager Handle) (w : W)
  : option error * W :=
  StartAll_in (map_to_list (containers c)).*2 w.

End StartAll.

End docker_network.

(* ===================================================================== *)
(** ** More inputs for concrete runs *)
(* ===================================================================== *)
Module fixtures_more.
Import fixtures.

(** A skeleton application with two ports and a configured environment,
    one variable of which has the name of a skeleton variable. *)
Definition skeleton : SkeletonConfig unit :=
  {| ServiceID := "svc"; Plugins := [];
     Storage := {| Type_ := "postgres"; URL := "" |} |}.

Definition skeletonAppConfig : docker.ContainerConfig :=
  {| docker.ID := "container-abcd1234";
     docker.Name := "skeleton-app";
     docker.Image := "skeleton-app:latest";
     docker.Environment :=
       <["LOG_LEVEL" := "debug"]> (<["SKELETON_STORAGE_URL" := "preset"]> ∅);
     docker.Ports := [ {| Internal := 8080; External := 0 |};
                       {| Internal := 9090; External := 0 |} ] |}.

Definition skeletonApp : testcontainers.TestcontainerAppContainer World string unit :=
  testcontainers.NewTestcontainerAppContainer skeletonAppConfig (Some skeleton).

End fixtures_more.

(* ===================================================================== *)
(** ** Package health: starting and stopping the monitor *)
(* ===================================================================== *)
Module health_control.
Import health.

Section Control.
Context {W : Type} (now : W -> Z).

Definition setRunning (h : HealthMonitor W) (isRunning closed : bool)
  : HealthMonitor W :=
  {| target := target h;
     checks := checks h;
     interval := interval h;
     status := status h;
     stopCh_closed := closed;
     running := isRunning |}.

(** [Start], up to the point where it returns; the monitoring loop it
    launches with [go] runs beside the caller. *)
Definition Start (h : HealthMonitor W) (ctx : Context) (w : W)
  : option error * HealthMonitor W * W :=
  if running h then
    (Some (errorString "health monitor is already running"), h, w)
  else
    let '(h', w') :=
      runHealthChecks now (setRunning h true (stopCh_closed h)) ctx w in
    (None, h', w').

(** [Stop].  [close(h.stopCh)] on a channel that is already closed is a
    run-time panic: the result is then [None]. *)
Definition Stop (h : HealthMonitor W) : option (option error * HealthMonitor W) :=
  if running h then
    if stopCh_closed h then None
    else Some (None, setRunning h false true)
  else Some (None, h).

End Control.

End health_control.

(* ===================================================================== *)
(** ** Errors that wrap any error *)
(* ===================================================================== *)
Module goerrors.

(** The errors of package container, [plain]; the errors [fmt.Errorf] makes
    with [%w], whose text [msg] is the whole formatted text and which unwrap
    to [err]; and a [*ContainerError] whose cause is such an error. *)
Inductive goerror :=
| plain (e : error)
| wrapError (msg : string) (err : goerror)
| wrapContainerError (Operation Container Message : string) (Cause : goerror).

Fixpoint ErrorText (g : goerror) : string :=
  match g with
  | plain e => container.Error e
  | wrapError msg _ => msg
  | wrapContainerError op c msg cause =>
      "container " +:+ c +:+ " " +:+ op +:+ " failed: " +:+ msg
        +:+ ": " +:+ ErrorText cause
  end.

Definition UnwrapGo (g : goerror) : option goerror :=
  match g with
  | plain e => plain <$> Unwrap e
  | wrapError _ err => Some err
  | wrapContainerError _ _ _ cause => Some cause
  end.

(** [fmt.Errorf(text)] without verbs, and [fmt.Errorf(before + "%w", err)]. *)
Definition Errorf (text : string) : goerror := plain (errorString text).

Definition Errorf_w (before : string) (err : goerror) : goerror :=
  wrapError (before +:+ ErrorText err) err.

End goerrors.

(* ===================================================================== *)
(** ** Package docker: the network side of a container and its readiness *)
(* ===================================================================== *)
Module docker_container.
Import docker.

(** More of [testcontainers.Container]: [Host(ctx)] and [MappedPort(ctx,
    port)], the latter read through [port.Int()]. *)
Record Network (W Handle : Type) := {
  rt_Host : Handle -> W -> error + string;
  rt_MappedPort : Handle -> string -> W -> error + Z;
}.
Arguments rt_Host {W Handle} _ _ _.
Arguments rt_MappedPort {W Handle} _ _ _.

Section Container.
Context {W Handle Any : Type}.
Context (rt : Runtime W Handle Any) (net : Network W Handle).
(** The world in which a [select] that blocked on the ticker wakes up. *)
Context (afterTick : W -> W).

Definition Host (d : DockerContainer Handle) (w : W) : string :=
  match container d with
  | None => ""
  | Some c =>
      match rt_Host net c w with
      | inl _ => "localhost"
      | inr host => host
      end
  end.

Definition Port (d : DockerContainer Handle) (internal : Z) (w : W) : error + Z :=
  match container d with
  | None =>
      inl (ContainerError "port" (ID (config d)) "container not started" None)
  | Some c =>
      match rt_MappedPort net c (pretty internal +:+ "/tcp") w with
      | inl err =>
          inl (ContainerError "port" (ID (config d))
                 "failed to get mapped port" (Some err))
      | inr port => inr port
      end
  end.

Definition ConnectionString (d : DockerContainer Handle) (w : W) : string :=
  let host := Host d w in
  if decide (host = "") then ""
  else
    match Ports (config d) with
    | first :: _ =>
        match Port d (Internal first) w with
        | inl _ => ""
        | inr port => host +:+ ":" +:+ pretty port
        end
    | [] => host
    end.

(** The loop of [WaitForReady]: [ticks] is the number of times the [select]
    takes the one-second ticker before it takes [timeoutCtx.Done()], and
    [cause] is [timeoutCtx.Err()] at that moment. *)
Fixpoint WaitForReady_loop (d : DockerContainer Handle) (ticks : nat)
    (cause : error) (w : W) : option error * W :=
  match ticks with
  | O =>
      (Some (ContainerError "wait_for_ready" (ID (config d))
               "timeout waiting for container to be ready" (Some cause)), w)
  | S ticks' =>
      if IsRunning rt d (afterTick w) then (None, afterTick w)
      else WaitForReady_loop d ticks' cause (afterTick w)
  end.

Definition WaitForReady (d : DockerContainer Handle) (ticks : nat)
    (cause : error) (w : W) : option error * W :=
  match container d with
  | None =>
      (Some (ContainerError "wait_for_ready" (ID (config d))
               "container not started" None), w)
  | Some _ => WaitForReady_loop d ticks cause w
  end.

Definition HealthCheck (d : DockerContainer Handle) (w : W) : option error :=
  if IsRunning rt d w then None
  else Some (ContainerError "health_check" (ID (config d))
               "container is not running" None).

End Container.

End docker_container.

(* ===================================================================== *)
(** ** HTTP, as the repository uses it *)
(* ===================================================================== *)
Module net_http.

(** [http.NewRequestWithContext(ctx, method, url, nil)], which fails on a
    malformed request, and [client.Do(req)] for a client with the given
    [Timeout], which gives a transport error or the status code of the
    response. *)
Record Client (W : Type) := {
  NewRequestWithContext : health.Context -> string -> string -> option error;
  Do : health.Context -> Z -> string -> W -> (error + Z) * W;
}.
Arguments NewRequestWithContext {W} _ _ _ _.
Arguments Do {W} _ _ _ _ _.

(** [resp.StatusCode < 200 || resp.StatusCode >= 300]. *)
Definition notSuccess (status : Z) : bool :=
  Z.ltb status 200 || Z.leb 300 status.

End net_http.

(* ===================================================================== *)
(** ** Package testcontainers: readiness of the application container *)
(* ===================================================================== *)
Module app_ready.
Import testcontainers goerrors net_http.

(** The calls [WaitForReady] makes, with their arguments and what they
    returned: [WaitForReady(ctx, timeout)] of a dependency and of the
    embedded [DockerContainer], and the GET requests of the validation. *)
Inductive ReadyCall :=
| CallDepWait (dep : string) (timeout : Z) (ret : option error)
| CallPrimaryWait (primary : string) (timeout : Z) (ret : option error)
| CallGet (url : string) (ret : error + Z).

Definition MR (W A : Type) : Type := W -> A * W * list ReadyCall.

Definition ret {W A} (a : A) : MR W A := fun w => (a, w, []).

Definition bind {W A B} (m : MR W A) (k : A -> MR W B) : MR W B :=
  fun w =>
    let '(a, w1, t1) := m w in
    let '(b, w2, t2) := k a w1 in
    (b, w2, t1 ++ t2).

Definition call {W A} (ev : A -> ReadyCall) (op : W -> A * W) : MR W A :=
  fun w => let '(a, w') := op w in (a, w', [ev a]).

#[local] Notation "x <- m ;; k" := (bind m (fun x => k))
  (at level 100, m at next level, right associativity).

Section Ready.
Context {W Handle Any : Type}.
Context (rt : docker.Runtime W Handle Any).
Context (net : docker_container.Network W Handle).
Context (http : Client W) (afterTick : W -> W).
(** The method [WaitForReady] of a dependency, which the record [Container]
    does not carry. *)
Context (depWaitForReady :
           Container W -> health.Context -> Z -> W -> option error * W).

#[local] Abbreviation App := (TestcontainerAppContainer W Handle Any).

(** [ConnectionString]: the application port is 8080 whatever ports are
    configured. *)
Definition ConnectionString (t : App) (w : W) : string :=
  let host := docker_container.Host net (DockerContainer_ t) w in
  match docker_container.Port net (DockerContainer_ t) 8080 w with
  | inl _ => ""
  | inr port => "http://" +:+ host +:+ ":" +:+ pretty port
  end.

Definition HealthEndpoint (t : App) : string :=
  match skeletonConfig t with
  | Some _ => "/health"
  | None => "/health"
  end.

Definition MetricsEndpoint (t : App) : string :=
  match skeletonConfig t with
  | Some _ => "/metrics"
  | None => "/metrics"
  end.

Definition ShutdownEndpoint (t : App) : string :=
  match skeletonConfig t with
  | Some _ => "/shutdown"
  | None => "/shutdown"
  end.

Definition validateEndpoint (ctx : health.Context) (url name : string)
  : MR W (option goerror) :=
  match NewRequestWithContext http ctx "GET" url with
  | Some err =>
      ret (Some (Errorf_w ("failed to create request for " +:+ name
                             +:+ " endpoint: ") (plain err)))
  | None =>
      resp <- call (CallGet url) (Do http ctx (10 * health.Second) url) ;;
      match resp with
      | inl err =>
          ret (Some (Errorf_w ("failed to reach " +:+ name +:+ " endpoint at "
                                 +:+ url +:+ ": ") (plain err)))
      | inr status =>
          if notSuccess status then
            ret (Some (Errorf (name +:+ " endpoint returned status "
                                 +:+ pretty status)))
          else ret None
      end
  end.

Definition validateSkeletonEndpoints (t : App) (ctx : health.Context)
  : MR W (option goerror) :=
  fun w =>
    let baseURL := ConnectionString t w in
    if decide (baseURL = "") then
      (Some (Errorf
               "unable to get connection string for skeleton endpoint validation"),
       w, [])
    else
      (err <- validateEndpoint ctx (baseURL +:+ "/api/system/health")
                "skeleton system service" ;;
       match err with
       | Some err => ret (Some err)
       | None =>
           validateEndpoint ctx (baseURL +:+ "/api/components")
             "skeleton components"
       end) w.

(** The [range] loop of [WaitForReady] over the dependencies still to wait
    for. *)
Fixpoint waitDependencies (t : App) (ctx : health.Context) (timeout : Z)
    (deps : list (Container W)) : MR W (option goerror) :=
  match deps with
  | [] => ret None
  | dep :: rest =>
      err <- call (CallDepWait (container.ID dep) timeout)
               (depWaitForReady dep ctx timeout) ;;
      match err with
      | Some err =>
          ret (Some (plain (ContainerError "wait_dependency" (ID t)
                              ("dependency " +:+ container.ID dep +:+ " not ready")
                              (Some err))))
      | None => waitDependencies t ctx timeout rest
      end
  end.

(** [WaitForReady(ctx, timeout)]; [ticks] and [cause] are those of the wait
    for the primary. *)
Definition WaitForReady (t : App) (ctx : health.Context) (timeout : Z)
    (ticks : nat) (cause : error) : MR W (option goerror) :=
  err <- waitDependencies t ctx timeout (dependencies t) ;;
  match err with
  | Some err => ret (Some err)
  | None =>
      err <- call (CallPrimaryWait (ID t) timeout)
               (docker_container.WaitForReady rt afterTick
                  (DockerContainer_ t) ticks cause) ;;
      match err with
      | Some err => ret (Some (plain err))
      | None =>
          match skeletonConfig t with
          | None => ret None
          | Some _ =>
              err <- validateSkeletonEndpoints t ctx ;;
              match err with
              | Some err =>
                  ret (Some (wrapContainerError "validate_skeleton_endpoints"
                               (ID t) "skeleton endpoints validation failed" err))
              | None => ret None
              end
          end
      end
  end.

End Ready.

End app_ready.

(* ===================================================================== *)
(** ** Network and HTTP for concrete runs *)
(* ===================================================================== *)
Module fixtures_ready.
Import fixtures.

(** Every container is on localhost; a running one has its ports mapped to
    32768. *)
Definition network : docker_container.Network World string :=
  {| docker_container.rt_Host := fun _ _ => inr "localhost";
     docker_container.rt_MappedPort := fun name _ w =>
       if member name (up w) then inr 32768%Z
       else inl (errorString "port not found") |}.

(** A server that answers each URL with the status [status] gives it. *)
Definition httpClient (status : string -> Z) : net_http.Client World :=
  {| net_http.NewRequestWithContext := fun _ _ _ => None;
     net_http.Do := fun _ _ url w => (inr (status url), advance 1000000 w) |}.

(** A dependency is ready when it runs; it is not waited for otherwise. *)
Definition depWaitForReady (dep : Container World) (ctx : health.Context)
    (timeout : Z) (w : World) : option error * World :=
  if container.IsRunning dep w then (None, w)
  else (Some (errorString "context deadline exceeded"), w).

Definition skeletonCreated (names : list string)
  : testcontainers.TestcontainerAppContainer World string unit :=
  {| testcontainers.DockerContainer_ :=
       docker.SetContainer
         (testcontainers.DockerContainer_ fixtures_more.skeletonApp)
         "skeleton-app";
     testcontainers.skeletonConfig := Some fixtures_more.skeleton;
     testcontainers.dependencies := dependency <$> names |}.

End fixtures_ready.

(* ===================================================================== *)
(** ** Package health: the HTTP checks *)
(* ===================================================================== *)
Module health_checks.
Import goerrors net_http.

(** The field [client] is recorded by its [Timeout]. *)
Record HTTPHealthCheck := {
  name : string;
  endpoint : string;
  interval : Z;
  timeout : Z;
  clientTimeout : Z;
}.

Definition NewHTTPHealthCheck (name endpoint : string) : HTTPHealthCheck :=
  {| name := name; endpoint := endpoint;
     interval := 30 * health.Second; timeout := 10 * health.Second;
     clientTimeout := 10 * health.Second |}.

Definition WithInterval (h : HTTPHealthCheck) (interval : Z) : HTTPHealthCheck :=
  {| name := name h; endpoint := endpoint h; interval := interval;
     timeout := timeout h; clientTimeout := clientTimeout h |}.

Definition WithTimeout (h : HTTPHealthCheck) (timeout : Z) : HTTPHealthCheck :=
  {| name := name h; endpoint := endpoint h; interval := interval h;
     timeout := timeout; clientTimeout := timeout |}.

Record SkeletonSystemHealthCheck := {
  systemName : string;
  systemInterval : Z;
  systemTimeout : Z;
  systemClientTimeout : Z;
}.

Definition NewSkeletonSystemHealthCheck : SkeletonSystemHealthCheck :=
  {| systemName := "skeleton-system";
     systemInterval := 30 * health.Second; systemTimeout := 10 * health.Second;
     systemClientTimeout := 10 * health.Second |}.

Record SkeletonComponentHealthCheck := {
  componentName : string;
  componentID : string;
  componentInterval : Z;
  componentTimeout : Z;
  componentClientTimeout : Z;
}.

Definition NewSkeletonComponentHealthCheck (componentID : string)
  : SkeletonComponentHealthCheck :=
  {| componentName := "skeleton-component-" +:+ componentID;
     componentID := componentID;
     componentInterval := 30 * health.Second;
     componentTimeout := 10 * health.Second;
     componentClientTimeout := 10 * health.Second |}.

Section Checks.
Context {W : Type} (http : Client W).

(** [func (h *HTTPHealthCheck) Check(ctx, target) error]. *)
Definition Check (h : HTTPHealthCheck) (ctx : health.Context)
    (target : health.HealthTarget W) (w : W) : option goerror * W :=
  let url :=
    if decide (endpoint h = "") then health.HealthEndpoint W target w
    else endpoint h in
  match NewRequestWithContext http ctx "GET" url with
  | Some err => (Some (Errorf_w "failed to create request: " (plain err)), w)
  | None =>
      match Do http ctx (clientTimeout h) url w with
      | (inl err, w') =>
          (Some (Errorf_w "health check request failed: " (plain err)), w')
      | (inr status, w') =>
          if notSuccess status then
            (Some (Errorf ("health check failed with status " +:+ pretty status)),
             w')
          else (None, w')
      end
  end.

(** [func (s *SkeletonSystemHealthCheck) Check(ctx, target) error]. *)
Definition SystemCheck (s : SkeletonSystemHealthCheck) (ctx : health.Context)
    (target : health.HealthTarget W) (w : W) : option goerror * W :=
  let url := health.HealthEndpoint W target w +:+ "/skeleton/system" in
  match NewRequestWithContext http ctx "GET" url with
  | Some err =>
      (Some (Errorf_w "failed to create skeleton system request: " (plain err)), w)
  | None =>
      match Do http ctx (systemClientTimeout s) url w with
      | (inl err, w') =>
          (Some (Errorf_w "skeleton system check failed: " (plain err)), w')
      | (inr status, w') =>
          if notSuccess status then
            (Some (Errorf ("skeleton system check failed with status "
                             +:+ pretty status)), w')
          else (None, w')
      end
  end.

(** [func (s *SkeletonComponentHealthCheck) Check(ctx, target) error]. *)
Definition ComponentCheck (s : SkeletonComponentHealthCheck)
    (ctx : health.Context) (target : health.HealthTarget W) (w : W)
  : option goerror * W :=
  let url := health.HealthEndpoint W target w +:+ "/skeleton/components/"
               +:+ componentID s +:+ "/status" in
  match NewRequestWithContext http ctx "GET" url with
  | Some err =>
      (Some (Errorf_w "failed to create component status request: " (plain err)),
       w)
  | None =>
      match Do http ctx (componentClientTimeout s) url w with
      | (inl err, w') =>
          (Some (Errorf_w "component status check failed: " (plain err)), w')
      | (inr status, w') =>
          if notSuccess status then
            (Some (Errorf ("component status check failed with status "
                             +:+ pretty status)), w')
          else (None, w')
      end
  end.

End Checks.

End health_checks.

(* ===================================================================== *)
(** ** Package container (public): the application wrapper *)
(* ===================================================================== *)
Module pkg_container.
Import testcontainers.

Section Wrapper.
Context {W Handle Any : Type}.

#[local] Abbreviation Impl := (TestcontainerAppContainer W Handle Any).

(** An [*AppContainer] is known by the object its field [impl] points to:
    [impl] is the address of that [TestcontainerAppContainer] in the store
    of these objects.  A method that returns [a] returns the receiver. *)
Record AppContainer := { impl : nat }.

(** [&T{...}]: a new object, at an address not in use. *)
Definition new (heap : gmap nat Impl) (t : Impl) : nat * gmap nat Impl :=
  (fresh (dom heap), <[fresh (dom heap) := t]> heap).

Definition NewAppContainer (impl : nat) : AppContainer := {| impl := impl |}.

(** The builder methods give [None] when [a.impl] points nowhere, where Go
    panics on the nil pointer. *)
Definition WithSkeletonConfig (a : AppContainer)
    (config : option (SkeletonConfig Any)) (heap : gmap nat Impl)
  : option (AppContainer * gmap nat Impl) :=
  match heap !! impl a with
  | None => None
  | Some old =>
      let containerConfig := docker.config (DockerContainer_ old) in
      let newImpl :=
        foldl AddDependency
          (NewTestcontainerAppContainer containerConfig config)
          (dependencies old) in
      let '(addr, heap') := new heap newImpl in
      Some ({| impl := addr |}, heap')
  end.

Definition WithSkeletonPlugins (a : AppContainer)
    (plugins : list (SkeletonPluginConfig Any)) (heap : gmap nat Impl)
  : option (AppContainer * gmap nat Impl) :=
  WithSkeletonConfig a
    (Some {| ServiceID := ""; Plugins := plugins;
             Storage := {| Type_ := ""; URL := "" |} |}) heap.

Definition WithDatabase (a : AppContainer) (db : Container W)
    (heap : gmap nat Impl) : option (AppContainer * gmap nat Impl) :=
  match heap !! impl a with
  | None => None
  | Some old => Some (a, <[impl a := AddDependency old db]> heap)
  end.

Definition WithCache (a : AppContainer) (cache : Container W)
    (heap : gmap nat Impl) : option (AppContainer * gmap nat Impl) :=
  match heap !! impl a with
  | None => None
  | Some old => Some (a, <[impl a := AddDependency old cache]> heap)
  end.

Definition WithMessageQueue (a : AppContainer) (mq : Container W)
    (heap : gmap nat Impl) : option (AppContainer * gmap nat Impl) :=
  match heap !! impl a with
  | None => None
  | Some old => Some (a, <[impl a := AddDependency old mq]> heap)
  end.

Definition WithEnvironment (a : AppContainer) (env : gmap string string)
    (heap : gmap nat Impl) : option (AppContainer * gmap nat Impl) :=
  match heap !! impl a with
  | None => None
  | Some old =>
      let containerConfig := docker.config (DockerContainer_ old) in
      (* the configured variables first, then [env] over them *)
      let newEnv := env ∪ docker.Environment containerConfig in
      let newContainerConfig :=
        {| docker.ID := docker.ID containerConfig;
           docker.Name := docker.Name containerConfig;
           docker.Image := docker.Image containerConfig;
           docker.Environment := newEnv;
           docker.Ports := docker.Ports containerConfig |} in
      let newImpl :=
        foldl AddDependency
          (NewTestcontainerAppContainer newContainerConfig (skeletonConfig old))
          (dependencies old) in
      let '(addr, heap') := new heap newImpl in
      Some ({| impl := addr |}, heap')
  end.

Definition WithHealthEndpoint (a : AppContainer) (endpoint : string)
    (heap : gmap nat Impl) : AppContainer * gmap nat Impl :=
  (a, heap).

Definition WithShutdownEndpoint (a : AppContainer) (endpoint : string)
    (heap : gmap nat Impl) : AppContainer * gmap nat Impl :=
  (a, heap).

End Wrapper.

End pkg_container.

(* ===================================================================== *)
(** ** Package container (public): the wrapper's lifecycle methods *)
(* ===================================================================== *)
Module pkg_lifecycle.
Import testcontainers pkg_container.

Section Lifecycle.
Context {W Handle Any : Type} (rt : docker.Runtime W Handle Any).

#[local] Abbreviation Impl := (TestcontainerAppContainer W Handle Any).

(** [a.impl.Start(ctx)]: the started object replaces the one at [a.impl]. *)
Definition Start (a : AppContainer) (heap : gmap nat Impl) (w : W)
  : option (option error * gmap nat Impl * W * list Call) :=
  match heap !! impl a with
  | None => None
  | Some t =>
      let '((err, t'), w', calls) := testcontainers.Start rt t w in
      Some (err, <[impl a := t']> heap, w', calls)
  end.

Definition Stop (a : AppContainer) (heap : gmap nat Impl) (w : W)
  : option (option error * W * list Call) :=
  match heap !! impl a with
  | None => None
  | Some t => Some (testcontainers.Stop rt t w)
  end.

Definition IsRunning (a : AppContainer) (heap : gmap nat Impl) (w : W)
  : option bool :=
  match heap !! impl a with
  | None => None
  | Some t => Some (docker.IsRunning rt (DockerContainer_ t) w)
  end.

End Lifecycle.

End pkg_lifecycle.

(* ===================================================================== *)
(** ** Package verification: the system verifier's shutdown check *)
(* ===================================================================== *)
Module verification.
Import testcontainers goerrors.

Record SystemVerifier := { app : pkg_container.AppContainer }.

Definition NewSystemVerifier (app : pkg_container.AppContainer)
  : SystemVerifier := {| app := app |}.

Section Verifier.
Context {W Handle Any : Type} (rt : docker.Runtime W Handle Any).

#[local] Abbreviation Impl := (TestcontainerAppContainer W Handle Any).

Definition VerifySkeletonShutdown (s : SystemVerifier)
    (heap : gmap nat Impl) (w : W)
  : option (option goerror * W * list Call) :=
  match pkg_lifecycle.IsRunning rt (app s) heap w with
  | None => None
  | Some false => Some (None, w, []) (* already stopped *)
  | Some true =>
      match pkg_lifecycle.Stop rt (app s) heap w with
      | None => None
      | Some (Some err, w', calls) =>
          Some (Some (Errorf_w "failed to stop skeleton application: "
                        (plain err)), w', calls)
      | Some (None, w', calls) =>
          match pkg_lifecycle.IsRunning rt (app s) heap w' with
          | None => None
          | Some true =>
              Some (Some (Errorf
                      "skeleton application is still running after stop"),
                    w', calls)
          | Some false => Some (None, w', calls)
          end
      end
  end.

End Verifier.

End verification.

(* ===================================================================== *)
(** ** A store of applications for the runs of the wrapper *)
(* ===================================================================== *)
Module fixtures_wrapper.
Import fixtures fixtures_more.

(** The skeleton application at address 0, with the dependency [db]. *)
Definition store
  : gmap nat (testcontainers.TestcontainerAppContainer World string unit) :=
  <[0%nat := testcontainers.AddDependency skeletonApp (dependency "db")]> ∅.

Definition wrapper : pkg_container.AppContainer :=
  pkg_container.NewAppContainer 0.

(** A store holding a created application, whose handle is set. *)
Definition createdStore (names : list string)
  : gmap nat (testcontainers.TestcontainerAppContainer World string unit) :=
  <[0%nat := created names]> ∅.

End fixtures_wrapper.

(* ===================================================================== *)
(** * Properties *)
(* ===================================================================== *)

Local Open Scope Z_scope.

(** ** The port manager *)
Section PortManagerFacts.
Import docker.
Implicit Types (p : PortManager) (id : string) (port : Z).

Lemma IsPortAllocated_true p port :
  IsPortAllocated p port = true <->
  exists id, port ∈ GetAllocatedPorts p id.
Proof.
  unfold IsPortAllocated, GetAllocatedPorts.
  rewrite existsb_exists. split.
  - intros [[id ports] [Hin Hex]]. simpl in Hex.
    apply list_elem_of_In, elem_of_map_to_list in Hin.
    apply existsb_exists in Hex as [x [Hx Heq]].
    apply Z.eqb_eq in Heq. subst x.
    exists id. rewrite Hin. by apply list_elem_of_In.
  - intros [id Hid].
    destruct (allocatedPorts p !! id) as [ports|] eqn:E.
    + exists (id, ports). split.
      * by apply list_elem_of_In, elem_of_map_to_list.
      * simpl. apply existsb_exists. exists port. split.
        -- by apply list_elem_of_In.
        -- apply Z.eqb_refl.
    + by apply not_elem_of_nil in Hid.
Qed.

Lemma IsPortAllocated_false p port :
  IsPortAllocated p port = false <->
  forall id, port ∉ GetAllocatedPorts p id.
Proof.
  rewrite <- not_true_iff_false, IsPortAllocated_true.
  split; [intros H id Hid; apply H; by exists id|intros H [id Hid]; by eapply H].
Qed.

Lemma GetAllocatedPorts_AllocatePort p id port id' :
  GetAllocatedPorts (AllocatePort p id port) id' =
  if decide (id = id') then GetAllocatedPorts p id ++ [port]
  else GetAllocatedPorts p id'.
Proof.
  unfold GetAllocatedPorts, AllocatePort. simpl.
  destruct (allocatedPorts p !! id) as [ports|] eqn:E;
    case_decide; simplify_map_eq; done.
Qed.

Lemma GetAllocatedPorts_DeallocateAllPorts p id id' :
  GetAllocatedPorts (DeallocateAllPorts p id) id' =
  if decide (id = id') then [] else GetAllocatedPorts p id'.
Proof.
  unfold GetAllocatedPorts, DeallocateAllPorts. simpl.
  case_decide; simplify_map_eq; done.
Qed.

Lemma firstIndex_lt port ports i :
  firstIndex port ports = Some i -> (i < length ports)%nat.
Proof.
  revert i. induction ports as [|a rest IH]; intros i; simpl; [done|].
  destruct (Z.eqb a port).
  - intros [= <-]. lia.
  - destruct (firstIndex port rest) as [j|]; simpl; [|done].
    intros [= <-]. specialize (IH j eq_refl). lia.
Qed.

(** What [DeallocatePort] leaves of a record was in it before. *)
Lemma GetAllocatedPorts_DeallocatePort p id port id' x :
  x ∈ GetAllocatedPorts (DeallocatePort p id port) id' ->
  x ∈ GetAllocatedPorts p id'.
Proof.
  unfold GetAllocatedPorts, DeallocatePort.
  destruct (allocatedPorts p !! id) as [ports|] eqn:E; [|done].
  destruct (firstIndex port ports) as [i|] eqn:Ei; [|done]. simpl.
  destruct (decide (id = id')) as [<-|Hne].
  - rewrite lookup_insert_eq, E.
    rewrite elem_of_app. intros [H|H].
    + by eapply subseteq_take.
    + by eapply subseteq_drop.
  - by rewrite lookup_insert_ne.
Qed.

(** A caller that allocates only ports reported free keeps the records
    of different containers disjoint. *)
Lemma replayCheckedFrom_exclusive ops :
  forall p p', exclusive p -> replayCheckedFrom p ops = Some p' -> exclusive p'.
Proof.
  unfold exclusive.
  induction ops as [|o rest IH]; intros p p' Hp; simpl.
  - by intros [= <-].
  - destruct o as [id port|id port|id].
    + destruct (IsPortAllocated p port) eqn:Hfree; [done|].
      apply IH. intros id1 id2 x Hne.
      rewrite !GetAllocatedPorts_AllocatePort.
      rewrite IsPortAllocated_false in Hfree.
      destruct (decide (id = id1)) as [E1|N1], (decide (id = id2)) as [E2|N2];
        subst; rewrite ?elem_of_app, ?list_elem_of_singleton.
      * done.
      * intros [H| ->]; [by apply (Hp id1 id2)|apply Hfree].
      * intros H [H'| ->]; [by apply (Hp id1 id2 x)|by apply (Hfree id1)].
      * by apply Hp.
    + apply IH. intros id1 id2 x Hne H1 H2.
      apply GetAllocatedPorts_DeallocatePort in H1, H2.
      by apply (Hp id1 id2 x).
    + apply IH. intros id1 id2 x Hne. simpl.
      rewrite !GetAllocatedPorts_DeallocateAllPorts.
      destruct (decide (id = id1)) as [E1|N1], (decide (id = id2)) as [E2|N2];
        subst.
      * done.
      * intros H; by apply not_elem_of_nil in H.
      * intros _. apply not_elem_of_nil.
      * by apply Hp.
Qed.

Lemma exclusive_NewPortManager : exclusive NewPortManager.
Proof. intros id1 id2 x _ H. by apply not_elem_of_nil in H. Qed.

End PortManagerFacts.

(** C7. After [DeallocateAllPorts p id] the record of [id] is empty, and a
    port that no other container has on record is not reported allocated;
    in particular [8080], allocated to [id] in a fresh manager and then
    released with all of [id]'s ports, is not reported allocated. *)
Theorem C7_DeallocateAllPorts_releases
    (p : docker.PortManager) (id : string) (port : Z)
    (Honly : forall id', id' <> id -> port ∉ docker.GetAllocatedPorts p id') :
  docker.GetAllocatedPorts (docker.DeallocateAllPorts p id) id = [] /\
  docker.IsPortAllocated (docker.DeallocateAllPorts p id) port = false /\
  docker.IsPortAllocated
    (docker.DeallocateAllPorts
       (docker.AllocatePort docker.NewPortManager id 8080) id) 8080 = false.
Proof.
  split; [|split].
  - rewrite GetAllocatedPorts_DeallocateAllPorts. by rewrite decide_True.
  - apply IsPortAllocated_false. intros id'.
    rewrite GetAllocatedPorts_DeallocateAllPorts.
    case_decide; [apply not_elem_of_nil|]. apply Honly. congruence.
  - apply IsPortAllocated_false. intros id'.
    rewrite GetAllocatedPorts_DeallocateAllPorts.
    case_decide; [apply not_elem_of_nil|].
    rewrite GetAllocatedPorts_AllocatePort, decide_False by done.
    apply not_elem_of_nil.
Qed.

Lemma C7_DeallocateAllPorts_releases_witness :
  let p := docker.AllocatePort
             (docker.AllocatePort docker.NewPortManager "app" 8080) "db" 5432 in
  docker.GetAllocatedPorts (docker.DeallocateAllPorts p "app") "app" = [] /\
  docker.IsPortAllocated (docker.DeallocateAllPorts p "app") 8080 = false /\
  docker.IsPortAllocated
    (docker.DeallocateAllPorts
       (docker.AllocatePort docker.NewPortManager "app" 8080) "app") 8080 = false.
Proof.
  intros p. apply (C7_DeallocateAllPorts_releases p "app" 8080).
  intros id' Hne. unfold p.
  rewrite !GetAllocatedPorts_AllocatePort.
  repeat case_decide; subst; try done.
  - rewrite elem_of_app, list_elem_of_singleton.
    intros [H|H]; [by apply not_elem_of_nil in H|done].
  - apply not_elem_of_nil.
Defined.

(** C8 as stated fails: [AllocatePort] records a port without looking at the
    other containers, so two allocations of [8080] put it in two records. *)
Lemma C8_counterexample :
  ~ docker.exclusive
      (docker.replay [docker.OpAllocate "app" 8080; docker.OpAllocate "db" 8080]).
Proof.
  intros H. apply (H "app" "db" 8080); [done| |];
    unfold docker.replay; cbn [foldl docker.applyOp];
    rewrite !GetAllocatedPorts_AllocatePort;
    repeat case_decide; try done;
    rewrite elem_of_app, list_elem_of_singleton; by right.
Qed.

(** C8, amended. When every [AllocatePort] is made for a port that
    [IsPortAllocated] reports free at that moment, then after any sequence of
    allocations, deallocations and [DeallocateAllPorts] from a fresh manager
    no port number is in the records of two different containers. *)
Theorem C8_checked_allocation_exclusive
    (ops : list docker.PortOp) (p : docker.PortManager)
    (Hchecked : docker.replayChecked ops = Some p) :
  docker.exclusive p.
Proof.
  eapply replayCheckedFrom_exclusive; [apply exclusive_NewPortManager|].
  exact Hchecked.
Qed.

Lemma C8_checked_allocation_exclusive_witness :
  docker.exclusive
    (docker.replay [docker.OpAllocate "app" 8080; docker.OpAllocate "db" 5432;
                    docker.OpDeallocate "app" 8080; docker.OpAllocate "db" 8080]).
Proof.
  apply (C8_checked_allocation_exclusive
           [docker.OpAllocate "app" 8080; docker.OpAllocate "db" 5432;
            docker.OpDeallocate "app" 8080; docker.OpAllocate "db" 8080]).
  vm_compute. reflexivity.
Defined.

(** ** The application container and its dependencies *)
Section AppContainerFacts.
Import testcontainers runs.
Context {W Handle Any : Type} (rt : docker.Runtime W Handle Any).
Implicit Types (t : TestcontainerAppContainer W Handle Any) (w : W).
Implicit Types (deps : list (Container W)) (visits : list Visit).

(** The loop over the dependencies visits them in the listed order; it
    either visits them all without a failed [Start], or ends with the
    first failed [Start]. *)
Lemma startDependencies_run t deps :
  forall w r w' tr,
    startDependencies t deps w = (r, w', tr) ->
    exists visits,
      tr = startCalls (container.ID <$> deps) visits /\
      ((r = None /\ length visits = length deps /\
        Forall (fun v => failed v = false) visits)
       \/
       (exists before dep err,
          visits = before ++ [Called (Some err)] /\
          Forall (fun v => failed v = false) before /\
          deps !! length before = Some dep /\
          r = Some (startDependencyError t dep err))).
Proof.
  induction deps as [|dep rest IH]; intros w r w' tr; simpl.
  - intros [= <- <- <-]. exists []. split; [done|]. left. by split_and!.
  - unfold bind, query, call.
    destruct (container.IsRunning dep w) eqn:Hrun.
    + destruct (startDependencies t rest w) as [[r1 w1] tr1] eqn:Hrest.
      intros [= <- <- <-].
      destruct (IH _ _ _ _ Hrest) as (visits & -> & Hcase).
      exists (Skipped :: visits). split; [done|].
      destruct Hcase as [(-> & Hlen & Hok)|(before & d & err & -> & Hok & Hd & ->)].
      * left. split_and!; try done; [simpl; by rewrite Hlen|by constructor].
      * right. exists (Skipped :: before), d, err.
        split_and!; try done; by constructor.
    + destruct (container.Start dep w) as [[err|] w1] eqn:Hstart.
      * intros [= <- <- <-].
        exists [Called (Some err)].
        split; [unfold startCalls; simpl; by rewrite zip_with_nil_r|].
        right. exists [], dep, err. by split_and!.
      * destruct (startDependencies t rest w1) as [[r2 w2] tr2] eqn:Hrest.
        intros [= <- <- <-].
        destruct (IH _ _ _ _ Hrest) as (visits & -> & Hcase).
        exists (Called None :: visits). split; [done|].
        destruct Hcase as [(-> & Hlen & Hok)|(before & d & err & -> & Hok & Hd & ->)].
        -- left. split_and!; try done; [simpl; by rewrite Hlen|by constructor].
        -- right. exists (Called None :: before), d, err.
           split_and!; try done; by constructor.
Qed.

(** The loop of [Stop] visits the first [n] dependencies, last first, and
    goes on whatever a [Stop] returns. *)
Lemma stopDependencies_run deps :
  forall n w,
    (n <= length deps)%nat ->
    exists visits,
      length visits = n /\
      (stopDependencies deps n w).2 =
        stopCalls (container.ID <$> reverse (take n deps)) visits.
Proof.
  induction n as [|i IH]; intros w Hn; simpl.
  - by exists [].
  - destruct (lookup_lt_is_Some_2 deps i ltac:(lia)) as [dep Hdep].
    rewrite Hdep. rewrite (take_S_r _ _ _ Hdep), reverse_snoc.
    unfold bind, query, call.
    destruct (container.IsRunning dep w) eqn:Hrun.
    + destruct (container.Stop dep w) as [ret w1] eqn:Hstop.
      destruct (IH w1 ltac:(lia)) as (visits & Hlen & Htr).
      destruct (stopDependencies deps i w1) as [[u w2] tr2].
      simpl in Htr. subst tr2.
      exists (Called ret :: visits). split; [simpl; by rewrite Hlen|done].
    + destruct (IH w ltac:(lia)) as (visits & Hlen & Htr).
      destruct (stopDependencies deps i w) as [[u w2] tr2].
      simpl in Htr. subst tr2.
      exists (Skipped :: visits). split; [simpl; by rewrite Hlen|done].
Qed.

(** Once the primary has stopped, [Stop] returns [nil] whatever the
    dependencies' [Stop] calls returned. *)
Lemma Stop_nil_after_primary t w :
  (docker.Stop rt (DockerContainer_ t) w).1 = None ->
  (Stop rt t w).1.1 = None.
Proof.
  unfold Stop, bind, call.
  destruct (docker.Stop rt (DockerContainer_ t) w) as [[err|] w1]; [done|].
  intros _.
  by destruct (stopDependencies _ _ w1) as [[u w2] tr2].
Qed.

(** [StopAll] never forgets an error it has recorded. *)
Lemma StopAll_loop_keeps_error (order : list (docker.DockerContainer Handle)) :
  forall err w, is_Some (docker.StopAll_loop rt order (Some err) w).1.
Proof.
  induction order as [|d rest IH]; intros err w; simpl; [by eexists|].
  destruct (docker.IsRunning rt d w); [|apply IH].
  destruct (docker.Stop rt d w) as [[err'|] w']; apply IH.
Qed.

End AppContainerFacts.

Section AppContainerClaims.
Import testcontainers runs.
Context {W Handle Any : Type} (rt : docker.Runtime W Handle Any).
Implicit Types (t : TestcontainerAppContainer W Handle Any) (w : W).

Lemma startCalls_upto (visited remaining : list (Container W)) dep before v :
  length before = length visited ->
  startCalls (container.ID <$> visited ++ dep :: remaining) (before ++ [v]) =
  startCalls (container.ID <$> visited ++ [dep]) (before ++ [v]).
Proof.
  intros Hlen. unfold startCalls.
  rewrite !fmap_app, !zip_with_app by (by rewrite length_fmap).
  simpl. by rewrite !zip_with_nil_r.
Qed.



End AppContainerClaims.

Section AppContainerRuns.
Import testcontainers runs fixtures.


(** The run of that witness, call by call. *)
Example Start_fail_fast_run :
  let t := withDependencies ["db"; "cache"; "mq"] in
  let run := Start runtime t (world [] ["cache"] []) in
  run.2 = [CallIsRunning "db" false; CallStart "db" None;
           CallIsRunning "cache" false;
           CallStart "cache" (Some (errorString "image not found"))] /\
  container.Error <$> run.1.1.1 =
    Some ("container container-abcd1234 start_dependency failed: "
          +:+ "failed to start dependency cache: image not found").
Proof. split; reflexivity. Qed.

(** With every dependency startable the primary comes last. *)
Example Start_in_order_run :
  let t := withDependencies ["db"; "cache"; "mq"] in
  let run := Start runtime t (world ["cache"] [] []) in
  run.2 = [CallIsRunning "db" false; CallStart "db" None;
           CallIsRunning "cache" true;
           CallIsRunning "mq" false; CallStart "mq" None;
           CallCreate "container-abcd1234" None;
           CallPrimaryStart "container-abcd1234" None] /\
  run.1.1.1 = None.
Proof. split; reflexivity. Qed.



(** C2 at a failing input: [db] and [cache] run, the stop of [cache]
    fails.  [Stop] goes on to stop [db] and then returns [nil], while
    [StopAll] on the same two containers returns the error. *)
Theorem C2_Stop_drops_dependency_stop_error :
  let t := created ["db"; "cache"] in
  let w := world ["skeleton-app"; "db"; "cache"] [] ["cache"] in
  let run := Stop runtime t w in
  run.2 = [CallPrimaryStop "container-abcd1234" None;
           CallIsRunning "cache" true;
           CallStop "cache" (Some (errorString "transport error"));
           CallIsRunning "db" true; CallStop "db" None] /\
  run.1.1 = None /\
  (docker.StopAll_in runtime [dockerContainer "cache"; dockerContainer "db"] w).1
  = Some (ContainerError "stop_all" "cache"
            "failed to stop container during stop all"
            (Some (ContainerError "stop" "cache" "failed to stop container"
                     (Some (errorString "transport error"))))).
Proof. split_and!; reflexivity. Qed.

(** A created application that is not running: [Stop] does not ask whether
    it runs and hands a refusal of the runtime on as any other failure. *)
Example Stop_not_running_runtime_refuses :
  let t := created [] in
  let w := world [] [] ["skeleton-app"] in
  docker.IsRunning runtime (DockerContainer_ t) w = false /\
  (Stop runtime t w).1.1 =
    Some (ContainerError "stop" "container-abcd1234" "failed to stop container"
            (Some (errorString "transport error"))).
Proof. split; reflexivity. Qed.

End AppContainerRuns.

(** C9 at a failing input: an application container that was never started.
    It is not running, and [Stop] returns an error whose text says
    "container not initialized" and does not contain "not running", the text
    the repository's test [StopNonRunningContainer] requires of a non-nil
    error. *)
Theorem C9_Stop_never_started_not_labelled
    {W Handle Any : Type} (rt : docker.Runtime W Handle Any) (w : W) :
  let t := testcontainers.NewTestcontainerAppContainer (W := W)
             fixtures.appConfig None in
  docker.IsRunning rt (testcontainers.DockerContainer_ t) w = false /\
  (testcontainers.Stop rt t w).1.1 =
    Some (ContainerError "stop" "container-abcd1234"
            "container not initialized" None) /\
  container.Error (ContainerError "stop" "container-abcd1234"
                     "container not initialized" None) =
    "container container-abcd1234 stop failed: container not initialized" /\
  Contains
    "container container-abcd1234 stop failed: container not initialized"
    "not running" = false.
Proof. split_and!; reflexivity. Qed.

(** ** The health monitor *)
Section HealthFacts.
Import health monitor_steps.
Context {W : Type} (now : W -> Z) (afterTick : W -> W).
Implicit Types (h : HealthMonitor W) (ctx : Context) (w : W).
Implicit Types (m : gmap string CheckResult).
Implicit Types (l : list (string * CheckResult)).

Lemma record_lookup_Some l : forall m n r,
  record m l !! n = Some r -> m !! n = Some r \/ (n, r) ∈ l.
Proof.
  induction l as [|[n' r'] l IH]; intros m n r; simpl; [by left|].
  intros H. apply IH in H as [H|H].
  - destruct (decide (n' = n)) as [->|Hne].
    + rewrite lookup_insert_eq in H. injection H as ->. right. by left.
    + rewrite lookup_insert_ne in H by done. by left.
  - right. by right.
Qed.

Lemma record_lookup_is_Some l : forall m n,
  (is_Some (m !! n) \/ n ∈ l.*1) -> is_Some (record m l !! n).
Proof.
  induction l as [|[n' r'] l IH]; intros m n; simpl.
  - intros [H|H]; [done|by apply not_elem_of_nil in H].
  - intros [H|H]; apply IH.
    + left. destruct (decide (n' = n)) as [->|Hne].
      * rewrite lookup_insert_eq. by eexists.
      * by rewrite lookup_insert_ne.
    + apply elem_of_cons in H as [->|H]; [left|by right].
      rewrite lookup_insert_eq. by eexists.
Qed.

Lemma record_app m l l' : record m (l ++ l') = record (record m l) l'.
Proof. apply foldl_app. Qed.

Lemma verdict_healthy l :
  verdict l = StatusHealthy <-> Forall (fun e => Status e.2 = StatusHealthy) l.
Proof.
  unfold verdict. rewrite Forall_forall.
  destruct (forallb healthy l) eqn:E.
  - split; [|done]. intros _ e He.
    rewrite forallb_forall in E. apply list_elem_of_In, E in He.
    by apply bool_decide_eq_true in He.
  - split; [done|]. intros H. exfalso.
    apply not_true_iff_false in E. apply E, forallb_forall.
    intros e He. apply bool_decide_eq_true, H. by apply list_elem_of_In.
Qed.

Lemma executions_names h ctx (cs : list (HealthCheck W)) : forall w,
  (executions now h ctx cs w).1.*1 = Name <$> cs.
Proof.
  induction cs as [|c cs IH]; intros w; simpl; [done|].
  destruct (executeCheck now h ctx c w) as [r w1].
  specialize (IH w1).
  destruct (executions now h ctx cs w1) as [more w2]. simpl in *.
  by f_equal.
Qed.

Lemma executions_executed h ctx (cs : list (HealthCheck W)) : forall w,
  Forall (fun e => exists check w0,
              check ∈ cs /\ e = (Name check, (executeCheck now h ctx check w0).1))
    (executions now h ctx cs w).1.
Proof.
  induction cs as [|c cs IH]; intros w; simpl; [constructor|].
  destruct (executeCheck now h ctx c w) as [r w1] eqn:Hexec.
  specialize (IH w1).
  destruct (executions now h ctx cs w1) as [more w2]. simpl in *.
  constructor.
  - exists c, w. split; [by left|]. by rewrite Hexec.
  - eapply Forall_impl; [exact IH|].
    intros e (check & w0 & Hin & ->). exists check, w0. split; [by right|done].
Qed.

(** The loop of [runHealthChecks] records the executions of its checks on
    top of [results] and keeps [overallHealthy] only if all are healthy. *)
Lemma runHealthChecks_loop_executions h ctx (cs : list (HealthCheck W)) :
  forall m (oh : bool) w,
    runHealthChecks_loop now h ctx cs m oh w =
    (record m (executions now h ctx cs w).1,
     oh && forallb healthy (executions now h ctx cs w).1,
     (executions now h ctx cs w).2).
Proof.
  induction cs as [|c cs IH]; intros m oh w; simpl.
  - by rewrite andb_true_r.
  - destruct (executeCheck now h ctx c w) as [r w1].
    rewrite IH.
    destruct (executions now h ctx cs w1) as [more w2]. simpl.
    f_equal. f_equal. unfold healthy at 2. simpl.
    case_decide as Hs.
    + rewrite bool_decide_eq_false_2 by done. simpl. by rewrite andb_false_r.
    + by rewrite bool_decide_eq_true_2.
Qed.

(** A pass replaces the status by the snapshot of its own executions. *)
Lemma runHealthChecks_snapshot h ctx w :
  runHealthChecks now h ctx w =
  (setStatus h (snapshotOf (executions now h ctx (checks h) w).1
                  (now (executions now h ctx (checks h) w).2)),
   (executions now h ctx (checks h) w).2).
Proof.
  unfold runHealthChecks. rewrite runHealthChecks_loop_executions. simpl.
  unfold snapshotOf, verdict.
  by destruct (forallb healthy _).
Qed.

Lemma executeCheck_result h ctx (check : HealthCheck W) w :
  let ret := Check check (WithTimeout ctx (now w) (Timeout check)) (target h) w in
  let result := (executeCheck now h ctx check w).1 in
  (executeCheck now h ctx check w).2 = ret.2 /\
  match ret.1 with
  | None => Status result = StatusHealthy /\ Error result = ""
  | Some err =>
      Status result = StatusUnhealthy /\ Error result = container.Error err
  end.
Proof.
  unfold executeCheck. simpl.
  destruct (Check check _ (target h) w) as [[err|] w']; by simpl.
Qed.

End HealthFacts.

Section HealthClaims.
Import health monitor_steps.
Context {W : Type} (now : W -> Z) (afterTick : W -> W).
Implicit Types (h : HealthMonitor W) (ctx : Context) (w : W).

Lemma runHealthChecks_keeps h ctx w :
  checks (runHealthChecks now h ctx w).1 = checks h /\
  target (runHealthChecks now h ctx w).1 = target h.
Proof. by rewrite runHealthChecks_snapshot. Qed.

Lemma runHealthChecks_verdict h ctx w :
  Overall (GetStatus (runHealthChecks now h ctx w).1) <> StatusHealthy ->
  Overall (GetStatus (runHealthChecks now h ctx w).1) = StatusUnhealthy.
Proof.
  rewrite runHealthChecks_snapshot. simpl. unfold verdict.
  by destruct (forallb healthy _).
Qed.

(** C4. A check is run with the context [WithTimeout ctx (Timeout check)]:
    its result is healthy with no error text when [Check] returns [nil],
    and unhealthy with the text of the error otherwise.  A pass runs every
    registered check once, in order; the overall status it writes is
    healthy exactly when all these results are healthy and unhealthy
    otherwise, and the results it writes are those of this pass, one
    under the name of each check. *)
Theorem C4_check_pass_is_conjunction h ctx w :
  (forall (check : HealthCheck W) w0,
      let ret := Check check (WithTimeout ctx (now w0) (Timeout check))
                   (target h) w0 in
      let result := (executeCheck now h ctx check w0).1 in
      (executeCheck now h ctx check w0).2 = ret.2 /\
      match ret.1 with
      | None => Status result = StatusHealthy /\ Error result = ""
      | Some err =>
          Status result = StatusUnhealthy /\
          Error result = container.Error err
      end) /\
  let pass := executions now h ctx (checks h) w in
  let after := runHealthChecks now h ctx w in
  after.2 = pass.2 /\
  pass.1.*1 = Name <$> checks h /\
  Forall (fun e => exists check w0,
              check ∈ checks h /\
              e = (Name check, (executeCheck now h ctx check w0).1)) pass.1 /\
  (Overall (GetStatus after.1) = StatusHealthy <->
   Forall (fun e => Status e.2 = StatusHealthy) pass.1) /\
  (Overall (GetStatus after.1) <> StatusHealthy ->
   Overall (GetStatus after.1) = StatusUnhealthy) /\
  (forall n r, Checks (GetStatus after.1) !! n = Some r -> (n, r) ∈ pass.1) /\
  (forall n r, (n, r) ∈ pass.1 -> is_Some (Checks (GetStatus after.1) !! n)).
Proof.
  split; [intros check w0; apply executeCheck_result|].
  intros pass after. subst pass after.
  split_and!.
  - by rewrite runHealthChecks_snapshot.
  - apply executions_names.
  - apply executions_executed.
  - rewrite runHealthChecks_snapshot. simpl. apply verdict_healthy.
  - apply runHealthChecks_verdict.
  - rewrite runHealthChecks_snapshot. simpl. intros n r H.
    apply record_lookup_Some in H as [H|H]; [|done].
    by rewrite lookup_empty in H.
  - rewrite runHealthChecks_snapshot. simpl. intros n r H.
    apply record_lookup_is_Some. right.
    apply list_elem_of_fmap. by exists (n, r).
Qed.


(** C10. A monitor without checks: a pass writes the overall status
    healthy with no results, so [WaitForHealthy] returns [nil] after the
    pass of its first tick, although a new monitor, which has no checks,
    starts with the overall status unknown. *)
Theorem C10_no_checks_healthy_at_first_poll
    h ctx w (ticks : nat) (Hnone : checks h = []) :
  Overall (GetStatus (runHealthChecks now h ctx w).1) = StatusHealthy /\
  Checks (GetStatus (runHealthChecks now h ctx w).1) = ∅ /\
  WaitForHealthy now afterTick h ctx (S ticks) w =
    (None, (runHealthChecks now h ctx (afterTick w)).1,
     (runHealthChecks now h ctx (afterTick w)).2) /\
  (forall tgt w0,
      checks (NewHealthMonitor now tgt w0) = [] /\
      Overall (GetStatus (NewHealthMonitor now tgt w0)) = StatusUnknown).
Proof.
  split_and!; try done.
  - unfold runHealthChecks. by rewrite Hnone.
  - unfold runHealthChecks. by rewrite Hnone.
  - simpl. unfold runHealthChecks. by rewrite Hnone.
Qed.

End HealthClaims.

(** ** The status field over all runs of the monitor *)
Section MonitorSteps.
Import health monitor_steps.
Context {W : Type} (now : W -> Z).
Implicit Types (s : State (W := W)) (hist : list (Event (W := W))).

Lemma executionsOf_app k hist hist' :
  executionsOf k (hist ++ hist') = executionsOf k hist ++ executionsOf k hist'.
Proof. apply omap_app. Qed.

Lemma executionsOf_fresh k (b : nat) hist :
  Forall (fun ev => (passNumber ev <= b)%nat) hist -> (b < k)%nat ->
  executionsOf k hist = [].
Proof.
  intros Hall Hk. induction Hall as [|ev hist Hev _ IH]; [done|].
  change (ev :: hist) with ([ev] ++ hist).
  rewrite executionsOf_app, IH, app_nil_r.
  destruct ev as [k' ?|k' ? ?|k' ?]; try done.
  unfold executionsOf. simpl in *. rewrite decide_False; [done|lia].
Qed.

Lemma snapshotOfPass_later s s' k registered timestamp hist' :
  history s' = history s ++ hist' ->
  executionsOf k hist' = [] ->
  GetStatus (monitor s') = GetStatus (monitor s) ->
  snapshotOfPass s k registered timestamp ->
  snapshotOfPass s' k registered timestamp.
Proof.
  intros Hh Hnone Hst (Hb & Hn & Hs). unfold snapshotOfPass.
  rewrite Hh, Hst, executionsOf_app, Hnone, app_nil_r.
  split_and!; try done. apply elem_of_app. by left.
Qed.

(** The cases in which neither the status nor the history changes. *)
Local Ltac status_kept Hstat :=
  let k := fresh "k" in
  let reg := fresh "reg" in
  let ts := fresh "ts" in
  let Hk := fresh "Hk" in
  let Hsnap := fresh "Hsnap" in
  destruct Hstat as [?|(k & reg & ts & Hk & Hsnap)]; [by left|right];
  exists k, reg, ts;
  split;
  [destruct Hk as [?|[? ?]]; [by left|by right]
  |eapply (snapshotOfPass_later _ _ k reg ts []); simpl;
     [by rewrite app_nil_r|done|done|exact Hsnap]].

Lemma step_invariant tgt w0 s s' :
  invariant now tgt w0 s -> step now s s' -> invariant now tgt w0 s'.
Proof.
  intros (Hnum & Hpass & Hstat) Hstep.
  destruct Hstep as [s c Hfree|s Hfree Hr|s Hfree Hr|s ctx Hfree
                     |s p c rest Hp Htodo|s p Hp Htodo|s w'].
  - (* AddCheck *)
    split_and!; simpl; try done.
    by status_kept Hstat.
  - (* Start *)
    split_and!; simpl; try done.
    by status_kept Hstat.
  - (* Stop *)
    split_and!; simpl; try done.
    by status_kept Hstat.
  - (* a pass begins *)
    assert (executionsOf (S (begun s)) (history s) = []) as Hfresh
      by (eapply executionsOf_fresh; [exact Hnum|lia]).
    split; [|split]; simpl.
    + apply Forall_app. split.
      * eapply Forall_impl; [exact Hnum|]. simpl. intros; lia.
      * by repeat constructor.
    + split_and!.
      * apply elem_of_app. right. by left.
      * by rewrite executionsOf_app, Hfresh.
      * by rewrite executionsOf_app, Hfresh.
      * by rewrite executionsOf_app, Hfresh.
    + destruct Hstat as [Hi|(k & reg & ts & Hk & Hsnap)]; [by left|right].
      exists k, reg, ts. split; [left; lia|].
      by eapply (snapshotOfPass_later s _ k reg ts
                   [EvBegin (S (begun s)) (checks (monitor s))]).
  - (* a pass runs one check *)
    rewrite Hp in Hpass. destruct Hpass as (Hb & Hn & Hres & Hoh).
    rewrite Htodo in Hn. unfold afterCheck.
    destruct (executeCheck now (monitor s) (passCtx p) c (world s))
      as [r w1] eqn:Hexec.
    assert (executionsOf (begun s)
              (history s ++ [EvExec (begun s) (Name c) r]) =
            executionsOf (begun s) (history s) ++ [(Name c, r)]) as Hone.
    { rewrite executionsOf_app. f_equal. unfold executionsOf. simpl.
      by rewrite decide_True. }
    split; [|split]; simpl.
    + apply Forall_app. split; [done|]. by repeat constructor.
    + split_and!.
      * apply elem_of_app. by left.
      * rewrite Hone, fmap_app, <- app_assoc. exact Hn.
      * by rewrite Hone, record_app, <- Hres.
      * rewrite Hone, forallb_app, <- Hoh. simpl. unfold healthy. simpl.
        case_decide as Hs.
        -- rewrite bool_decide_eq_false_2 by done. by rewrite andb_false_r.
        -- rewrite bool_decide_eq_true_2 by done. by rewrite !andb_true_r.
    + destruct Hstat as [Hi|(k & reg & ts & Hk & Hsnap)]; [by left|right].
      exists k, reg, ts.
      destruct Hk as [Hk|[_ Hk]]; [|congruence].
      split; [by left|].
      eapply (snapshotOfPass_later s _ k reg ts
                [EvExec (begun s) (Name c) r]); simpl; try done.
      unfold executionsOf. simpl. rewrite decide_False; [done|lia].
  - (* a pass writes the status *)
    rewrite Hp in Hpass. destruct Hpass as (Hb & Hn & Hres & Hoh).
    rewrite Htodo in Hn. simpl in Hn. rewrite app_nil_r in Hn.
    split_and!; simpl; try done.
    + apply Forall_app. split; [done|]. by repeat constructor.
    + right. exists (begun s), (checks (monitor s)), (now (world s)).
      split; [by right|].
      unfold snapshotOfPass. simpl.
      rewrite executionsOf_app. simpl. rewrite app_nil_r.
      split_and!; try done.
      * apply elem_of_app. by left.
      * unfold snapshotOf, verdict. by rewrite Hres, Hoh.
  - (* the world moves on *)
    by split_and!.
Qed.

Lemma reachable_invariant tgt w0 s :
  reachable now tgt w0 s -> invariant now tgt w0 s.
Proof.
  unfold reachable. intros Hreach.
  eapply (rtc_ind_r (fun s => invariant now tgt w0 s)); [| |exact Hreach].
  - split_and!; simpl; try done. by left.
  - intros y z _ Hstep Hy. by eapply step_invariant.
Qed.

End MonitorSteps.

Section MonitorClaims.
Import health monitor_steps.
Context {W : Type} (now : W -> Z).
Implicit Types (s : State (W := W)) (h : HealthMonitor W).

(** The steps of a pass, taken without interruption, are the loop of
    [runHealthChecks]. *)
Lemma loop_steps h ctx (b : nat) (cs : list (HealthCheck W)) :
  forall (m : gmap string CheckResult) (oh : bool) w hist,
  exists hist',
    rtc (step now)
      {| monitor := h;
         holder := Some {| passCtx := ctx; todo := cs; results := m;
                           overallHealthy := oh |};
         world := w; begun := b; history := hist |}
      {| monitor := h;
         holder :=
           Some {| passCtx := ctx; todo := [];
                   results := (runHealthChecks_loop now h ctx cs m oh w).1.1;
                   overallHealthy :=
                     (runHealthChecks_loop now h ctx cs m oh w).1.2 |};
         world := (runHealthChecks_loop now h ctx cs m oh w).2;
         begun := b; history := hist' |}.
Proof.
  induction cs as [|c cs IH]; intros m oh w hist; simpl.
  - exists hist. apply rtc_refl.
  - destruct (executeCheck now h ctx c w) as [r w1] eqn:Hexec.
    edestruct (IH (<[Name c := r]> m)
                 (if decide (Status r ≠ StatusHealthy) then false else oh)
                 w1) as [hist' Hrest].
    exists hist'. eapply rtc_l; [|exact Hrest].
    match goal with
    | |- step _ ?s _ =>
        pose proof (step_check now s _ c cs eq_refl eq_refl) as Hstep
    end.
    unfold afterCheck in Hstep. simpl in Hstep.
    rewrite Hexec in Hstep. exact Hstep.
Qed.

Lemma runHealthChecks_steps s ctx :
  holder s = None ->
  exists s',
    rtc (step now) s s' /\ holder s' = None /\
    (monitor s', world s') = runHealthChecks now (monitor s) ctx (world s).
Proof.
  intros Hfree.
  destruct (loop_steps (monitor s) ctx (S (begun s)) (checks (monitor s))
              ∅ true (world s)
              (history s ++ [EvBegin (S (begun s)) (checks (monitor s))]))
    as [hist' Hloop].
  eexists. split; [|split].
  - eapply rtc_l; [by apply (step_begin now s ctx)|].
    eapply rtc_r; [exact Hloop|].
    by apply step_write.
  - done.
  - unfold runHealthChecks, afterWrite. simpl.
    by destruct (runHealthChecks_loop _ _ _ _ _ _ _) as [[m oh] w'].
Qed.


End MonitorClaims.

Section MonitorRuns.
Import health monitor_steps fixtures monitor_runs.




(** The status that run ends with. *)
Example s4_status :
  Overall (GetStatus (monitor s4)) = StatusUnhealthy /\
  Error <$> Checks (GetStatus (monitor s4)) !! "db" = Some "connection refused".
Proof. split; vm_compute; reflexivity. Qed.

Lemma C10_no_checks_healthy_at_first_poll_witness :
  let h := newMonitor w0 in
  Overall (GetStatus (runHealthChecks clock h Background w0).1) = StatusHealthy /\
  Checks (GetStatus (runHealthChecks clock h Background w0).1) = ∅ /\
  WaitForHealthy clock afterTick h Background 3 w0 =
    (None, (runHealthChecks clock h Background (afterTick w0)).1,
     (runHealthChecks clock h Background (afterTick w0)).2) /\
  (forall tgt w,
      checks (NewHealthMonitor clock tgt w) = [] /\
      Overall (GetStatus (NewHealthMonitor clock tgt w)) = StatusUnknown).
Proof.
  intros h.
  apply (C10_no_checks_healthy_at_first_poll clock afterTick h Background w0 2).
  reflexivity.
Defined.

(** With [db] up, both checks pass at the first tick. *)
Example WaitForHealthy_first_tick :
  let run := WaitForHealthy clock afterTick monitored Background 10
               (world ["db"] [] []) in
  run.1.1 = None /\ Overall (GetStatus run.1.2) = StatusHealthy.
Proof. split; vm_compute; reflexivity. Qed.

End MonitorRuns.

(* ===================================================================== *)
(** * Further properties of the port manager and the lifecycle manager *)
(* ===================================================================== *)
Section PortManagerMore.
Import docker docker_network.
Implicit Types (p : PortManager) (port : Z).

Lemma IsPortAllocated_ext p p' port :
  (forall cid, port ∈ GetAllocatedPorts p cid <-> port ∈ GetAllocatedPorts p' cid) ->
  IsPortAllocated p port = IsPortAllocated p' port.
Proof.
  intros H. apply eq_true_iff_eq. rewrite !IsPortAllocated_true.
  split; intros [cid Hc]; exists cid; by apply H.
Qed.

Lemma firstIndex_split port (ports : list Z) i :
  firstIndex port ports = Some i ->
  take i ports ++ [port] ++ drop (S i) ports = ports /\ port ∉ take i ports.
Proof.
  revert i. induction ports as [|a rest IH]; intros i; simpl; [done|].
  destruct (Z.eqb_spec a port) as [->|Hne].
  - intros [= <-]. simpl. rewrite drop_0. split; [done|apply not_elem_of_nil].
  - destruct (firstIndex port rest) as [j|]; simpl; [|done].
    intros [= <-]. destruct (IH j eq_refl) as [Heq Hnot]. simpl.
    split; [by f_equal|].
    rewrite not_elem_of_cons. split; [congruence|done].
Qed.

Lemma firstIndex_None port (ports : list Z) :
  firstIndex port ports = None <-> port ∉ ports.
Proof.
  induction ports as [|a rest IH]; simpl.
  - split; [intros _; apply not_elem_of_nil|done].
  - destruct (Z.eqb_spec a port) as [->|Hne].
    + split; [done|]. intros H. exfalso. apply H. by left.
    + rewrite not_elem_of_cons. destruct (firstIndex port rest); simpl.
      * split; [done|]. intros [_ H]. by apply IH in H.
      * split; [|done]. intros _. split; [congruence|by apply IH].
Qed.

(** What [DeallocatePort] does to the record of its container. *)
Lemma GetAllocatedPorts_DeallocatePort_eq p cid port cid' :
  GetAllocatedPorts (DeallocatePort p cid port) cid' =
  if decide (cid = cid') then
    match firstIndex port (GetAllocatedPorts p cid) with
    | Some i => take i (GetAllocatedPorts p cid)
                  ++ drop (S i) (GetAllocatedPorts p cid)
    | None => GetAllocatedPorts p cid
    end
  else GetAllocatedPorts p cid'.
Proof.
  unfold GetAllocatedPorts, DeallocatePort.
  destruct (allocatedPorts p !! cid) as [ports|] eqn:E.
  - destruct (firstIndex port ports) as [i|] eqn:Ei; simpl.
    + case_decide as Hc; [subst; by rewrite lookup_insert_eq|].
      by rewrite lookup_insert_ne.
    + case_decide as Hc; [subst; by rewrite E|done].
  - simpl. case_decide as Hc; [subst; by rewrite E|done].
Qed.

End PortManagerMore.

Section PortManagerRoundTrips.
Import docker docker_network.
Implicit Types (p : PortManager) (port : Z).

Lemma snoc_split_inv (l1 l2 l : list Z) x :
  l1 ++ x :: l2 = l ++ [x] -> x ∉ l1 -> x ∉ l -> l1 = l /\ l2 = [].
Proof.
  revert l. induction l1 as [|a l1 IH]; intros l; simpl.
  - destruct l as [|b l]; simpl.
    + by intros [= ->].
    + intros [= <- _] _ Hx. exfalso. apply Hx. by left.
  - destruct l as [|b l]; simpl.
    + intros [= <- H] Hx. by destruct l1.
    + intros [= <- H] Hx Hl.
      rewrite not_elem_of_cons in Hx. rewrite not_elem_of_cons in Hl.
      destruct (IH l H) as [-> ->]; [tauto|tauto|done].
Qed.

Lemma Allocate_Deallocate_perm p cid port cid' :
  GetAllocatedPorts (DeallocatePort (AllocatePort p cid port) cid port) cid'
    ≡ₚ GetAllocatedPorts p cid'.
Proof.
  destruct (decide (cid = cid')) as [<-|Hc].
  2:{ rewrite GetAllocatedPorts_DeallocatePort_eq, decide_False by done.
      by rewrite GetAllocatedPorts_AllocatePort, decide_False. }
  rewrite GetAllocatedPorts_DeallocatePort_eq, decide_True by done.
  rewrite !GetAllocatedPorts_AllocatePort, decide_True by done.
  destruct (firstIndex port (GetAllocatedPorts p cid ++ [port])) as [i|] eqn:Ei.
  - apply firstIndex_split in Ei as [Heq _].
    apply (Permutation_cons_inv (a := port)).
    rewrite Permutation_middle. simpl in Heq. rewrite Heq.
    by rewrite Permutation_app_comm.
  - apply firstIndex_None in Ei. exfalso. apply Ei.
    apply elem_of_app. right. by left.
Qed.

(** X1. [AllocatePort] adds [port] at the end of the container's record
    and leaves the other records alone; afterwards [IsPortAllocated] reports
    [port] and, of the other ports, exactly those it reported before. *)
Theorem AllocatePort_records_and_reports p (cid : string) port :
  GetAllocatedPorts (AllocatePort p cid port) cid =
    GetAllocatedPorts p cid ++ [port] /\
  (forall cid', cid' <> cid ->
     GetAllocatedPorts (AllocatePort p cid port) cid' = GetAllocatedPorts p cid') /\
  (forall port',
     IsPortAllocated (AllocatePort p cid port) port' =
     (Z.eqb port' port || IsPortAllocated p port')).
Proof.
  split_and!.
  - by rewrite GetAllocatedPorts_AllocatePort, decide_True.
  - intros cid' Hne. by rewrite GetAllocatedPorts_AllocatePort, decide_False.
  - intros port'. apply eq_true_iff_eq.
    rewrite orb_true_iff, Z.eqb_eq, !IsPortAllocated_true. split.
    + intros [cid' H]. rewrite GetAllocatedPorts_AllocatePort in H.
      case_decide; [|right; by exists cid'].
      apply elem_of_app in H as [H|H]; [right; by exists cid|left].
      by apply list_elem_of_singleton in H.
    + intros [->|[cid' H]].
      * exists cid. rewrite GetAllocatedPorts_AllocatePort, decide_True by done.
        apply elem_of_app. right. by left.
      * exists cid'. rewrite GetAllocatedPorts_AllocatePort.
        case_decide; [subst; apply elem_of_app; by left|done].
Qed.

(** X2. [DeallocatePort] takes the first occurrence of [port] out of the
    container's record, keeps the order of the rest, and leaves the other
    records alone. *)
Theorem DeallocatePort_removes_first_occurrence p (cid : string) port
    (Hrecorded : port ∈ GetAllocatedPorts p cid) :
  exists l1 l2,
    GetAllocatedPorts p cid = l1 ++ port :: l2 /\
    (port ∉ l1) /\
    GetAllocatedPorts (DeallocatePort p cid port) cid = l1 ++ l2 /\
    forall cid', cid' <> cid ->
      GetAllocatedPorts (DeallocatePort p cid port) cid' = GetAllocatedPorts p cid'.
Proof.
  destruct (firstIndex port (GetAllocatedPorts p cid)) as [i|] eqn:Ei.
  - exists (take i (GetAllocatedPorts p cid)),
           (drop (S i) (GetAllocatedPorts p cid)).
    destruct (firstIndex_split _ _ _ Ei) as [Heq Hnot].
    split_and!; try done.
    + by rewrite GetAllocatedPorts_DeallocatePort_eq, decide_True, Ei.
    + intros cid' Hne.
      by rewrite GetAllocatedPorts_DeallocatePort_eq, decide_False.
  - by apply firstIndex_None in Ei.
Qed.

Lemma DeallocatePort_removes_first_occurrence_witness :
  let p := AllocatePort (AllocatePort (AllocatePort NewPortManager
             "app" 8080) "app" 9090) "app" 8080 in
  exists l1 l2,
    GetAllocatedPorts p "app" = l1 ++ 9090 :: l2 /\
    (9090 ∉ l1) /\
    GetAllocatedPorts (DeallocatePort p "app" 9090) "app" = l1 ++ l2 /\
    forall cid', cid' <> "app" ->
      GetAllocatedPorts (DeallocatePort p "app" 9090) cid' = GetAllocatedPorts p cid'.
Proof.
  intros p. apply (DeallocatePort_removes_first_occurrence p "app" 9090).
  vm_compute. apply list_elem_of_In. simpl. tauto.
Defined.

(** X3. [DeallocatePort] of a port that is not in the container's record,
    be it because the container has no record at all, changes nothing. *)
Theorem DeallocatePort_absent_is_noop p (cid : string) port
    (Habsent : port ∉ GetAllocatedPorts p cid) :
  DeallocatePort p cid port = p.
Proof.
  revert Habsent. unfold GetAllocatedPorts, DeallocatePort.
  destruct (allocatedPorts p !! cid) as [ports|]; [|done].
  intros H. apply firstIndex_None in H. by rewrite H.
Qed.

Lemma DeallocatePort_absent_is_noop_witness :
  DeallocatePort (AllocatePort NewPortManager "app" 8080) "db" 8080 =
  AllocatePort NewPortManager "app" 8080.
Proof.
  apply (DeallocatePort_absent_is_noop
           (AllocatePort NewPortManager "app" 8080) "db" 8080).
  rewrite GetAllocatedPorts_AllocatePort, decide_False by done.
  apply not_elem_of_nil.
Defined.

(** X4. Allocating a port and deallocating it again gives back, for every
    container, the ports it had, up to their order; the order too when the
    port was not in the container's record before; and it gives back what
    [IsPortAllocated] reports. *)
Theorem AllocatePort_DeallocatePort_round_trip p (cid : string) port :
  (forall cid',
     GetAllocatedPorts (DeallocatePort (AllocatePort p cid port) cid port) cid'
       ≡ₚ GetAllocatedPorts p cid') /\
  (port ∉ GetAllocatedPorts p cid ->
   forall cid',
     GetAllocatedPorts (DeallocatePort (AllocatePort p cid port) cid port) cid'
       = GetAllocatedPorts p cid') /\
  (forall port',
     IsPortAllocated (DeallocatePort (AllocatePort p cid port) cid port) port'
       = IsPortAllocated p port').
Proof.
  split_and!.
  - apply Allocate_Deallocate_perm.
  - intros Hfresh cid'.
    destruct (decide (cid = cid')) as [<-|Hc].
    2:{ rewrite GetAllocatedPorts_DeallocatePort_eq, decide_False by done.
        by rewrite GetAllocatedPorts_AllocatePort, decide_False. }
    rewrite GetAllocatedPorts_DeallocatePort_eq, decide_True by done.
    rewrite !GetAllocatedPorts_AllocatePort, decide_True by done.
    destruct (firstIndex port (GetAllocatedPorts p cid ++ [port])) as [i|] eqn:Ei.
    + apply firstIndex_split in Ei as [Heq Hnot]. simpl in Heq.
      destruct (snoc_split_inv _ _ _ _ Heq Hnot Hfresh) as [-> ->].
      by rewrite app_nil_r.
    + apply firstIndex_None in Ei. exfalso. apply Ei.
      apply elem_of_app. right. by left.
  - intros port'. apply IsPortAllocated_ext. intros cid'.
    by rewrite Allocate_Deallocate_perm.
Qed.

(** X5. Allocations are counted: a port allocated twice to a container is
    still reported allocated after one [DeallocatePort]. *)
Theorem DeallocatePort_once_of_two_keeps_allocated p (cid : string) port :
  IsPortAllocated
    (DeallocatePort (AllocatePort (AllocatePort p cid port) cid port) cid port)
    port = true.
Proof.
  rewrite (IsPortAllocated_ext _ (AllocatePort p cid port)).
  - apply IsPortAllocated_true. exists cid.
    rewrite GetAllocatedPorts_AllocatePort, decide_True by done.
    apply elem_of_app. right. by left.
  - intros cid'. by rewrite Allocate_Deallocate_perm.
Qed.

End PortManagerRoundTrips.

Section LifecycleManagerMore.
Import docker docker_network.
Context {W Handle Any : Type} (rt : Runtime W Handle Any).
Implicit Types (c : ContainerLifecycleManager Handle) (w : W).
Implicit Types (d : DockerContainer Handle) (order : list (DockerContainer Handle)).

(** X6. A registered container is found under its ID, where it replaces
    any container registered under that ID before; the other containers and
    the port records are as before. *)
Theorem RegisterContainer_GetContainer c d :
  GetContainer (RegisterContainer c d) (DockerContainer_ID d) = inr d /\
  (forall cid, cid <> DockerContainer_ID d ->
     GetContainer (RegisterContainer c d) cid = GetContainer c cid) /\
  portManager (RegisterContainer c d) = portManager c.
Proof.
  unfold GetContainer, RegisterContainer. simpl. split_and!; try done.
  - by rewrite lookup_insert_eq.
  - intros cid Hne. by rewrite lookup_insert_ne.
Qed.

(** X7. After [UnregisterContainer] the container is not found, the error
    names the ID asked for, and none of its ports is on record; the other
    containers and their ports are as before. *)
Theorem UnregisterContainer_forgets c (cid : string) :
  GetContainer (UnregisterContainer c cid) cid =
    inl (ContainerError "get_container" cid "container not found" None) /\
  GetAllocatedPorts (portManager (UnregisterContainer c cid)) cid = [] /\
  (forall cid', cid' <> cid ->
     GetContainer (UnregisterContainer c cid) cid' = GetContainer c cid' /\
     GetAllocatedPorts (portManager (UnregisterContainer c cid)) cid' =
       GetAllocatedPorts (portManager c) cid').
Proof.
  unfold GetContainer, UnregisterContainer. simpl. split_and!.
  - by rewrite lookup_delete_eq.
  - by rewrite GetAllocatedPorts_DeallocateAllPorts, decide_True.
  - intros cid' Hne. split.
    + by rewrite lookup_delete_ne.
    + by rewrite GetAllocatedPorts_DeallocateAllPorts, decide_False.
Qed.

Lemma StopAll_loop_world order : forall (e e' : option error) w,
  (StopAll_loop rt order e w).2 = (StopAll_loop rt order e' w).2.
Proof.
  induction order as [|d rest IH]; intros e e' w; simpl; [done|].
  destruct (IsRunning rt d w); [|apply IH].
  destruct (Stop rt d w) as [[err|] w']; apply IH.
Qed.

Lemma StopAll_loop_app before after : forall (e : option error) w,
  StopAll_loop rt (before ++ after) e w =
  StopAll_loop rt after (StopAll_loop rt before e w).1
    (StopAll_loop rt before e w).2.
Proof.
  induction before as [|d rest IH]; intros e w; simpl; [done|].
  destruct (IsRunning rt d w); [|apply IH].
  destruct (Stop rt d w) as [[err|] w']; apply IH.
Qed.

Lemma StopAll_loop_no_failure order : forall (e : option error) w,
  (StopAll_loop rt order None w).1 = None ->
  (StopAll_loop rt order e w).1 = e.
Proof.
  induction order as [|d rest IH]; intros e w; simpl; [done|].
  destruct (IsRunning rt d w); [|apply IH].
  destruct (Stop rt d w) as [[err|] w']; [|apply IH].
  intros H. destruct (StopAll_loop_keeps_error rt rest (stopAllError d err) w')
    as [x Hx].
  unfold stopAllError in Hx. rewrite H in Hx. done.
Qed.

(** X8. [StopAll] visits every container whatever fails, and what it
    returns is the error of the last [Stop] that failed: when a running
    container's [Stop] fails and no [Stop] fails among the containers
    visited after it, the result wraps that failure and names that
    container, and the world is the one left by the visit of all the
    containers. *)
Theorem StopAll_returns_last_failure before d after w (err : error) w2
    (Hrunning : IsRunning rt d (StopAll_in rt before w).2 = true)
    (Hfails : Stop rt d (StopAll_in rt before w).2 = (Some err, w2))
    (Hrest : (StopAll_in rt after w2).1 = None) :
  StopAll_in rt (before ++ d :: after) w =
    (Some (stopAllError d err), (StopAll_in rt after w2).2).
Proof.
  unfold StopAll_in in *. rewrite StopAll_loop_app. simpl.
  rewrite Hrunning, Hfails.
  rewrite (surjective_pairing (StopAll_loop rt after _ w2)). f_equal.
  - by apply StopAll_loop_no_failure.
  - apply StopAll_loop_world.
Qed.

Lemma StopAll_loop_failure order : forall (e0 : option error) w (e : error),
  (StopAll_loop rt order e0 w).1 = Some e ->
  (e0 = Some e /\ (StopAll_loop rt order None w).1 = None) \/
  exists before d after err w2,
    order = before ++ d :: after /\
    IsRunning rt d (StopAll_loop rt before None w).2 = true /\
    Stop rt d (StopAll_loop rt before None w).2 = (Some err, w2) /\
    (StopAll_loop rt after None w2).1 = None /\
    e = stopAllError d err.
Proof.
  induction order as [|d rest IH]; intros e0 w e; simpl; [by left|].
  destruct (IsRunning rt d w) eqn:Hrun.
  - destruct (Stop rt d w) as [[err|] w'] eqn:Hstop.
    + intros H. apply IH in H as [[[= <-] Hnone]|H].
      * right. exists [], d, rest, err, w'. by split_and!.
      * right. destruct H as (before & d' & after & err' & w2 & -> & Hr & Hs & Hn & ->).
        exists (d :: before), d', after, err', w2. simpl.
        rewrite Hrun, Hstop.
        rewrite (StopAll_loop_world before _ None).
        by split_and!.
    + intros H. apply IH in H as [[-> Hnone]|H]; [by left|].
      right. destruct H as (before & d' & after & err' & w2 & -> & Hr & Hs & Hn & ->).
      exists (d :: before), d', after, err', w2. simpl.
      rewrite Hrun, Hstop. by split_and!.
  - intros H. apply IH in H as [[-> Hnone]|H]; [by left|].
    right. destruct H as (before & d' & after & err' & w2 & -> & Hr & Hs & Hn & ->).
    exists (d :: before), d', after, err', w2. simpl.
    rewrite Hrun. by split_and!.
Qed.

(** X9. [StopAll] does not invent errors: an error it returns is the
    wrapped failure of the [Stop] of a container that was running when
    visited, after which no visited container's [Stop] failed. *)
Theorem StopAll_error_is_last_failed_stop order w (e : error)
    (Hfailed : (StopAll_in rt order w).1 = Some e) :
  exists before d after err w2,
    order = before ++ d :: after /\
    IsRunning rt d (StopAll_in rt before w).2 = true /\
    Stop rt d (StopAll_in rt before w).2 = (Some err, w2) /\
    (StopAll_in rt after w2).1 = None /\
    e = stopAllError d err.
Proof.
  apply StopAll_loop_failure in Hfailed as [[? _]|H]; [done|exact H].
Qed.

Lemma StartAll_loop_app before after : forall w w1,
  StartAll_loop rt before w = (None, w1) ->
  StartAll_loop rt (before ++ after) w = StartAll_loop rt after w1.
Proof.
  induction before as [|d rest IH]; intros w w1; simpl.
  - by intros [= <-].
  - destruct (IsRunning rt d w); [apply IH|].
    destruct (Start rt d w) as [[err|] w']; [done|apply IH].
Qed.

(** X10. [StartAll] stops at the first failure: when the containers
    visited so far started, or were running, and the [Start] of the next
    one, which is not running, fails, the result wraps that failure and
    names that container, and the world is the one that failed [Start]
    left: no container after it is touched. *)
Theorem StartAll_fails_fast before d after w w1 (err : error) w2
    (Hbefore : StartAll_in rt before w = (None, w1))
    (Hdown : IsRunning rt d w1 = false)
    (Hfails : Start rt d w1 = (Some err, w2)) :
  StartAll_in rt (before ++ d :: after) w = (Some (startAllError d err), w2).
Proof.
  unfold StartAll_in in *. rewrite (StartAll_loop_app _ _ _ _ Hbefore). simpl.
  by rewrite Hdown, Hfails.
Qed.

End LifecycleManagerMore.

Section LifecycleManagerRuns.
Import docker docker_network fixtures.

Lemma StopAll_returns_last_failure_witness :
  let w := world ["db"; "cache"; "mq"] [] ["cache"] in
  let w2 := (Stop runtime (dockerContainer "cache")
               (StopAll_in runtime [dockerContainer "db"] w).2).2 in
  StopAll_in runtime
    ([dockerContainer "db"] ++ dockerContainer "cache" :: [dockerContainer "mq"]) w =
  (Some (stopAllError (dockerContainer "cache")
           (ContainerError "stop" "cache" "failed to stop container"
              (Some (errorString "transport error")))),
   (StopAll_in runtime [dockerContainer "mq"] w2).2).
Proof.
  intros w w2.
  apply (StopAll_returns_last_failure runtime [dockerContainer "db"]
           (dockerContainer "cache") [dockerContainer "mq"] w _ w2);
    reflexivity.
Defined.

Lemma StopAll_error_is_last_failed_stop_witness :
  let w := world ["db"; "cache"; "mq"] [] ["cache"] in
  let order := [dockerContainer "db"; dockerContainer "cache";
                dockerContainer "mq"] in
  exists before d after err w2,
    order = before ++ d :: after /\
    IsRunning runtime d (StopAll_in runtime before w).2 = true /\
    Stop runtime d (StopAll_in runtime before w).2 = (Some err, w2) /\
    (StopAll_in runtime after w2).1 = None /\
    stopAllError (dockerContainer "cache")
      (ContainerError "stop" "cache" "failed to stop container"
         (Some (errorString "transport error"))) = stopAllError d err.
Proof.
  intros w order.
  apply (StopAll_error_is_last_failed_stop runtime order w).
  reflexivity.
Defined.

Lemma StartAll_fails_fast_witness :
  let w := world [] ["cache"] [] in
  StartAll_in runtime
    ([dockerContainer "db"] ++ dockerContainer "cache" :: [dockerContainer "mq"]) w =
  (Some (startAllError (dockerContainer "cache")
           (ContainerError "start" "cache" "failed to start container"
              (Some (errorString "image not found")))),
   world ["db"] ["cache"] []).
Proof.
  intros w.
  apply (StartAll_fails_fast runtime [dockerContainer "db"]
           (dockerContainer "cache") [dockerContainer "mq"] w
           (world ["db"] ["cache"] [])); reflexivity.
Defined.

End LifecycleManagerRuns.

(* ===================================================================== *)
(** * Further properties of the application container *)
(* ===================================================================== *)
Section AppContainerMore.
Import testcontainers runs.
Context {W Handle Any : Type} (rt : docker.Runtime W Handle Any).
Implicit Types (t : TestcontainerAppContainer W Handle Any) (w : W).

(** The error of [Stop] and [Start] on a container without a handle. *)
Lemma Stop_uninitialised t w :
  docker.container (DockerContainer_ t) = None ->
  Stop rt t w =
    (Some (ContainerError "stop" (ID t) "container not initialized" None), w,
     [CallPrimaryStop (ID t)
        (Some (ContainerError "stop" (ID t) "container not initialized" None))]).
Proof.
  intros H. unfold Stop, bind, call, docker.Stop. by rewrite H.
Qed.

Lemma createContainer_outcome t w (r : option error) t' w' :
  createContainer rt t w = (r, t', w') ->
  (exists e, r = Some e /\ t' = t) \/
  (exists c req, r = None /\
     docker.rt_GenericContainer rt req w = (inr c, w') /\
     docker.ReqImage req = docker.Image (docker.config (DockerContainer_ t)) /\
     docker.ReqName req = docker.Name (docker.config (DockerContainer_ t)) /\
     t' = {| DockerContainer_ := docker.SetContainer (DockerContainer_ t) c;
             skeletonConfig := skeletonConfig t;
             dependencies := dependencies t |}).
Proof.
  unfold createContainer.
  destruct (skeletonConfig t) as [sk|] eqn:Hsk.
  - destruct (docker.json_Marshal rt sk) as [err|json].
    + intros [= <- <- <-]. left. by eexists.
    + destruct (docker.rt_GenericContainer rt _ w) as [[err|c] w1] eqn:Hgen.
      * intros [= <- <- <-]. left. by eexists.
      * intros [= <- <- <-]. right. exists c. eexists.
        split_and!; [done|exact Hgen|done..].
  - destruct (docker.rt_GenericContainer rt _ w) as [[err|c] w1] eqn:Hgen.
    + intros [= <- <- <-]. left. by eexists.
    + intros [= <- <- <-]. right. exists c. eexists.
      split_and!; [done|exact Hgen|done..].
Qed.

(** X11. [AddDependency] appends: after any number of calls the
    dependencies are the earlier ones followed by the added ones, in the
    order of the calls, and the container itself, with its handle, and the
    skeleton configuration are untouched. *)
Theorem AddDependency_keeps_order t (deps : list (Container W)) :
  dependencies (foldl AddDependency t deps) = dependencies t ++ deps /\
  DockerContainer_ (foldl AddDependency t deps) = DockerContainer_ t /\
  skeletonConfig (foldl AddDependency t deps) = skeletonConfig t.
Proof.
  revert t. induction deps as [|dep deps IH]; intros t; simpl.
  - by rewrite app_nil_r.
  - destruct (IH (AddDependency t dep)) as (Hd & Hc & Hs).
    rewrite Hd, Hc, Hs. simpl. by rewrite <- app_assoc.
Qed.

(** X12. When [Start] fails before the primary has been created, in a
    dependency or in the creation itself, the application is left as it was;
    if it had no handle, a [Stop] after that [Start] returns "container not
    initialized" and neither asks nor stops any dependency, whatever [Start]
    had started: the world stays as [Start] left it. *)
Theorem Stop_after_failed_Start_stops_nothing
    t w (e : error) t' w' (tr : list Call)
    (Hfresh : docker.container (DockerContainer_ t) = None)
    (Hrun : Start rt t w = (Some e, t', w', tr))
    (Hnocreate : CallCreate (ID t) None ∉ tr) :
  t' = t /\
  Stop rt t' w' =
    (Some (ContainerError "stop" (ID t) "container not initialized" None), w',
     [CallPrimaryStop (ID t)
        (Some (ContainerError "stop" (ID t) "container not initialized" None))]).
Proof.
  assert (t' = t) as ->.
  { revert Hrun Hnocreate. unfold Start, bind, call.
    destruct (startDependencies t (dependencies t) w) as [[[e0|] w0] tr0].
    - by intros [= <- <- <- <-].
    - destruct (createContainer rt t w0) as [[created t1] w1] eqn:Hc.
      destruct created as [e1|].
      + intros [= <- <- <- <-] _.
        apply createContainer_outcome in Hc as [(e2 & _ & ->)|(c & req & [=] & _)].
        done.
      + destruct (docker.Start rt (DockerContainer_ t1) w1) as [r2 w2].
        intros [= -> <- <- <-] Hno. exfalso. apply Hno.
        apply elem_of_app. right. simpl. by left. }
  split; [done|]. by apply Stop_uninitialised.
Qed.

(** X13. After a [Start] that returned [nil] the application has the handle
    that [GenericContainer] returned during this [Start], whether or not it
    had one before; its configuration, dependencies and skeleton
    configuration are as before; and [Stop] then reaches the runtime: it
    does not return "container not initialized". *)
Theorem Start_nil_sets_fresh_handle
    t w t' w' (tr : list Call)
    (Hrun : Start rt t w = (None, t', w', tr)) :
  exists c req w1 w2,
    docker.rt_GenericContainer rt req w1 = (inr c, w2) /\
    docker.container (DockerContainer_ t') = Some c /\
    docker.config (DockerContainer_ t') = docker.config (DockerContainer_ t) /\
    dependencies t' = dependencies t /\
    skeletonConfig t' = skeletonConfig t /\
    forall w'',
      (Stop rt t' w'').1.1 <>
      Some (ContainerError "stop" (ID t') "container not initialized" None).
Proof.
  revert Hrun. unfold Start, bind, call.
  destruct (startDependencies t (dependencies t) w) as [[[e0|] w0] tr0]; [done|].
  destruct (createContainer rt t w0) as [[created t1] w1] eqn:Hc.
  destruct created as [e1|]; [done|].
  destruct (docker.Start rt (DockerContainer_ t1) w1) as [r2 w2].
  intros [= -> <- <- <-].
  apply createContainer_outcome in Hc as [(e2 & [=] & _)|(c & req & _ & Hgen & _ & _ & ->)].
  exists c, req, w0, w1. split_and!; try done.
  intros w''. unfold Stop, bind, call, docker.Stop. simpl.
  destruct (docker.rt_Stop rt c w'') as [[err|] w3]; simpl; [done|].
  by destruct (stopDependencies _ _ w3) as [[u w4] tr4].
Qed.

End AppContainerMore.

Section AppContainerEnvironment.
Import testcontainers.
Context {W Handle Any : Type} (rt : docker.Runtime W Handle Any).
Implicit Types (t : TestcontainerAppContainer W Handle Any) (w : W).

Lemma skeletonEnv_lookup (sk : SkeletonConfig Any) (json : string)
    (env : gmap string string) :
  skeletonEnv sk json env !! "SKELETON_CONFIG" = Some json /\
  skeletonEnv sk json env !! "SKELETON_SERVICE_ID" =
    (if decide (ServiceID sk = "") then env !! "SKELETON_SERVICE_ID"
     else Some (ServiceID sk)) /\
  skeletonEnv sk json env !! "SKELETON_STORAGE_TYPE" =
    (if decide (Type_ (Storage sk) = "") then env !! "SKELETON_STORAGE_TYPE"
     else Some (Type_ (Storage sk))) /\
  skeletonEnv sk json env !! "SKELETON_STORAGE_URL" =
    (if decide (URL (Storage sk) = "") then env !! "SKELETON_STORAGE_URL"
     else Some (URL (Storage sk))) /\
  (forall k, k <> "SKELETON_CONFIG" -> k <> "SKELETON_SERVICE_ID" ->
             k <> "SKELETON_STORAGE_TYPE" -> k <> "SKELETON_STORAGE_URL" ->
             skeletonEnv sk json env !! k = env !! k).
Proof.
  unfold skeletonEnv.
  split_and!; [..|intros k ? ? ? ?]; repeat case_decide;
    by simplify_map_eq.
Qed.

(** X14. With a skeleton configuration that serialises to [json],
    [createContainer] makes one request to the runtime, for the configured
    image and name and not started.  Its environment has [SKELETON_CONFIG]
    set to [json]; each of [SKELETON_SERVICE_ID], [SKELETON_STORAGE_TYPE] and
    [SKELETON_STORAGE_URL] is the skeleton value when that is not empty and
    the configured variable of that name otherwise; every other configured
    variable is passed on unchanged.  One port "n/tcp" is exposed for each
    configured port, in order.  If the runtime refuses the container is
    unchanged; if not, only its handle changes. *)
Theorem createContainer_request_environment
    t w (sk : SkeletonConfig Any) (json : string)
    (Hsk : skeletonConfig t = Some sk)
    (Hjson : docker.json_Marshal rt sk = inr json) :
  let cfg := docker.config (DockerContainer_ t) in
  exists req,
    createContainer rt t w =
      match docker.rt_GenericContainer rt req w with
      | (inl err, w') =>
          (Some (ContainerError "create" (ID t)
                   "failed to create testcontainer" (Some err)), t, w')
      | (inr c, w') =>
          (None,
           {| DockerContainer_ := docker.SetContainer (DockerContainer_ t) c;
              skeletonConfig := skeletonConfig t;
              dependencies := dependencies t |}, w')
      end /\
    docker.ReqImage req = docker.Image cfg /\
    docker.ReqName req = docker.Name cfg /\
    docker.ReqStarted req = false /\
    docker.ReqEnv req !! "SKELETON_CONFIG" = Some json /\
    docker.ReqEnv req !! "SKELETON_SERVICE_ID" =
      (if decide (ServiceID sk = "")
       then docker.Environment cfg !! "SKELETON_SERVICE_ID"
       else Some (ServiceID sk)) /\
    docker.ReqEnv req !! "SKELETON_STORAGE_TYPE" =
      (if decide (Type_ (Storage sk) = "")
       then docker.Environment cfg !! "SKELETON_STORAGE_TYPE"
       else Some (Type_ (Storage sk))) /\
    docker.ReqEnv req !! "SKELETON_STORAGE_URL" =
      (if decide (URL (Storage sk) = "")
       then docker.Environment cfg !! "SKELETON_STORAGE_URL"
       else Some (URL (Storage sk))) /\
    (forall k, k <> "SKELETON_CONFIG" -> k <> "SKELETON_SERVICE_ID" ->
               k <> "SKELETON_STORAGE_TYPE" -> k <> "SKELETON_STORAGE_URL" ->
               docker.ReqEnv req !! k = docker.Environment cfg !! k) /\
    docker.ReqExposedPorts req =
      (fun port => pretty (Internal port) +:+ "/tcp") <$> docker.Ports cfg.
Proof.
  intros cfg.
  destruct (skeletonEnv_lookup sk json (docker.Environment cfg))
    as (H1 & H2 & H3 & H4 & H5).
  exists (containerRequest cfg (skeletonEnv sk json (docker.Environment cfg))).
  split_and!; try done.
  unfold createContainer. rewrite Hsk, Hjson. fold cfg.
  by destruct (docker.rt_GenericContainer rt _ w) as [[err|c] w'].
Qed.

End AppContainerEnvironment.

Section AppContainerMoreRuns.
Import testcontainers runs fixtures fixtures_more.

(** [db] is started, [cache] fails; the [Stop] that follows leaves [db]
    running. *)
Lemma Stop_after_failed_Start_stops_nothing_witness :
  let t := withDependencies ["db"; "cache"] in
  let w := world [] ["cache"] [] in
  let w' := (Start runtime t w).1.2 in
  member "db" (up w') = true /\
  (Start runtime t w).1.1.2 = t /\
  Stop runtime (Start runtime t w).1.1.2 w' =
    (Some (ContainerError "stop" (ID t) "container not initialized" None), w',
     [CallPrimaryStop (ID t)
        (Some (ContainerError "stop" (ID t) "container not initialized" None))]).
Proof.
  intros t w w'. split; [reflexivity|].
  apply (Stop_after_failed_Start_stops_nothing runtime t w
           (startDependencyError t (dependency "cache")
              (errorString "image not found"))
           (Start runtime t w).1.1.2 w' (Start runtime t w).2).
  - reflexivity.
  - reflexivity.
  - intros H. apply list_elem_of_In in H. vm_compute in H.
    repeat destruct H as [H|H]; try discriminate H. exact H.
Defined.

Lemma Start_nil_sets_fresh_handle_witness :
  let t := withDependencies ["db"] in
  let w := world [] [] [] in
  let t' := (Start runtime t w).1.1.2 in
  exists c req w1 w2,
    docker.rt_GenericContainer runtime req w1 = (inr c, w2) /\
    docker.container (DockerContainer_ t') = Some c /\
    docker.config (DockerContainer_ t') = docker.config (DockerContainer_ t) /\
    dependencies t' = dependencies t /\
    skeletonConfig t' = skeletonConfig t /\
    forall w'',
      (Stop runtime t' w'').1.1 <>
      Some (ContainerError "stop" (ID t') "container not initialized" None).
Proof.
  intros t w t'.
  apply (Start_nil_sets_fresh_handle runtime t w t'
           (Start runtime t w).1.2 (Start runtime t w).2).
  reflexivity.
Defined.

Lemma createContainer_request_environment_witness :
  let t := skeletonApp in
  let w := world [] [] [] in
  let cfg := docker.config (DockerContainer_ t) in
  exists req,
    createContainer runtime t w =
      match docker.rt_GenericContainer runtime req w with
      | (inl err, w') =>
          (Some (ContainerError "create" (ID t)
                   "failed to create testcontainer" (Some err)), t, w')
      | (inr c, w') =>
          (None,
           {| DockerContainer_ := docker.SetContainer (DockerContainer_ t) c;
              skeletonConfig := skeletonConfig t;
              dependencies := dependencies t |}, w')
      end /\
    docker.ReqImage req = docker.Image cfg /\
    docker.ReqName req = docker.Name cfg /\
    docker.ReqStarted req = false /\
    docker.ReqEnv req !! "SKELETON_CONFIG" = Some "{}" /\
    docker.ReqEnv req !! "SKELETON_SERVICE_ID" =
      (if decide (ServiceID skeleton = "")
       then docker.Environment cfg !! "SKELETON_SERVICE_ID"
       else Some (ServiceID skeleton)) /\
    docker.ReqEnv req !! "SKELETON_STORAGE_TYPE" =
      (if decide (Type_ (Storage skeleton) = "")
       then docker.Environment cfg !! "SKELETON_STORAGE_TYPE"
       else Some (Type_ (Storage skeleton))) /\
    docker.ReqEnv req !! "SKELETON_STORAGE_URL" =
      (if decide (URL (Storage skeleton) = "")
       then docker.Environment cfg !! "SKELETON_STORAGE_URL"
       else Some (URL (Storage skeleton))) /\
    (forall k, k <> "SKELETON_CONFIG" -> k <> "SKELETON_SERVICE_ID" ->
               k <> "SKELETON_STORAGE_TYPE" -> k <> "SKELETON_STORAGE_URL" ->
               docker.ReqEnv req !! k = docker.Environment cfg !! k) /\
    docker.ReqExposedPorts req =
      (fun port => pretty (Internal port) +:+ "/tcp") <$> docker.Ports cfg.
Proof.
  intros t w cfg.
  apply (createContainer_request_environment runtime t w skeleton "{}");
    reflexivity.
Defined.

(** The environment and the ports of that request. *)
Example skeletonApp_request :
  exists req w',
    docker.rt_GenericContainer runtime req (world [] [] []) = (inr "skeleton-app", w') /\
    (createContainer runtime skeletonApp (world [] [] [])).1.1 = None /\
    docker.ReqEnv req !! "LOG_LEVEL" = Some "debug" /\
    docker.ReqEnv req !! "SKELETON_SERVICE_ID" = Some "svc" /\
    docker.ReqEnv req !! "SKELETON_STORAGE_URL" = Some "preset" /\
    docker.ReqExposedPorts req = ["8080/tcp"; "9090/tcp"].
Proof.
  exists (containerRequest skeletonAppConfig
            (skeletonEnv skeleton "{}" (docker.Environment skeletonAppConfig))),
         (world [] [] []).
  split_and!; vm_compute; reflexivity.
Qed.

End AppContainerMoreRuns.

(* ===================================================================== *)
(** * Further properties of the health monitor *)
(* ===================================================================== *)
Section HealthMore.
Import health monitor_steps health_control.
Context {W : Type} (now : W -> Z) (afterTick : W -> W).
Implicit Types (h : HealthMonitor W) (ctx : Context) (w : W).

Lemma runHealthChecks_entries h ctx w :
  (forall check, check ∈ checks h ->
     is_Some (Checks (GetStatus (runHealthChecks now h ctx w).1) !! Name check)) /\
  Overall (GetStatus (runHealthChecks now h ctx w).1) <> StatusUnknown /\
  (Overall (GetStatus (runHealthChecks now h ctx w).1) = StatusHealthy ->
   forall n r, Checks (GetStatus (runHealthChecks now h ctx w).1) !! n = Some r ->
               Status r = StatusHealthy).
Proof.
  rewrite runHealthChecks_snapshot. simpl. split_and!.
  - intros check Hin. apply record_lookup_is_Some. right.
    rewrite executions_names. apply list_elem_of_fmap. by exists check.
  - unfold verdict. by destruct (forallb healthy _).
  - intros Hh n r Hl. apply verdict_healthy in Hh.
    apply record_lookup_Some in Hl as [Hl|Hl]; [by rewrite lookup_empty in Hl|].
    rewrite Forall_forall in Hh. by apply (Hh (n, r)).
Qed.

(** X15. [Start] on a monitor that is not running returns [nil] and marks
    it running, and when it returns the status is already that of a check
    pass: the overall status is not unknown and every registered check has
    a result.  A [Start] on the monitor it leaves is refused with "health
    monitor is already running"; it runs no check and changes nothing. *)
Theorem Start_runs_first_pass h ctx w (Hstopped : running h = false) :
  let after := Start now h ctx w in
  after.1.1 = None /\
  running after.1.2 = true /\
  checks after.1.2 = checks h /\
  Overall (GetStatus after.1.2) <> StatusUnknown /\
  (forall check, check ∈ checks h ->
     is_Some (Checks (GetStatus after.1.2) !! Name check)) /\
  (forall ctx' w'',
     Start now after.1.2 ctx' w'' =
       (Some (errorString "health monitor is already running"),
        after.1.2, w'')).
Proof.
  unfold Start. rewrite Hstopped. simpl.
  pose proof (runHealthChecks_entries
                (setRunning h true (stopCh_closed h)) ctx w) as (He & Hu & _).
  pose proof (runHealthChecks_snapshot now
                (setRunning h true (stopCh_closed h)) ctx w) as Hsnap.
  destruct (runHealthChecks now _ ctx w) as [h' w'] eqn:Hpass. simpl in *.
  injection Hsnap as -> _. simpl. by split_and!.
Qed.

(** X16. [Stop] on a running monitor whose stop channel is open returns
    [nil], leaves the status as it is and marks the monitor stopped; a
    second [Stop] is a no-op that returns [nil].  But the channel stays
    closed: the monitor can be started again, and the [Stop] after that
    restart panics. *)
Theorem Stop_twice_then_restart h (Hrunning : running h = true)
    (Hopen : stopCh_closed h = false) :
  exists h1,
    Stop h = Some (None, h1) /\
    running h1 = false /\
    GetStatus h1 = GetStatus h /\
    checks h1 = checks h /\
    Stop h1 = Some (None, h1) /\
    forall ctx w,
      (Start now h1 ctx w).1.1 = None /\
      Stop (Start now h1 ctx w).1.2 = None.
Proof.
  exists (setRunning h false true).
  unfold Stop at 1. rewrite Hrunning, Hopen. split_and!; try done.
  intros ctx w. unfold Start. simpl.
  pose proof (runHealthChecks_snapshot now
                (setRunning (setRunning h false true) true true) ctx w) as Hsnap.
  destruct (runHealthChecks now _ ctx w) as [h' w'] eqn:Hpass. simpl in *.
  injection Hsnap as -> _. by split.
Qed.

Lemma WaitForHealthy_nil (ticks : nat) : forall h ctx w h' w',
  WaitForHealthy now afterTick h ctx ticks w = (None, h', w') ->
  (0 < ticks)%nat /\
  Overall (GetStatus h') = StatusHealthy /\
  exists hp wp, checks hp = checks h /\ runHealthChecks now hp ctx wp = (h', w').
Proof.
  induction ticks as [|n IH]; intros h ctx w h' w'; simpl; [done|].
  destruct (runHealthChecks now h ctx (afterTick w)) as [h1 w1] eqn:Hpass.
  case_decide as Hover.
  - intros [= <- <-]. split_and!; [lia|done|]. by exists h, (afterTick w).
  - intros Hrest. apply IH in Hrest as (_ & Hh & hp & wp & Hc & Hr).
    split_and!; [lia|done|]. exists hp, wp. split; [|done].
    rewrite Hc. pose proof (runHealthChecks_keeps now h ctx (afterTick w)) as [Hk _].
    by rewrite Hpass in Hk.
Qed.

(** X17. When [WaitForHealthy] returns [nil] at least one tick was taken,
    and the status it leaves is that of a check pass over the registered
    checks in which every result is healthy: the overall status is healthy
    and so is every result on record. *)
Theorem WaitForHealthy_nil_leaves_healthy h ctx (ticks : nat) w h' w'
    (Hwait : WaitForHealthy now afterTick h ctx ticks w = (None, h', w')) :
  (0 < ticks)%nat /\
  Overall (GetStatus h') = StatusHealthy /\
  checks h' = checks h /\
  (forall check, check ∈ checks h ->
     exists r, Checks (GetStatus h') !! Name check = Some r /\
               Status r = StatusHealthy) /\
  (forall n r, Checks (GetStatus h') !! n = Some r -> Status r = StatusHealthy).
Proof.
  apply WaitForHealthy_nil in Hwait as (Hpos & Hh & hp & wp & Hc & Hr).
  pose proof (runHealthChecks_entries hp ctx wp) as (He & _ & Hall).
  pose proof (runHealthChecks_keeps now hp ctx wp) as [Hk _].
  rewrite Hr in He, Hall, Hk. simpl in *.
  split_and!; try done.
  - congruence.
  - intros check Hin. rewrite <- Hc in Hin.
    destruct (He check Hin) as [r Hl]. exists r. split; [done|].
    by apply (Hall Hh _ _ Hl).
  - by apply Hall.
Qed.

(** X18. More time does not change a success: if [WaitForHealthy] returns
    [nil] when the timeout leaves room for [ticks] ticks, it returns [nil]
    with the same monitor and world when there is room for more. *)
Theorem WaitForHealthy_more_ticks h ctx (ticks more : nat) w h' w'
    (Hwait : WaitForHealthy now afterTick h ctx ticks w = (None, h', w')) :
  WaitForHealthy now afterTick h ctx (ticks + more) w = (None, h', w').
Proof.
  revert h w Hwait. induction ticks as [|n IH]; intros h w; simpl; [done|].
  destruct (runHealthChecks now h ctx (afterTick w)) as [h1 w1].
  case_decide; [done|]. apply IH.
Qed.

End HealthMore.

Section HealthSnapshots.
Import health monitor_steps.
Context {W : Type} (now : W -> Z).
Implicit Types (h : HealthMonitor W) (ctx : Context) (w : W).
Implicit Types (m : gmap string CheckResult) (l : list (string * CheckResult)).

Lemma record_lookup_other l : forall m n,
  n ∉ l.*1 -> record m l !! n = m !! n.
Proof.
  induction l as [|[n' r'] l IH]; intros m n Hn; simpl; [done|].
  simpl in Hn. apply not_elem_of_cons in Hn as [Hne Hn].
  rewrite IH by done. by rewrite lookup_insert_ne.
Qed.

Lemma record_distinct l : forall m,
  NoDup l.*1 -> (forall n, n ∈ l.*1 -> m !! n = None) ->
  size (record m l) = (size m + length l)%nat /\
  (forall n r, (n, r) ∈ l -> record m l !! n = Some r).
Proof.
  induction l as [|[n' r'] l IH]; intros m Hnd Hfresh; simpl.
  - split; [lia|]. intros n r H. by apply not_elem_of_nil in H.
  - simpl in Hnd. apply NoDup_cons in Hnd as [Hn' Hnd].
    destruct (IH (<[n' := r']> m) Hnd) as [Hsize Hlook].
    { intros n Hn. rewrite lookup_insert_ne.
      - apply Hfresh. simpl. by right.
      - intros ->. by apply Hn'. }
    split.
    + rewrite Hsize, map_size_insert_None; [lia|]. apply Hfresh. simpl. by left.
    + intros n r Hin. apply elem_of_cons in Hin as [Heq|Hin]; [|by apply Hlook].
      injection Heq as -> ->.
      rewrite record_lookup_other by done. by rewrite lookup_insert_eq.
Qed.

(** X19. When the registered checks have pairwise different names, the
    status written by a pass has exactly one result per check, the result of
    that check's execution in this pass, and the overall status is healthy
    exactly when every result on record is healthy. *)
Theorem distinct_names_one_result_per_check h ctx w
    (Hdistinct : NoDup (Name <$> checks h)) :
  let snapshot := GetStatus (runHealthChecks now h ctx w).1 in
  size (Checks snapshot) = length (checks h) /\
  (forall n r, (n, r) ∈ (executions now h ctx (checks h) w).1 ->
               Checks snapshot !! n = Some r) /\
  (Overall snapshot = StatusHealthy <->
   forall n r, Checks snapshot !! n = Some r -> Status r = StatusHealthy).
Proof.
  rewrite runHealthChecks_snapshot. simpl.
  pose proof (executions_names now h ctx (checks h) w) as Hnames.
  destruct (record_distinct (executions now h ctx (checks h) w).1 ∅)
    as [Hsize Hlook].
  { by rewrite Hnames. }
  { intros n _. apply lookup_empty. }
  split_and!.
  - rewrite Hsize, map_size_empty. simpl.
    rewrite <- (length_fmap fst), Hnames. by rewrite length_fmap.
  - exact Hlook.
  - rewrite verdict_healthy, Forall_forall. split.
    + intros Hall n r Hl.
      apply record_lookup_Some in Hl as [Hl|Hl]; [by rewrite lookup_empty in Hl|].
      by apply (Hall (n, r)).
    + intros Hall [n r] Hin. simpl. apply (Hall n). by apply Hlook.
Qed.

Lemma executeCheck_target h h' ctx (check : HealthCheck W) w :
  target h = target h' ->
  executeCheck now h ctx check w = executeCheck now h' ctx check w.
Proof. intros Ht. unfold executeCheck. by rewrite Ht. Qed.

Lemma executions_target h h' ctx (cs : list (HealthCheck W)) : forall w,
  target h = target h' ->
  executions now h ctx cs w = executions now h' ctx cs w.
Proof.
  induction cs as [|c cs IH]; intros w Ht; simpl; [done|].
  rewrite (executeCheck_target h h' ctx c w Ht).
  destruct (executeCheck now h' ctx c w) as [r w1]. by rewrite IH.
Qed.

Lemma executions_snoc h ctx (cs : list (HealthCheck W)) (c : HealthCheck W) :
  forall w,
    executions now h ctx (cs ++ [c]) w =
    ((executions now h ctx cs w).1
       ++ [(Name c, (executeCheck now h ctx c (executions now h ctx cs w).2).1)],
     (executeCheck now h ctx c (executions now h ctx cs w).2).2).
Proof.
  induction cs as [|c' cs IH]; intros w; simpl.
  - by destruct (executeCheck now h ctx c w).
  - destruct (executeCheck now h ctx c' w) as [r w1]. rewrite IH.
    by destruct (executions now h ctx cs w1).
Qed.

(** X20. [AddCheck] puts the check after the registered ones and does not
    touch the status: it shows in the next pass, which runs the earlier
    checks as it would have without it, then the new check in the world
    they leave, and records the new check's result under its name. *)
Theorem AddCheck_shows_in_next_pass h (check : HealthCheck W) ctx w :
  GetStatus (AddCheck h check) = GetStatus h /\
  checks (AddCheck h check) = checks h ++ [check] /\
  let earlier := executions now h ctx (checks h) w in
  let last := executeCheck now h ctx check earlier.2 in
  let after := runHealthChecks now (AddCheck h check) ctx w in
  after.2 = last.2 /\
  Checks (GetStatus after.1) !! Name check = Some last.1 /\
  (forall n, n <> Name check ->
     Checks (GetStatus after.1) !! n =
     Checks (GetStatus (runHealthChecks now h ctx w).1) !! n).
Proof.
  split; [done|]. split; [done|].
  intros earlier last after. subst earlier last after.
  rewrite !runHealthChecks_snapshot. simpl.
  rewrite executions_snoc.
  rewrite (executions_target (AddCheck h check) h) by done.
  rewrite (executeCheck_target (AddCheck h check) h) by done.
  simpl. unfold record. rewrite foldl_app. simpl.
  split_and!; [done|by rewrite lookup_insert_eq|].
  intros n Hne. by rewrite lookup_insert_ne.
Qed.

End HealthSnapshots.

Section HealthMoreRuns.
Import health monitor_steps health_control fixtures monitor_runs.

Lemma Start_runs_first_pass_witness :
  let after := Start clock monitored Background w0 in
  after.1.1 = None /\
  running after.1.2 = true /\
  checks after.1.2 = checks monitored /\
  Overall (GetStatus after.1.2) <> StatusUnknown /\
  (forall check, check ∈ checks monitored ->
     is_Some (Checks (GetStatus after.1.2) !! Name check)) /\
  (forall ctx' w'',
     Start clock after.1.2 ctx' w'' =
       (Some (errorString "health monitor is already running"),
        after.1.2, w'')).
Proof.
  apply (Start_runs_first_pass clock monitored Background w0). reflexivity.
Defined.

Lemma Stop_twice_then_restart_witness :
  let h := (Start clock monitored Background w0).1.2 in
  exists h1,
    Stop h = Some (None, h1) /\
    running h1 = false /\
    GetStatus h1 = GetStatus h /\
    checks h1 = checks h /\
    Stop h1 = Some (None, h1) /\
    forall ctx w,
      (Start clock h1 ctx w).1.1 = None /\
      Stop (Start clock h1 ctx w).1.2 = None.
Proof.
  intros h. apply (Stop_twice_then_restart clock h); reflexivity.
Defined.

Lemma WaitForHealthy_nil_leaves_healthy_witness :
  let w := world ["db"] [] [] in
  let run := WaitForHealthy clock afterTick monitored Background 3 w in
  (0 < 3)%nat /\
  Overall (GetStatus run.1.2) = StatusHealthy /\
  checks run.1.2 = checks monitored /\
  (forall check, check ∈ checks monitored ->
     exists r, Checks (GetStatus run.1.2) !! Name check = Some r /\
               Status r = StatusHealthy) /\
  (forall n r, Checks (GetStatus run.1.2) !! n = Some r -> Status r = StatusHealthy).
Proof.
  intros w run.
  apply (WaitForHealthy_nil_leaves_healthy clock afterTick monitored
           Background 3 w run.1.2 run.2).
  reflexivity.
Defined.

Lemma WaitForHealthy_more_ticks_witness :
  let w := world ["db"] [] [] in
  let run := WaitForHealthy clock afterTick monitored Background 1 w in
  WaitForHealthy clock afterTick monitored Background (1 + 5) w =
    (None, run.1.2, run.2).
Proof.
  intros w run.
  apply (WaitForHealthy_more_ticks clock afterTick monitored Background 1 5 w).
  reflexivity.
Defined.

Lemma distinct_names_one_result_per_check_witness :
  let snapshot := GetStatus (runHealthChecks clock monitored Background w0).1 in
  size (Checks snapshot) = length (checks monitored) /\
  (forall n r, (n, r) ∈ (executions clock monitored Background
                           (checks monitored) w0).1 ->
               Checks snapshot !! n = Some r) /\
  (Overall snapshot = StatusHealthy <->
   forall n r, Checks snapshot !! n = Some r -> Status r = StatusHealthy).
Proof.
  apply (distinct_names_one_result_per_check clock monitored Background w0).
  apply (bool_decide_unpack _). vm_compute. exact I.
Defined.

(** Two checks of the same name: the failing one is overwritten by the
    passing one, and the overall status is unhealthy while the only result
    on record is healthy. *)
Example same_name_overwrites :
  let failing := {| Name := "ping"; Check := Check dbCheck;
                    Interval := Interval dbCheck; Timeout := Timeout dbCheck |} in
  let h := AddCheck (AddCheck (newMonitor w0) failing) pingCheck in
  let snapshot := GetStatus (runHealthChecks clock h Background w0).1 in
  Overall snapshot = StatusUnhealthy /\
  size (Checks snapshot) = 1%nat /\
  Status <$> Checks snapshot !! "ping" = Some StatusHealthy.
Proof. split_and!; vm_compute; reflexivity. Qed.

End HealthMoreRuns.

(* ===================================================================== *)
(** * Properties of a container's readiness and connection string *)
(* ===================================================================== *)
Section DockerContainerMore.
Import docker docker_container.
Context {W Handle Any : Type}.
Context (rt : Runtime W Handle Any) (net : Network W Handle).
Context (afterTick : W -> W).
Implicit Types (d : DockerContainer Handle) (w : W).

Lemma WaitForReady_loop_first_tick d (cause : error) (ticks : nat) : forall w,
  (exists n,
      (0 < n <= ticks)%nat /\
      IsRunning rt d (Nat.iter n afterTick w) = true /\
      (forall k, (0 < k < n)%nat ->
                 IsRunning rt d (Nat.iter k afterTick w) = false) /\
      WaitForReady_loop rt afterTick d ticks cause w =
        (None, Nat.iter n afterTick w))
  \/
  ((forall k, (0 < k <= ticks)%nat ->
              IsRunning rt d (Nat.iter k afterTick w) = false) /\
   WaitForReady_loop rt afterTick d ticks cause w =
     (Some (ContainerError "wait_for_ready" (ID (config d))
              "timeout waiting for container to be ready" (Some cause)),
      Nat.iter ticks afterTick w)).
Proof.
  induction ticks as [|m IH]; intros w; simpl.
  - right. split; [intros k Hk; lia|done].
  - destruct (IsRunning rt d (afterTick w)) eqn:Hrun.
    + left. exists 1%nat. split_and!; [lia|lia|done| |done].
      intros k Hk. lia.
    + assert (forall k, Nat.iter k afterTick (afterTick w) =
                        Nat.iter (S k) afterTick w) as Hiter.
      { intros k. induction k as [|k IHk]; simpl; [done|]. by rewrite IHk. }
      destruct (IH (afterTick w)) as [(n & Hn & Hr & Hbefore & Heq)|[Hnone Heq]].
      * rewrite Hiter in Hr. rewrite Hiter in Heq.
        left. exists (S n). split_and!; [lia|lia|exact Hr| |exact Heq].
        intros k Hk. destruct k as [|[|k]]; [lia|exact Hrun|].
        specialize (Hbefore (S k)). rewrite Hiter in Hbefore.
        apply Hbefore. lia.
      * rewrite Hiter in Heq. right. split; [|exact Heq].
        intros k Hk. destruct k as [|[|k]]; [lia|exact Hrun|].
        specialize (Hnone (S k)). rewrite Hiter in Hnone.
        apply Hnone. lia.
Qed.

(** X21. [WaitForReady] on a container with a handle asks [IsRunning] once
    per tick.  It returns [nil] at the first tick at which the container
    runs, in the world of that tick; if the container runs at none of the
    ticks the timeout leaves room for, it returns the error "timeout waiting
    for container to be ready", whose cause is the error of the context. *)
Theorem WaitForReady_returns_at_first_running_tick
    d (c : Handle) (ticks : nat) (cause : error) w
    (Hhandle : container d = Some c) :
  (exists n,
      (0 < n <= ticks)%nat /\
      IsRunning rt d (Nat.iter n afterTick w) = true /\
      (forall k, (0 < k < n)%nat ->
                 IsRunning rt d (Nat.iter k afterTick w) = false) /\
      WaitForReady rt afterTick d ticks cause w = (None, Nat.iter n afterTick w))
  \/
  ((forall k, (0 < k <= ticks)%nat ->
              IsRunning rt d (Nat.iter k afterTick w) = false) /\
   WaitForReady rt afterTick d ticks cause w =
     (Some (ContainerError "wait_for_ready" (ID (config d))
              "timeout waiting for container to be ready" (Some cause)),
      Nat.iter ticks afterTick w)).
Proof.
  unfold WaitForReady. rewrite Hhandle. apply WaitForReady_loop_first_tick.
Qed.

Lemma append_empty (s1 s2 : string) : s1 +:+ s2 = "" -> s1 = "".
Proof. by destruct s1. Qed.

(** X22. [ConnectionString] is the empty string exactly when the host is
    empty, which it is for a container without a handle, or when the
    container has configured ports and the mapped port of the first one
    cannot be had; a container without configured ports gives its host. *)
Theorem ConnectionString_empty_iff d w :
  (ConnectionString net d w = "" <->
   Host net d w = "" \/
   exists first rest (e : error),
     Ports (config d) = first :: rest /\
     Port net d (Internal first) w = inl e) /\
  (container d = None -> Host net d w = "") /\
  (Ports (config d) = [] -> ConnectionString net d w = Host net d w).
Proof.
  unfold ConnectionString. split_and!.
  - case_decide as Hh.
    + split; [by left|done].
    + destruct (Ports (config d)) as [|first rest].
      * split; [done|]. intros [?|(first & rest & e & [=] & _)]; done.
      * destruct (Port net d (Internal first) w) as [e|port] eqn:Hp.
        -- split; [|done]. intros _. right. by exists first, rest, e.
        -- split.
           ++ intros H. by apply append_empty in H.
           ++ intros [?|(f & r & e & [= <- <-] & He)]; [done|].
              congruence.
  - intros Hc. unfold Host. by rewrite Hc.
  - intros Hp. rewrite Hp. by case_decide.
Qed.

End DockerContainerMore.

(* ===================================================================== *)
(** * Properties of the application container's readiness *)
(* ===================================================================== *)
Section AppReadyFacts.
Import testcontainers goerrors net_http app_ready.
Context {W Handle Any : Type}.
Context (rt : docker.Runtime W Handle Any).
Context (net : docker_container.Network W Handle).
Context (http : Client W) (afterTick : W -> W).
Context (depWaitForReady :
           Container W -> health.Context -> Z -> W -> option error * W).
Implicit Types (t : TestcontainerAppContainer W Handle Any) (w : W).
Implicit Types (ctx : health.Context) (timeout : Z).

Lemma waitDependencies_run t ctx timeout (deps : list (Container W)) :
  forall w (r : option goerror) w' (tr : list ReadyCall),
    waitDependencies depWaitForReady t ctx timeout deps w = (r, w', tr) ->
    (r = None /\
     tr = (fun d => CallDepWait (container.ID d) timeout None) <$> deps)
    \/
    (exists visited dep remaining (err : error),
        deps = visited ++ dep :: remaining /\
        tr = ((fun d => CallDepWait (container.ID d) timeout None) <$> visited)
               ++ [CallDepWait (container.ID dep) timeout (Some err)] /\
        r = Some (plain (ContainerError "wait_dependency" (ID t)
                           ("dependency " +:+ container.ID dep +:+ " not ready")
                           (Some err)))).
Proof.
  induction deps as [|dep rest IH]; intros w r w' tr; simpl.
  - intros [= <- <- <-]. by left.
  - unfold bind, call.
    destruct (depWaitForReady dep ctx timeout w) as [[err|] w1].
    + intros [= <- <- <-]. right. by exists [], dep, rest, err.
    + destruct (waitDependencies _ t ctx timeout rest w1) as [[r1 w2] tr1] eqn:Hrest.
      intros [= <- <- <-].
      destruct (IH _ _ _ _ Hrest) as [[-> ->]|(visited & d & remaining & err & -> & -> & ->)].
      * by left.
      * right. by exists (dep :: visited), d, remaining, err.
Qed.

Lemma validateEndpoint_run ctx (url name : string) w
    (r : option goerror) w' (tr : list ReadyCall) :
  validateEndpoint http ctx url name w = (r, w', tr) ->
  (tr = [] /\ w' = w /\ is_Some r /\
   is_Some (NewRequestWithContext http ctx "GET" url))
  \/
  (exists resp,
      Do http ctx (10 * health.Second) url w = (resp, w') /\
      tr = [CallGet url resp] /\
      (r = None <-> exists status, resp = inr status /\ 200 <= status < 300)).
Proof.
  unfold validateEndpoint, bind, call, ret.
  destruct (NewRequestWithContext http ctx "GET" url) as [e|] eqn:Hreq.
  - intros [= <- <- <-]. left. by split_and!.
  - destruct (Do http ctx (10 * health.Second) url w) as [[e|status] w1] eqn:Hdo.
    + intros [= <- <- <-]. right. exists (inl e). split_and!; try done.
      split; [done|]. by intros (s & [=] & _).
    + unfold notSuccess.
      destruct (Z.ltb_spec status 200), (Z.leb_spec 300 status); simpl;
        intros [= <- <- <-]; right; exists (inr status);
        (split_and!; [done|done|]); split;
        first [ done
              | intros _; exists status; split; [done|lia]
              | intros (s & [= <-] & Hs); lia ].
Qed.

(** X23. [WaitForReady] waits for the dependencies in the listed order, then
    for the primary, and passes the same [timeout] to every one of these
    waits.  The first dependency that is not ready ends it: the later
    dependencies and the primary are not waited for, and the error names
    that dependency.  After the primary's wait requests are made only for a
    skeleton application whose primary became ready, and a failed validation
    is returned as a "validate_skeleton_endpoints" error. *)
Theorem WaitForReady_stages
    t ctx timeout (ticks : nat) (cause : error) w
    (r : option goerror) w' (tr : list ReadyCall)
    (Hrun : WaitForReady rt net http afterTick depWaitForReady
              t ctx timeout ticks cause w = (r, w', tr)) :
  (exists visited dep remaining (err : error),
      dependencies t = visited ++ dep :: remaining /\
      tr = ((fun d => CallDepWait (container.ID d) timeout None) <$> visited)
             ++ [CallDepWait (container.ID dep) timeout (Some err)] /\
      r = Some (plain (ContainerError "wait_dependency" (ID t)
                         ("dependency " +:+ container.ID dep +:+ " not ready")
                         (Some err))))
  \/
  (exists (rp : option error) (gets : list ReadyCall),
      tr = ((fun d => CallDepWait (container.ID d) timeout None)
              <$> dependencies t)
             ++ CallPrimaryWait (ID t) timeout rp :: gets /\
      Forall (fun c => exists url resp, c = CallGet url resp) gets /\
      match rp with
      | Some e => r = Some (plain e) /\ gets = []
      | None =>
          match skeletonConfig t with
          | None => r = None /\ gets = []
          | Some _ =>
              r = None \/
              exists e, r = Some (wrapContainerError "validate_skeleton_endpoints"
                                    (ID t) "skeleton endpoints validation failed" e)
          end
      end).
Proof.
  revert Hrun. unfold WaitForReady. unfold bind at 1.
  destruct (waitDependencies depWaitForReady t ctx timeout (dependencies t) w)
    as [[r0 w0] tr0] eqn:Hdeps.
  apply waitDependencies_run in Hdeps
    as [[-> ->]|(visited & dep & remaining & err & Hd & -> & ->)].
  2:{ intros [= <- <- <-]. left. exists visited, dep, remaining, err.
      by rewrite app_nil_r. }
  unfold bind, call.
  destruct (docker_container.WaitForReady rt afterTick (DockerContainer_ t)
              ticks cause w0) as [[e|] w1].
  - intros [= <- <- <-]. right. exists (Some e), []. by split_and!.
  - destruct (skeletonConfig t) as [sk|] eqn:Hsk.
    2:{ intros [= <- <- <-]. right. exists None, []. by split_and!. }
    unfold validateSkeletonEndpoints.
    case_decide as Hbase.
    { intros [= <- <- <-]. right. exists None, [].
      split_and!; try done. right. by eexists. }
    unfold bind.
    destruct (validateEndpoint http ctx _ "skeleton system service" w1)
      as [[r1 w2] tr1] eqn:H1.
    assert (Forall (fun c => exists url resp, c = CallGet url resp) tr1) as Htr1.
    { apply validateEndpoint_run in H1 as [(-> & _)|(resp & _ & -> & _)].
      - constructor.
      - repeat constructor. by eexists _, _. }
    destruct r1 as [e1|].
    + intros [= <- <- <-]. right. exists None, tr1.
      split_and!; [simpl; by rewrite ?app_nil_r|done|right; by eexists].
    + destruct (validateEndpoint http ctx _ "skeleton components" w2)
        as [[r2 w3] tr2] eqn:H2.
      assert (Forall (fun c => exists url resp, c = CallGet url resp) tr2) as Htr2.
      { apply validateEndpoint_run in H2 as [(-> & _)|(resp & _ & -> & _)].
        - constructor.
        - repeat constructor. by eexists _, _. }
      destruct r2 as [e2|]; intros [= <- <- <-]; right;
        exists None, (tr1 ++ tr2);
        (split_and!; [simpl; by rewrite ?app_nil_r|by apply Forall_app|]).
      * right. by eexists.
      * by left.
Qed.

End AppReadyFacts.

Section AppValidation.
Import testcontainers goerrors net_http app_ready.
Context {W Handle Any : Type}.
Context (net : docker_container.Network W Handle) (http : Client W).
Implicit Types (t : TestcontainerAppContainer W Handle Any) (w : W).
Implicit Types (ctx : health.Context).

Lemma append_inj_l (s a b : string) : s +:+ a = s +:+ b -> a = b.
Proof. induction s as [|c s IH]; simpl; [done|]. intros [= H]. by apply IH. Qed.

(** X24. The validation of a skeleton application asks for its connection
    string once.  If that is empty it makes no request and fails.  If not,
    it requests "/api/system/health" under that address and, only when the
    answer has a status from 200 to 299, "/api/components"; it returns [nil]
    exactly when both requests were answered with such a status. *)
Theorem validateSkeletonEndpoints_verdict
    t ctx w (r : option goerror) w' (tr : list ReadyCall)
    (Hrun : validateSkeletonEndpoints net http t ctx w = (r, w', tr)) :
  let base := ConnectionString net t w in
  (base = "" ->
   tr = [] /\ w' = w /\
   r = Some (Errorf
               "unable to get connection string for skeleton endpoint validation")) /\
  (r = None <->
   base <> "" /\
   exists s1 s2,
     tr = [CallGet (base +:+ "/api/system/health") (inr s1);
           CallGet (base +:+ "/api/components") (inr s2)] /\
     200 <= s1 < 300 /\ 200 <= s2 < 300) /\
  (forall resp,
     CallGet (base +:+ "/api/components") resp ∈ tr ->
     exists s1,
       tr = [CallGet (base +:+ "/api/system/health") (inr s1);
             CallGet (base +:+ "/api/components") resp] /\
       200 <= s1 < 300).
Proof.
  intros base. revert Hrun. unfold validateSkeletonEndpoints. fold base.
  assert (forall resp resp',
            CallGet (base +:+ "/api/components") resp <>
            CallGet (base +:+ "/api/system/health") resp') as Hurl.
  { intros resp resp' [= H _]. by apply append_inj_l in H. }
  case_decide as Hbase.
  { intros [= <- <- <-]. split_and!; try done.
    - split; [done|]. by intros [? _].
    - intros resp H. by apply not_elem_of_nil in H. }
  unfold bind.
  destruct (validateEndpoint http ctx (base +:+ "/api/system/health")
              "skeleton system service" w) as [[r1 w1] tr1] eqn:H1.
  apply validateEndpoint_run in H1
    as [(-> & -> & [e1 ->] & _)|(resp1 & Hdo1 & -> & Hok1)].
  { intros [= <- <- <-]. split_and!; try done.
    - split; [done|]. by intros (_ & s1 & s2 & [=] & _).
    - intros resp H. by apply not_elem_of_nil in H. }
  destruct r1 as [e1|].
  { intros [= <- <- <-]. split_and!; try done.
    - split; [done|]. intros (_ & s1 & s2 & [=] & _).
    - intros resp H. simpl in H.
      apply list_elem_of_singleton in H. by apply Hurl in H. }
  destruct Hok1 as [Hok1 _]. destruct (Hok1 eq_refl) as (s1 & -> & Hs1).
  destruct (validateEndpoint http ctx (base +:+ "/api/components")
              "skeleton components" w1) as [[r2 w2] tr2] eqn:H2.
  apply validateEndpoint_run in H2
    as [(-> & -> & [e2 ->] & _)|(resp2 & Hdo2 & -> & Hok2)].
  { intros [= <- <- <-]. split_and!; try done.
    - split; [done|]. by intros (_ & s1' & s2 & [=] & _).
    - intros resp H. simpl in H.
      apply list_elem_of_singleton in H. by apply Hurl in H. }
  intros [= <- <- <-]. split_and!; try done.
  - rewrite Hok2. split.
    + intros (s2 & -> & Hs2). split; [done|]. by exists s1, s2.
    + intros (_ & s1' & s2 & [= _ ->] & _ & Hs2). by exists s2.
  - intros resp H. simpl in H.
    apply elem_of_cons in H as [H|H]; [by apply Hurl in H|].
    apply list_elem_of_singleton in H. injection H as <-. by exists s1.
Qed.

End AppValidation.

Section ReadyRuns.
Import testcontainers goerrors net_http app_ready fixtures fixtures_ready.

Lemma WaitForReady_returns_at_first_running_tick_witness :
  let d := dockerContainer "db" in
  let w := world ["db"] [] [] in
  let cause := errorString "context deadline exceeded" in
  (exists n,
      (0 < n <= 5)%nat /\
      docker.IsRunning runtime d (Nat.iter n afterTick w) = true /\
      (forall k, (0 < k < n)%nat ->
                 docker.IsRunning runtime d (Nat.iter k afterTick w) = false) /\
      docker_container.WaitForReady runtime afterTick d 5 cause w =
        (None, Nat.iter n afterTick w))
  \/
  ((forall k, (0 < k <= 5)%nat ->
              docker.IsRunning runtime d (Nat.iter k afterTick w) = false) /\
   docker_container.WaitForReady runtime afterTick d 5 cause w =
     (Some (ContainerError "wait_for_ready" (docker.ID (docker.config d))
              "timeout waiting for container to be ready" (Some cause)),
      Nat.iter 5 afterTick w)).
Proof.
  intros d w cause.
  apply (WaitForReady_returns_at_first_running_tick runtime afterTick d "db").
  reflexivity.
Defined.

(** [db] is ready, [cache] is not; [mq] and the primary are not waited
    for. *)
Lemma WaitForReady_stages_witness :
  let t := skeletonCreated ["db"; "cache"; "mq"] in
  let w := world ["skeleton-app"; "db"; "mq"] [] [] in
  let run := WaitForReady runtime network (httpClient (fun _ => 200)) afterTick
               depWaitForReady t health.Background (30 * health.Second) 5
               (errorString "context deadline exceeded") w in
  let timeout := 30 * health.Second in
  let r := run.1.1 in
  let tr := run.2 in
  (exists visited dep remaining (err : error),
      dependencies t = visited ++ dep :: remaining /\
      tr = ((fun d => CallDepWait (container.ID d) timeout None) <$> visited)
             ++ [CallDepWait (container.ID dep) timeout (Some err)] /\
      r = Some (plain (ContainerError "wait_dependency" (ID t)
                         ("dependency " +:+ container.ID dep +:+ " not ready")
                         (Some err))))
  \/
  (exists (rp : option error) (gets : list ReadyCall),
      tr = ((fun d => CallDepWait (container.ID d) timeout None)
              <$> dependencies t)
             ++ CallPrimaryWait (ID t) timeout rp :: gets /\
      Forall (fun c => exists url resp, c = CallGet url resp) gets /\
      match rp with
      | Some e => r = Some (plain e) /\ gets = []
      | None =>
          match skeletonConfig t with
          | None => r = None /\ gets = []
          | Some _ =>
              r = None \/
              exists e, r = Some (wrapContainerError "validate_skeleton_endpoints"
                                    (ID t) "skeleton endpoints validation failed" e)
          end
      end).
Proof.
  intros t w run timeout r tr.
  apply (WaitForReady_stages runtime network (httpClient (fun _ => 200))
           afterTick depWaitForReady t health.Background timeout 5
           (errorString "context deadline exceeded") w r run.1.2 tr).
  reflexivity.
Defined.

(** All ready and both endpoints answer 200: the calls of the run. *)
Example WaitForReady_all_ready :
  let t := skeletonCreated ["db"; "cache"] in
  let w := world ["skeleton-app"; "db"; "cache"] [] [] in
  let run := WaitForReady runtime network (httpClient (fun _ => 200)) afterTick
               depWaitForReady t health.Background (30 * health.Second) 5
               (errorString "context deadline exceeded") w in
  run.1.1 = None /\
  run.2 = [CallDepWait "db" (30 * health.Second) None;
           CallDepWait "cache" (30 * health.Second) None;
           CallPrimaryWait "container-abcd1234" (30 * health.Second) None;
           CallGet "http://localhost:32768/api/system/health" (inr 200);
           CallGet "http://localhost:32768/api/components" (inr 200)].
Proof. split; vm_compute; reflexivity. Qed.

Lemma validateSkeletonEndpoints_verdict_witness :
  let t := skeletonCreated [] in
  let w := world ["skeleton-app"] [] [] in
  let client := httpClient (fun url =>
                  if String.eqb url "http://localhost:32768/api/components"
                  then 503 else 204) in
  let run := validateSkeletonEndpoints network client t health.Background w in
  let r := run.1.1 in
  let w' := run.1.2 in
  let tr := run.2 in
  let base := ConnectionString network t w in
  (base = "" ->
   tr = [] /\ w' = w /\
   r = Some (Errorf
               "unable to get connection string for skeleton endpoint validation")) /\
  (r = None <->
   base <> "" /\
   exists s1 s2,
     tr = [CallGet (base +:+ "/api/system/health") (inr s1);
           CallGet (base +:+ "/api/components") (inr s2)] /\
     200 <= s1 < 300 /\ 200 <= s2 < 300) /\
  (forall resp,
     CallGet (base +:+ "/api/components") resp ∈ tr ->
     exists s1,
       tr = [CallGet (base +:+ "/api/system/health") (inr s1);
             CallGet (base +:+ "/api/components") resp] /\
       200 <= s1 < 300).
Proof.
  intros t w client run r w' tr base.
  apply (validateSkeletonEndpoints_verdict network client t health.Background
           w r w' tr).
  reflexivity.
Defined.

(** The error of that run. *)
Example validation_error_text :
  let t := skeletonCreated [] in
  let w := world ["skeleton-app"] [] [] in
  let client := httpClient (fun url =>
                  if String.eqb url "http://localhost:32768/api/components"
                  then 503 else 204) in
  ErrorText <$> (validateSkeletonEndpoints network client t health.Background w).1.1
  = Some "skeleton components endpoint returned status 503".
Proof. vm_compute. reflexivity. Qed.

End ReadyRuns.

(* ===================================================================== *)
(** * Properties of the HTTP health checks *)
(* ===================================================================== *)
Section HealthChecksFacts.
Import goerrors net_http health_checks.
Context {W : Type} (http : Client W).
Implicit Types (ctx : health.Context) (tgt : health.HealthTarget W) (w : W).

Lemma notSuccess_false (status : Z) :
  notSuccess status = false <-> 200 <= status < 300.
Proof.
  unfold notSuccess. rewrite orb_false_iff, Z.ltb_ge, Z.leb_gt. lia.
Qed.

(** X25. An [HTTPHealthCheck] requests its own endpoint if it has one and
    otherwise the target's health endpoint as it is, without the target's
    connection string, which it never reads.  It returns [nil] exactly when
    the request can be made and is answered with a status from 200 to
    299. *)
Theorem HTTPHealthCheck_verdict (h : HTTPHealthCheck) ctx tgt w :
  let url := if decide (endpoint h = "") then health.HealthEndpoint W tgt w
             else endpoint h in
  ((Check http h ctx tgt w).1 = None <->
   NewRequestWithContext http ctx "GET" url = None /\
   exists status,
     (Do http ctx (clientTimeout h) url w).1 = inr status /\
     200 <= status < 300) /\
  (forall tgt',
     health.HealthEndpoint W tgt' w = health.HealthEndpoint W tgt w ->
     Check http h ctx tgt' w = Check http h ctx tgt w) /\
  (forall name, (* the check the tests build, without an endpoint *)
     (Check http (NewHTTPHealthCheck name "") ctx tgt w).1 = None ->
     exists status,
       (Do http ctx (10 * health.Second) (health.HealthEndpoint W tgt w) w).1
         = inr status).
Proof.
  intros url. split_and!.
  - unfold Check. fold url.
    destruct (NewRequestWithContext http ctx "GET" url) as [e|].
    + split; [done|]. by intros [[=] _].
    + destruct (Do http ctx (clientTimeout h) url w) as [[e|status] w'].
      * split; [done|]. by intros (_ & s & [=] & _).
      * simpl. destruct (notSuccess status) eqn:Hs.
        -- split; [done|]. intros (_ & s & [= <-] & Hr).
           apply notSuccess_false in Hr. congruence.
        -- split; [|done]. intros _. split; [done|]. exists status.
           split; [done|]. by apply notSuccess_false.
  - intros tgt' Heq. unfold Check. by rewrite Heq.
  - intros name. unfold Check. simpl.
    destruct (NewRequestWithContext http ctx "GET" _) as [e|]; [done|].
    destruct (Do http ctx _ _ w) as [[e|status] w']; [done|].
    intros _. by exists status.
Qed.

Lemma prefixed_ne (s : string) : "skeleton-component-" +:+ s <> "skeleton-system".
Proof. done. Qed.

(** X26. The check of a component requests the target's health endpoint
    followed by "/skeleton/components/<id>/status", and the system check the
    health endpoint followed by "/skeleton/system"; each returns [nil]
    exactly when its request can be made and is answered with a status from
    200 to 299.  Checks of different components have different names, none
    of which is the name of the system check: in a monitor their results do
    not overwrite one another. *)
Theorem skeleton_checks_requests_and_names (id : string) ctx tgt w :
  let base := health.HealthEndpoint W tgt w in
  ((ComponentCheck http (NewSkeletonComponentHealthCheck id) ctx tgt w).1 = None <->
   NewRequestWithContext http ctx "GET"
     (base +:+ "/skeleton/components/" +:+ id +:+ "/status") = None /\
   exists status,
     (Do http ctx (10 * health.Second)
        (base +:+ "/skeleton/components/" +:+ id +:+ "/status") w).1 = inr status /\
     200 <= status < 300) /\
  ((SystemCheck http NewSkeletonSystemHealthCheck ctx tgt w).1 = None <->
   NewRequestWithContext http ctx "GET" (base +:+ "/skeleton/system") = None /\
   exists status,
     (Do http ctx (10 * health.Second) (base +:+ "/skeleton/system") w).1
       = inr status /\
     200 <= status < 300) /\
  (forall ids : list string,
     NoDup ids ->
     NoDup (systemName NewSkeletonSystemHealthCheck
              :: (componentName ∘ NewSkeletonComponentHealthCheck <$> ids))).
Proof.
  intros base. split_and!.
  - unfold ComponentCheck. simpl. fold base.
    destruct (NewRequestWithContext http ctx "GET" _) as [e|].
    + split; [done|]. by intros [[=] _].
    + destruct (Do http ctx _ _ w) as [[e|status] w'].
      * split; [done|]. by intros (_ & s & [=] & _).
      * simpl. destruct (notSuccess status) eqn:Hs.
        -- split; [done|]. intros (_ & s & [= <-] & Hr).
           apply notSuccess_false in Hr. congruence.
        -- split; [|done]. intros _. split; [done|]. exists status.
           split; [done|]. by apply notSuccess_false.
  - unfold SystemCheck. simpl. fold base.
    destruct (NewRequestWithContext http ctx "GET" _) as [e|].
    + split; [done|]. by intros [[=] _].
    + destruct (Do http ctx _ _ w) as [[e|status] w'].
      * split; [done|]. by intros (_ & s & [=] & _).
      * simpl. destruct (notSuccess status) eqn:Hs.
        -- split; [done|]. intros (_ & s & [= <-] & Hr).
           apply notSuccess_false in Hr. congruence.
        -- split; [|done]. intros _. split; [done|]. exists status.
           split; [done|]. by apply notSuccess_false.
  - intros ids Hnd. apply NoDup_cons. split.
    + intros Hin. apply list_elem_of_fmap in Hin as (i & Heq & _).
      simpl in Heq. symmetry in Heq. by apply prefixed_ne in Heq.
    + apply NoDup_fmap_2; [|done].
      intros i j Heq. simpl in Heq. by apply append_inj_l in Heq.
Qed.

End HealthChecksFacts.

(* ===================================================================== *)
(** * Properties of the application wrapper's builder methods *)
(* ===================================================================== *)
Section WrapperFacts.
Import testcontainers pkg_container.
Context {W Handle Any : Type}.

#[local] Abbreviation Impl := (TestcontainerAppContainer W Handle Any).

Lemma foldl_AddDependency (deps : list (Container W)) (t : Impl) :
  DockerContainer_ (foldl AddDependency t deps) = DockerContainer_ t /\
  skeletonConfig (foldl AddDependency t deps) = skeletonConfig t /\
  dependencies (foldl AddDependency t deps) = dependencies t ++ deps.
Proof.
  revert t. induction deps as [|dep deps IH]; intros t; simpl.
  - by rewrite app_nil_r.
  - destruct (IH (AddDependency t dep)) as (Hd & Hs & Hdeps).
    rewrite Hd, Hs, Hdeps. simpl. by rewrite <- app_assoc.
Qed.

Lemma new_not_in_use (heap : gmap nat Impl) : heap !! fresh (dom heap) = None.
Proof. apply not_elem_of_dom, is_fresh. Qed.

Lemma new_elsewhere (heap : gmap nat Impl) (t : Impl) (addr : nat) :
  addr <> fresh (dom heap) -> (new heap t).2 !! addr = heap !! addr.
Proof. intros Hne. unfold new. simpl. by rewrite lookup_insert_ne. Qed.

Lemma WithEnvironment_unfold (a : AppContainer) (env : gmap string string)
    (heap : gmap nat Impl) (old : Impl) :
  heap !! impl a = Some old ->
  WithEnvironment a env heap =
    Some ({| impl := fresh (dom heap) |},
          <[fresh (dom heap) :=
              foldl AddDependency
                (NewTestcontainerAppContainer
                   {| docker.ID := docker.ID (docker.config (DockerContainer_ old));
                      docker.Name := docker.Name (docker.config (DockerContainer_ old));
                      docker.Image := docker.Image (docker.config (DockerContainer_ old));
                      docker.Environment :=
                        env ∪ docker.Environment (docker.config (DockerContainer_ old));
                      docker.Ports := docker.Ports (docker.config (DockerContainer_ old)) |}
                   (skeletonConfig old))
                (dependencies old)]> heap).
Proof. intros Hold. unfold WithEnvironment, new. by rewrite Hold. Qed.

Lemma WithSkeletonConfig_unfold (a : AppContainer)
    (config : option (SkeletonConfig Any)) (heap : gmap nat Impl)
    (old : Impl) :
  heap !! impl a = Some old ->
  WithSkeletonConfig a config heap =
    Some ({| impl := fresh (dom heap) |},
          <[fresh (dom heap) :=
              foldl AddDependency
                (NewTestcontainerAppContainer
                   (docker.config (DockerContainer_ old)) config)
                (dependencies old)]> heap).
Proof. intros Hold. unfold WithSkeletonConfig, new. by rewrite Hold. Qed.

Lemma in_use_not_new (heap : gmap nat Impl) (addr : nat) (t : Impl) :
  heap !! addr = Some t -> fresh (dom heap) <> addr.
Proof.
  intros Hin Heq. pose proof (new_not_in_use heap) as Hnew.
  rewrite Heq in Hnew. congruence.
Qed.

(** X27.  [WithEnvironment] does not change the application it is called
    on: it makes a new application at an address not in use, and every
    object of the store stays as it was.  The new application has the
    receiver's identifier, name, image, ports, skeleton configuration and
    dependencies (in the same order); its environment gives, for every
    variable, the value of [env] where [env] has one and the receiver's
    value otherwise; and it has no container handle, also when the
    receiver has one. *)
Theorem WithEnvironment_derives_fresh_application (a : AppContainer)
    (env : gmap string string) (heap : gmap nat Impl) (old : Impl) :
  heap !! impl a = Some old ->
  exists b heap' new,
    WithEnvironment a env heap = Some (b, heap') /\
    impl b <> impl a /\
    heap !! impl b = None /\
    heap' !! impl b = Some new /\
    (forall addr, addr <> impl b -> heap' !! addr = heap !! addr) /\
    (forall k,
       docker.Environment (docker.config (DockerContainer_ new)) !! k =
       match env !! k with
       | Some v => Some v
       | None => docker.Environment (docker.config (DockerContainer_ old)) !! k
       end) /\
    docker.ID (docker.config (DockerContainer_ new)) =
      docker.ID (docker.config (DockerContainer_ old)) /\
    docker.Name (docker.config (DockerContainer_ new)) =
      docker.Name (docker.config (DockerContainer_ old)) /\
    docker.Image (docker.config (DockerContainer_ new)) =
      docker.Image (docker.config (DockerContainer_ old)) /\
    docker.Ports (docker.config (DockerContainer_ new)) =
      docker.Ports (docker.config (DockerContainer_ old)) /\
    skeletonConfig new = skeletonConfig old /\
    dependencies new = dependencies old /\
    docker.container (DockerContainer_ new) = None.
Proof.
  intros Hold.
  rewrite (WithEnvironment_unfold a env heap old Hold).
  eexists _, _, _. split; [reflexivity|]. simpl.
  pose proof (in_use_not_new heap _ _ Hold) as Hne.
  match goal with
  | |- context [foldl AddDependency ?t0 ?deps] =>
      destruct (foldl_AddDependency deps t0) as (Hd & Hs & Hdeps)
  end.
  split_and!.
  - done.
  - apply new_not_in_use.
  - by rewrite lookup_insert_eq.
  - intros addr Haddr. by rewrite lookup_insert_ne.
  - intros k. rewrite Hd. simpl. rewrite lookup_union.
    destruct (env !! k) as [v|];
      destruct (docker.Environment (docker.config (DockerContainer_ old)) !! k);
      done.
  - by rewrite Hd.
  - by rewrite Hd.
  - by rewrite Hd.
  - by rewrite Hd.
  - by rewrite Hs.
  - by rewrite Hdeps.
  - by rewrite Hd.
Qed.

(** X28.  The dependency methods change the application they are called
    on and return that same wrapper, while [WithEnvironment] copies the
    dependencies of that moment.  So a database added after
    [WithEnvironment] is a dependency of the receiver but not of the
    application [WithEnvironment] returned; added before, it is the last
    dependency of both. *)
Theorem WithDatabase_after_WithEnvironment_not_shared (a : AppContainer)
    (env : gmap string string) (db : Container W) (heap : gmap nat Impl)
    (old : Impl) :
  heap !! impl a = Some old ->
  (exists b heap1 heap2 ta tb,
     WithEnvironment a env heap = Some (b, heap1) /\
     WithDatabase a db heap1 = Some (a, heap2) /\
     heap2 !! impl a = Some ta /\
     dependencies ta = dependencies old ++ [db] /\
     heap2 !! impl b = Some tb /\
     dependencies tb = dependencies old) /\
  (exists b heap1 heap2 ta tb,
     WithDatabase a db heap = Some (a, heap1) /\
     WithEnvironment a env heap1 = Some (b, heap2) /\
     heap2 !! impl a = Some ta /\
     dependencies ta = dependencies old ++ [db] /\
     heap2 !! impl b = Some tb /\
     dependencies tb = dependencies old ++ [db]).
Proof.
  intros Hold. split.
  - rewrite (WithEnvironment_unfold a env heap old Hold).
    pose proof (in_use_not_new heap _ _ Hold) as Hne.
    eexists _, _, _, _, _. split; [reflexivity|].
    unfold WithDatabase.
    rewrite lookup_insert_ne by done. rewrite Hold.
    split; [reflexivity|]. simpl.
    split_and!.
    + by rewrite lookup_insert_eq.
    + done.
    + rewrite lookup_insert_ne by done. by rewrite lookup_insert_eq.
    + match goal with
      | |- context [foldl AddDependency ?t0 ?deps] =>
          destruct (foldl_AddDependency deps t0) as (_ & _ & ->)
      end.
      done.
  - unfold WithDatabase at 1. rewrite Hold.
    assert (Hin : <[impl a := AddDependency old db]> heap !! impl a
                  = Some (AddDependency old db))
      by by rewrite lookup_insert_eq.
    pose proof (in_use_not_new _ _ _ Hin) as Hne.
    eexists _, _, _, _, _. split; [reflexivity|].
    split; [exact (WithEnvironment_unfold a env _ _ Hin)|]. simpl.
    split_and!.
    + rewrite lookup_insert_ne by done. by rewrite lookup_insert_eq.
    + done.
    + by rewrite lookup_insert_eq.
    + match goal with
      | |- context [foldl AddDependency ?t0 ?deps] =>
          destruct (foldl_AddDependency deps t0) as (_ & _ & ->)
      end.
      done.
Qed.

End WrapperFacts.

Section WrapperLifecycle.
Import testcontainers pkg_container.
Context {W Handle Any : Type} (rt : docker.Runtime W Handle Any).

#[local] Abbreviation Impl := (TestcontainerAppContainer W Handle Any).

Lemma not_started_Stop (t : Impl) (w : W) :
  docker.container (DockerContainer_ t) = None ->
  docker.IsRunning rt (DockerContainer_ t) w = false /\
  testcontainers.Stop rt t w =
    (Some (ContainerError "stop" (ID t) "container not initialized" None), w,
     [CallPrimaryStop (ID t)
        (Some (ContainerError "stop" (ID t)
                 "container not initialized" None))]).
Proof.
  intros Hnone. split.
  - unfold docker.IsRunning. by rewrite Hnone.
  - unfold testcontainers.Stop, bind, call, docker.Stop, ID.
    rewrite Hnone. reflexivity.
Qed.

(** X29.  An application made by [WithEnvironment] or [WithSkeletonConfig]
    (so also by [WithSkeletonPlugins]) is not started, whatever the state
    of the application it was made from: in every world [IsRunning] is
    false on it, and [Stop] on it fails with "container not initialized"
    under the receiver's identifier, without stopping any dependency and
    without changing the world. *)
Theorem derived_application_is_not_started (a : AppContainer)
    (env : gmap string string) (config : option (SkeletonConfig Any))
    (plugins : list (SkeletonPluginConfig Any))
    (heap : gmap nat Impl) (old : Impl) (w : W) :
  heap !! impl a = Some old ->
  let notInitialized :=
    ContainerError "stop" (ID old) "container not initialized" None in
  let refused (b : AppContainer) (heap' : gmap nat Impl) :=
    pkg_lifecycle.IsRunning rt b heap' w = Some false /\
    pkg_lifecycle.Stop rt b heap' w =
      Some (Some notInitialized, w,
            [CallPrimaryStop (ID old) (Some notInitialized)]) in
  (exists b heap', WithEnvironment a env heap = Some (b, heap') /\
                   refused b heap') /\
  (exists b heap', WithSkeletonConfig a config heap = Some (b, heap') /\
                   refused b heap') /\
  (exists b heap', WithSkeletonPlugins a plugins heap = Some (b, heap') /\
                   refused b heap').
Proof.
  intros Hold notInitialized refused.
  assert (Hrefused : forall (t0 : Impl),
            docker.container (DockerContainer_ t0) = None ->
            ID t0 = ID old ->
            refused {| impl := fresh (dom heap) |}
              (<[fresh (dom heap) :=
                   foldl AddDependency t0 (dependencies old)]> heap)).
  { intros t0 Hnone Hid. unfold refused, pkg_lifecycle.IsRunning,
      pkg_lifecycle.Stop. simpl. rewrite lookup_insert_eq.
    destruct (foldl_AddDependency (dependencies old) t0) as (Hd & _ & _).
    destruct (not_started_Stop (foldl AddDependency t0 (dependencies old)) w)
      as [Hrun Hstop].
    { by rewrite Hd. }
    assert (Hid' : ID (foldl AddDependency t0 (dependencies old)) = ID old).
    { unfold ID in *. by rewrite Hd. }
    rewrite Hrun, Hstop, Hid'. done. }
  split_and!.
  - rewrite (WithEnvironment_unfold a env heap old Hold).
    eexists _, _. split; [reflexivity|]. by apply Hrefused.
  - rewrite (WithSkeletonConfig_unfold a config heap old Hold).
    eexists _, _. split; [reflexivity|]. by apply Hrefused.
  - unfold WithSkeletonPlugins.
    rewrite (WithSkeletonConfig_unfold a _ heap old Hold).
    eexists _, _. split; [reflexivity|]. by apply Hrefused.
Qed.

End WrapperLifecycle.

(* ===================================================================== *)
(** * Properties of the system verifier *)
(* ===================================================================== *)
Section VerifierFacts.
Import testcontainers pkg_container goerrors verification.
Context {W Handle Any : Type} (rt : docker.Runtime W Handle Any).

#[local] Abbreviation Impl := (TestcontainerAppContainer W Handle Any).

(** X30.  [VerifySkeletonShutdown] on a verifier whose application is in
    the store returns.  When it returns nil the application is not running
    in the world it leaves.  When the application is not running at the
    call, it returns nil without any call and without changing the world.
    When it returns an error the application was running at the call and
    [Stop] was called on it: either [Stop] failed, and the error wraps
    [Stop]'s error after "failed to stop skeleton application: ", or [Stop]
    returned nil and the application is still running. *)
Theorem VerifySkeletonShutdown_verdict (s : SystemVerifier)
    (heap : gmap nat Impl) (t : Impl) (w : W) :
  heap !! impl (app s) = Some t ->
  let running := docker.IsRunning rt (DockerContainer_ t) in
  exists r w' calls,
    VerifySkeletonShutdown rt s heap w = Some (r, w', calls) /\
    (r = None -> running w' = false) /\
    (running w = false -> r = None /\ w' = w /\ calls = []) /\
    (forall e, r = Some e ->
       running w = true /\
       exists stopErr,
         testcontainers.Stop rt t w = (stopErr, w', calls) /\
         match stopErr with
         | Some err =>
             e = wrapError
                   ("failed to stop skeleton application: "
                      +:+ container.Error err)
                   (plain err)
         | None =>
             running w' = true /\
             e = plain (errorString
                          "skeleton application is still running after stop")
         end).
Proof.
  intros Ht running.
  unfold VerifySkeletonShutdown, pkg_lifecycle.IsRunning, pkg_lifecycle.Stop.
  rewrite Ht. fold running.
  destruct (running w) eqn:Hrun.
  - destruct (testcontainers.Stop rt t w) as [[stopErr w'] calls] eqn:Hstop.
    destruct stopErr as [err|].
    + eexists _, _, _. split; [reflexivity|]. split_and!.
      * done.
      * done.
      * intros e [= <-]. split; [done|]. exists (Some err). done.
    + destruct (running w') eqn:Hrun'.
      * eexists _, _, _. split; [reflexivity|]. split_and!.
        -- done.
        -- done.
        -- intros e [= <-]. split; [done|]. exists None. done.
      * eexists _, _, _. split; [reflexivity|]. split_and!; done.
  - eexists _, _, _. split; [reflexivity|]. split_and!; done.
Qed.

End VerifierFacts.

Section WrapperRuns.
Import fixtures fixtures_more fixtures_wrapper.

Lemma WithEnvironment_derives_fresh_application_witness :
  let env : gmap string string :=
    <["LOG_LEVEL" := "info"]> (<["DB_URL" := "postgres://db"]> ∅) in
  store !! pkg_container.impl wrapper
    = Some (testcontainers.AddDependency skeletonApp (dependency "db")) /\
  exists b heap' new,
    pkg_container.WithEnvironment wrapper env store = Some (b, heap') /\
    pkg_container.impl b <> pkg_container.impl wrapper /\
    store !! pkg_container.impl b = None /\
    heap' !! pkg_container.impl b = Some new /\
    (forall addr, addr <> pkg_container.impl b ->
                  heap' !! addr = store !! addr) /\
    (forall k,
       docker.Environment
         (docker.config (testcontainers.DockerContainer_ new)) !! k =
       match env !! k with
       | Some v => Some v
       | None => docker.Environment skeletonAppConfig !! k
       end) /\
    docker.ID (docker.config (testcontainers.DockerContainer_ new)) =
      "container-abcd1234" /\
    docker.Name (docker.config (testcontainers.DockerContainer_ new)) =
      "skeleton-app" /\
    docker.Image (docker.config (testcontainers.DockerContainer_ new)) =
      "skeleton-app:latest" /\
    docker.Ports (docker.config (testcontainers.DockerContainer_ new)) =
      docker.Ports skeletonAppConfig /\
    testcontainers.skeletonConfig new = Some skeleton /\
    testcontainers.dependencies new = [dependency "db"] /\
    docker.container (testcontainers.DockerContainer_ new) = None.
Proof.
  intros env. split; [reflexivity|].
  apply (WithEnvironment_derives_fresh_application wrapper env store
           (testcontainers.AddDependency skeletonApp (dependency "db"))).
  reflexivity.
Defined.

Lemma WithDatabase_after_WithEnvironment_not_shared_witness :
  let env : gmap string string := <["LOG_LEVEL" := "info"]> ∅ in
  let old := testcontainers.AddDependency skeletonApp (dependency "db") in
  store !! pkg_container.impl wrapper = Some old /\
  (exists b heap1 heap2 ta tb,
     pkg_container.WithEnvironment wrapper env store = Some (b, heap1) /\
     pkg_container.WithDatabase wrapper (dependency "cache") heap1
       = Some (wrapper, heap2) /\
     heap2 !! pkg_container.impl wrapper = Some ta /\
     testcontainers.dependencies ta = [dependency "db"; dependency "cache"] /\
     heap2 !! pkg_container.impl b = Some tb /\
     testcontainers.dependencies tb = [dependency "db"]) /\
  (exists b heap1 heap2 ta tb,
     pkg_container.WithDatabase wrapper (dependency "cache") store
       = Some (wrapper, heap1) /\
     pkg_container.WithEnvironment wrapper env heap1 = Some (b, heap2) /\
     heap2 !! pkg_container.impl wrapper = Some ta /\
     testcontainers.dependencies ta = [dependency "db"; dependency "cache"] /\
     heap2 !! pkg_container.impl b = Some tb /\
     testcontainers.dependencies tb = [dependency "db"; dependency "cache"]).
Proof.
  intros env old. split; [reflexivity|].
  apply (WithDatabase_after_WithEnvironment_not_shared wrapper env
           (dependency "cache") store old).
  reflexivity.
Defined.

Lemma derived_application_is_not_started_witness :
  let env : gmap string string := <["LOG_LEVEL" := "info"]> ∅ in
  let heap := createdStore ["db"] in
  let w := world ["skeleton-app"; "db"] [] [] in
  let notInitialized :=
    ContainerError "stop" "container-abcd1234" "container not initialized"
      None in
  let refused (b : pkg_container.AppContainer) heap' :=
    pkg_lifecycle.IsRunning runtime b heap' w = Some false /\
    pkg_lifecycle.Stop runtime b heap' w =
      Some (Some notInitialized, w,
            [testcontainers.CallPrimaryStop "container-abcd1234"
               (Some notInitialized)]) in
  heap !! pkg_container.impl wrapper = Some (created ["db"]) /\
  pkg_lifecycle.IsRunning runtime wrapper heap w = Some true /\
  (exists b heap',
     pkg_container.WithEnvironment wrapper env heap = Some (b, heap') /\
     refused b heap') /\
  (exists b heap',
     pkg_container.WithSkeletonConfig wrapper (Some skeleton) heap
       = Some (b, heap') /\
     refused b heap') /\
  (exists b heap',
     pkg_container.WithSkeletonPlugins wrapper [] heap = Some (b, heap') /\
     refused b heap').
Proof.
  intros env heap w notInitialized refused.
  split; [reflexivity|]. split; [reflexivity|].
  apply (derived_application_is_not_started runtime wrapper env
           (Some skeleton) [] heap (created ["db"]) w).
  reflexivity.
Defined.

Lemma VerifySkeletonShutdown_verdict_witness :
  let s := verification.NewSystemVerifier wrapper in
  let heap := createdStore ["db"] in
  let w := world ["skeleton-app"; "db"] [] [] in
  let running :=
    docker.IsRunning runtime (testcontainers.DockerContainer_ (created ["db"])) in
  heap !! pkg_container.impl (verification.app s) = Some (created ["db"]) /\
  verification.VerifySkeletonShutdown runtime s heap w
    = Some (None, world [] [] [],
            [testcontainers.CallPrimaryStop "container-abcd1234" None;
             testcontainers.CallIsRunning "db" true;
             testcontainers.CallStop "db" None]) /\
  exists r w' calls,
    verification.VerifySkeletonShutdown runtime s heap w
      = Some (r, w', calls) /\
    (r = None -> running w' = false) /\
    (running w = false -> r = None /\ w' = w /\ calls = []) /\
    (forall e, r = Some e ->
       running w = true /\
       exists stopErr,
         testcontainers.Stop runtime (created ["db"]) w
           = (stopErr, w', calls) /\
         match stopErr with
         | Some err =>
             e = goerrors.wrapError
                   ("failed to stop skeleton application: "
                      +:+ container.Error err)
                   (goerrors.plain err)
         | None =>
             running w' = true /\
             e = goerrors.plain
                   (errorString
                      "skeleton application is still running after stop")
         end).
Proof.
  intros s heap w running.
  split; [reflexivity|]. split; [vm_compute; reflexivity|].
  apply (VerifySkeletonShutdown_verdict runtime s heap (created ["db"]) w).
  reflexivity.
Defined.

End WrapperRuns.
